(** * ppt_generator: the deck planner and the narrative sanitizer

    A shallow embedding of [src/ppt_generator.py].  Python strings are
    modelled as [string] whose characters are code points below 256;
    Python integers as [Z]; the presentation object as the list of the
    slides added so far.  The language model and the random number
    generator are external: they are an oracle read through counters that
    the program state carries.  The library calls that stand outside
    every [try] - the plotting calls of the comparison loop and
    [prs.save] - return or raise; which of the two is given with the
    dataset and with the world. *)

From Stdlib Require Import ZArith List String Ascii Bool Lia Arith.
From Stdlib Require Import DecimalString.
From Stdlib Require Import Floats.SpecFloat.
Import ListNotations.

Open Scope list_scope.
Open Scope string_scope.

(** ** Python string primitives *)

Module PyStr.

(** [str.isspace] on one character, for code points below 256. *)
Definition is_space (c : ascii) : bool :=
  let n := nat_of_ascii c in
  (((9 <=? n) && (n <=? 13)) || ((28 <=? n) && (n <=? 32))
   || (n =? 133) || (n =? 160))%nat.

Fixpoint lstrip (s : string) : string :=
  match s with
  | EmptyString => EmptyString
  | String c r => if is_space c then lstrip r else s
  end.

(** [rstrip] keeps a character when it is not a space or when something
    that is kept follows it. *)
Fixpoint rstrip (s : string) : string :=
  match s with
  | EmptyString => EmptyString
  | String c r =>
      match rstrip r with
      | EmptyString => if is_space c then EmptyString else String c EmptyString
      | r' => String c r'
      end
  end.

Definition strip (s : string) : string := rstrip (lstrip s).

(** [s.split(sep)] for a one-character separator: never an empty list. *)
Fixpoint split (sep : ascii) (s : string) : list string :=
  match s with
  | EmptyString => [EmptyString]
  | String c r =>
      if Ascii.eqb c sep then EmptyString :: split sep r
      else match split sep r with
           | [] => [String c EmptyString]
           | w :: ws => String c w :: ws
           end
  end.

Definition newline : ascii := ascii_of_nat 10.

(** [sep.join(l)] *)
Fixpoint join (sep : string) (l : list string) : string :=
  match l with
  | [] => EmptyString
  | [x] => x
  | x :: r => x ++ sep ++ join sep r
  end.

(** [str.lower] on one character: ASCII and Latin-1 capitals. *)
Definition lower_char (c : ascii) : ascii :=
  let n := nat_of_ascii c in
  if (((65 <=? n) && (n <=? 90))
      || ((192 <=? n) && (n <=? 222) && negb (n =? 215)))%nat
  then ascii_of_nat (n + 32) else c.

Fixpoint lower (s : string) : string :=
  match s with
  | EmptyString => EmptyString
  | String c r => String (lower_char c) (lower r)
  end.

(** [needle in hay] *)
Fixpoint contains (needle hay : string) : bool :=
  prefix needle hay
  || match hay with
     | EmptyString => false
     | String _ r => contains needle r
     end.

(** [str(n)] for an [int]. *)
Definition of_Z (z : Z) : string := NilZero.string_of_int (Z.to_int z).
Definition of_nat (n : nat) : string := of_Z (Z.of_nat n).

(** A Python string is true when it is not empty. *)
Definition truthy (s : string) : bool :=
  match s with EmptyString => false | _ => true end.

(** [l[:n]] on a list, with Python's reading of a negative bound. *)
Definition take {A} (n : Z) (l : list A) : list A :=
  if (n <? 0)%Z then firstn (Z.to_nat (Z.of_nat (List.length l) + n)) l
  else firstn (Z.to_nat n) l.

(** [l[a:-1]] for a literal [a >= 0]: drop [a] in front and the last
    element. *)
Definition slice_to_last {A} (a : nat) (l : list A) : list A :=
  skipn a (removelast l).

End PyStr.

(** ** Exceptions and the external world *)

(** The message of a [ValueError] is the library's and differs between
    versions; it is not modelled. *)
Inductive PyError : Type :=
| KeyError (key : string)
| ValueError
| OtherError (name : string).     (* any other exception, by its class *)

Inductive Result (A : Type) : Type :=
| Ok (a : A)
| Raise (e : PyError).
Arguments Ok {A} a.
Arguments Raise {A} e.

(** What the program cannot decide: the n-th call of [ollama.generate]
    answers with a text or raises, the n-th raw draw of the [random]
    module's generator is some natural number, and [prs.save] of line 255
    writes the file or raises. *)
Record World : Type := {
  ollama_generate : nat -> option string;
  random_raw : nat -> Z;
  save_error : option PyError
}.

(** The counters of calls made so far. *)
Record Tape : Type := {
  llm_calls : nat;
  draws : nat
}.

Definition fresh_tape : Tape := {| llm_calls := 0; draws := 0 |}.

Section Sanitizer.

Variable w : World.

(** [random.randint(a, b)]: [a + randbelow(b - a + 1)], and a
    [ValueError] on an empty range. *)
Definition randint (a b : Z) (t : Tape) : Result (Z * Tape) :=
  let width := (b - a + 1)%Z in
  if (0 <? width)%Z
  then Ok ((a + random_raw w (draws t) mod width)%Z,
           {| llm_calls := llm_calls t; draws := S (draws t) |})
  else Raise ValueError.

Definition canonical_failure : list string :=
  [ "Insufficient data in CSV.";
    "Analysis cannot be completed.";
    "Please check CSV content.";
    "No insights can be derived.";
    "This is an error message." ].

(** The comprehension of line 26: the stripped lines that are not empty. *)
Definition usable_lines (text : string) : list string :=
  filter PyStr.truthy (map PyStr.strip (PyStr.split PyStr.newline text)).

Definition split_into_bullets (text : string) (min_points max_points : Z)
           (t : Tape) : Result (list string * Tape) :=
  let lines := usable_lines text in
  let len := Z.of_nat (List.length lines) in
  if (match lines with [] => true | _ => false end) || (len <? min_points)%Z
  then Ok (canonical_failure, t)
  else
    match randint min_points (Z.min max_points len) t with
    | Raise e => Raise e
    | Ok (num_points, t') => Ok (PyStr.take num_points lines, t')
    end.

End Sanitizer.

(** ** The dataset as the program sees it

    pandas is a library: of a column the program reads its name, its
    dtype, whether the dtype is numeric and the statistics below.  The
    statistics of a numeric column are floats (an integer column's minimum
    prints the same under [:.2f]).  The plotting calls of lines 141-170
    run on the data as well, outside any [try]: whether the chart of a
    pair of columns is drawn or the call raises is a property of the
    data. *)

Definition pyfloat : Type := spec_float.

(** What lines 140-170 draw into the temporary chart file. *)
Inductive Drawing : Type :=
| ScatterPlot            (* df.plot.scatter(x=col, y=other_col) *)
| HexbinPlot             (* plt.hexbin(df[col], df[other_col]) *)
| BoxByBins              (* boxplot of other_col by 3 bins of col *)
| BarMeanByBins          (* mean of other_col per bin of col, kind='bar' *)
| BarMeanByGroup         (* df.groupby(col)[other_col].mean(), kind='bar' *)
| BarCountByGroup        (* df.groupby(other_col)[col].count(), kind='bar' *)
| StackedBarCrosstab     (* pd.crosstab(...).plot(kind='bar', stacked=True) *)
| EmptyFigure.           (* no plotting call was made *)

Record Column : Type := {
  col_name : string;
  col_dtype : string;       (* str(df[c].dtype) *)
  col_numeric : bool;       (* pd.api.types.is_numeric_dtype(df[c]) *)
  col_mean : pyfloat;       (* df[c].mean() *)
  col_min : pyfloat;        (* df[c].min() *)
  col_max : pyfloat;        (* df[c].max() *)
  col_nunique : nat;        (* df[c].nunique() *)
  col_mode : string         (* str(df[c].mode()[0]) *)
}.

Record DataFrame : Type := {
  df_rows : nat;                               (* len(df) *)
  df_data : list Column;
  df_corr : string -> string -> pyfloat;       (* df[[a, b]].corr().iloc[0,1] *)
  df_draw : Drawing -> string -> string -> option PyError
    (* what drawing this chart of columns x and y raises, lines 140-176 *)
}.

Definition df_columns (df : DataFrame) : list string :=
  map col_name (df_data df).

(** [df.empty]: some axis has length 0. *)
Definition df_empty (df : DataFrame) : bool :=
  ((df_rows df =? 0) || (List.length (df_data df) =? 0))%nat.

(** [df[name]] *)
Definition getitem (df : DataFrame) (name : string) : Result Column :=
  match find (fun c => String.eqb (col_name c) name) (df_data df) with
  | Some c => Ok c
  | None => Raise (KeyError name)
  end.

Inductive CsvFile : Type :=
| Unreadable (err : string)       (* pd.read_csv raises *)
| Table (df : DataFrame).

(** ** [:.2f] formatting of a float *)

Module Fmt.

Definition sign (s : bool) : string := if s then "-" else "".

Definition two_digits (n : Z) : string :=
  if (n <? 10)%Z then "0" ++ PyStr.of_Z n else PyStr.of_Z n.

(** Nearest integer to [n/d], ties to even ([d > 0], [n >= 0]). *)
Definition round_half_even (n d : Z) : Z :=
  let q := (n / d)%Z in
  let r := (n mod d)%Z in
  if (2 * r <? d)%Z then q
  else if (d <? 2 * r)%Z then (q + 1)%Z
  else if Z.even q then q else (q + 1)%Z.

(** [m * 2^e] in hundredths, correctly rounded. *)
Definition hundredths (m : positive) (e : Z) : Z :=
  if (0 <=? e)%Z then (Z.pos m * 2 ^ e * 100)%Z
  else round_half_even (Z.pos m * 100) (2 ^ (- e)).

Definition fixed2 (h : Z) : string :=
  PyStr.of_Z (h / 100) ++ "." ++ two_digits (h mod 100).

(** [f"{x:.2f}"] *)
Definition format_2f (x : pyfloat) : string :=
  match x with
  | S754_zero s => sign s ++ "0.00"
  | S754_infinity s => sign s ++ "inf"
  | S754_nan => "nan"
  | S754_finite s m e => sign s ++ fixed2 (hundredths m e)
  end.

End Fmt.

(** ** Slides and the presentation *)

Inductive Body : Type :=
| NoBody
| Bullets (points : list string)
| Picture (chart : Drawing).

Record Slide : Type := {
  layout : nat;        (* index into prs.slide_layouts *)
  title : string;
  body : Body
}.

(** The local state of [generate_eda_report]. *)
Record State : Type := {
  prs : list Slide;
  slide_titles : list string;
  tape : Tape
}.

Definition M (A : Type) : Type := State -> Result (A * State).

Definition ret {A} (a : A) : M A := fun st => Ok (a, st).

Definition bind {A B} (c : M A) (k : A -> M B) : M B :=
  fun st => match c st with
            | Ok (a, st') => k a st'
            | Raise e => Raise e
            end.

Notation "x <- c ;; k" := (bind c (fun x => k))
  (at level 61, c at next level, right associativity).
Notation "c ;;; k" := (bind c (fun _ => k))
  (at level 61, right associativity).

Definition raise_from {A} (r : Result A) : M A :=
  fun st => match r with Ok a => Ok (a, st) | Raise e => Raise e end.

(** Run a computation that only touches the oracle counters. *)
Definition on_tape {A} (f : Tape -> Result (A * Tape)) : M A :=
  fun st => match f (tape st) with
            | Ok (a, t') =>
                Ok (a, {| prs := prs st; slide_titles := slide_titles st;
                          tape := t' |})
            | Raise e => Raise e
            end.

(** [slide_titles.extend(l)] *)
Definition extend_titles (l : list string) : M unit :=
  fun st => Ok (tt, {| prs := prs st; slide_titles := slide_titles st ++ l;
                       tape := tape st |}).

Definition get_titles : M (list string) := fun st => Ok (slide_titles st, st).

Definition push_slide (s : Slide) : M unit :=
  fun st => Ok (tt, {| prs := prs st ++ [s]; slide_titles := slide_titles st;
                       tape := tape st |}).

(** The slide [add_slide] makes, lines 39-70: layout 5 and the picture
    when there is a chart, else layout 1 and the bullets when the content
    is a non-empty list.  [Bullets points] is the list passed as
    [content]: on the slide its entries are the paragraphs added after
    the empty paragraph that [tf.clear()] leaves in the text frame. *)
Definition new_slide (ttl : string) (content : option (list string))
           (chart_path : option Drawing) : Slide :=
  {| layout := match chart_path with Some _ => 5 | None => 1 end;
     title := ttl;
     body := match chart_path, content with
             | Some d, _ => Picture d
             | None, Some (p :: ps) => Bullets (p :: ps)
             | None, _ => NoBody
             end |}.

Definition add_slide (ttl : string) (content : option (list string))
           (chart_path : option Drawing) : M unit :=
  push_slide (new_slide ttl content chart_path).

(** The cover and the closing slide, lines 91-104 and 237-250: title
    layout, every other placeholder removed. *)
Definition title_only (ttl : string) : Slide :=
  {| layout := 0; title := ttl; body := NoBody |}.

Definition add_title_only (ttl : string) : M unit :=
  push_slide (title_only ttl).

Fixpoint for_each {A} (l : list A) (body : A -> M unit) : M unit :=
  match l with
  | [] => ret tt
  | x :: r => body x ;;; for_each r body
  end.

(** [enumerate(l)] and the numbered entries [f"{i + 1}. {title}"]. *)
Definition enumerate {A} (l : list A) : list (nat * A) :=
  combine (seq 0 (List.length l)) l.

Definition numbered (l : list string) : list string :=
  map (fun it => PyStr.of_nat (fst it + 1) ++ ". " ++ snd it) (enumerate l).

(** [range(0, stop, step)] *)
Definition range_by (stop step : nat) : list nat :=
  map (fun k => k * step) (seq 0 ((stop + step - 1) / step)).

(** ** The report generator *)

(** The plot types the front end offers, line 287. *)
Definition plot_options : list string := ["Scatter"; "Hexbin"; "Box"; "Bar"].

(** Lines 138-170: the value of [actual_plot_type] and the chart drawn. *)
Definition choose_plot (is_numeric_col is_numeric_other : bool)
           (plot_type : string) : string * Drawing :=
  if is_numeric_col && is_numeric_other then
    (plot_type,
     if String.eqb plot_type "Scatter" then ScatterPlot
     else if String.eqb plot_type "Hexbin" then HexbinPlot
     else if String.eqb plot_type "Box" then BoxByBins
     else if String.eqb plot_type "Bar" then BarMeanByBins
     else EmptyFigure)
  else if is_numeric_other then ("Bar", BarMeanByGroup)
  else if is_numeric_col then ("Bar", BarCountByGroup)
  else ("Stacked Bar", StackedBarCrosstab).

(** Line 182: the correlation, or [None] for the string "N/A". *)
Definition correlation (df : DataFrame) (col other_col : string)
           (focus other : Column) : option pyfloat :=
  if col_numeric focus && col_numeric other
  then Some (df_corr df col other_col)
  else None.

(** An f-string of lines 189-194: literal text around one interpolated
    value, which is an [int] or a [str] printed as it is, or a float under
    [:.2f]. *)
Inductive Interpolated : Type :=
| IntValue (n : nat)
| Fixed2Value (x : pyfloat)
| StrValue (s : string).

Record Template : Type := {
  lead : string;
  value : Interpolated;
  gloss : string
}.

Definition show (v : Interpolated) : string :=
  match v with
  | IntValue n => PyStr.of_nat n
  | Fixed2Value x => Fmt.format_2f x
  | StrValue s => s
  end.

Definition render (t : Template) : string :=
  lead t ++ show (value t) ++ gloss t.

(** Lines 188-195. [col] and [other_col] are the names the loop holds,
    [focus] and [other] the columns [df[col]] and [df[other_col]]. *)
Definition content_templates (df : DataFrame) (col other_col : string)
           (focus other : Column) : list Template :=
  [ {| lead := "Rows analyzed: "; value := IntValue (df_rows df);
       gloss := ". Total entries in CSV." |};
    match correlation df col other_col focus other with
    | Some corr =>
        {| lead := "Correlation: "; value := Fixed2Value corr;
           gloss := ". Shows " ++ col ++ " vs " ++ other_col ++ " link." |}
    | None =>
        {| lead := col ++ " type: "; value := StrValue (col_dtype focus);
           gloss := ". Non-numeric data detected." |}
    end;
    if col_numeric other
    then {| lead := other_col ++ " mean: ";
            value := Fixed2Value (col_mean other);
            gloss := ". Average from CSV data." |}
    else {| lead := other_col ++ " unique: ";
            value := IntValue (col_nunique other);
            gloss := ". Distinct values counted." |};
    if col_numeric other
    then {| lead := other_col ++ " min: ";
            value := Fixed2Value (col_min other);
            gloss := ". Minimum value in CSV." |}
    else {| lead := other_col ++ " top: "; value := StrValue (col_mode other);
            gloss := ". Most frequent in CSV." |};
    if col_numeric other
    then {| lead := other_col ++ " max: ";
            value := Fixed2Value (col_max other);
            gloss := ". Maximum value in CSV." |}
    else {| lead := other_col ++ " diversity: ";
            value := StrValue (if (5 <? col_nunique other)%nat
                               then "High" else "Low");
            gloss := ". Variation in data." |};
    if col_numeric focus
    then {| lead := col ++ " stat: "; value := Fixed2Value (col_mean focus);
            gloss := ". Numeric average from CSV." |}
    else {| lead := col ++ " top: "; value := StrValue (col_mode focus);
            gloss := ". Top category in CSV." |} ].

Definition content_points (df : DataFrame) (col other_col : string)
           (focus other : Column) : list string :=
  map render (content_templates df col other_col focus other).

Definition default_prompt : string :=
  "default analysis of one column vs others".

(** The test of line 115. *)
Definition summary_listed (user_prompt : string) : bool :=
  negb (String.eqb (PyStr.lower user_prompt) default_prompt)
  && PyStr.contains "summary" (PyStr.lower user_prompt).

(** The test of line 213. *)
Definition summary_requested (user_prompt : string) : bool :=
  PyStr.truthy user_prompt
  && negb (String.eqb (PyStr.lower user_prompt) default_prompt)
  && PyStr.contains "summary" (PyStr.lower user_prompt).

Definition plot_title (col other_col : string) : string :=
  "Comparison Plot: " ++ col ++ " vs " ++ other_col.
Definition insights_title (col other_col : string) : string :=
  "Comparison Insights: " ++ col ++ " vs " ++ other_col.
Definition detail_title (col other_col : string) : string :=
  "Detailed Insights: " ++ col ++ " vs " ++ other_col.
Definition additional_title (i : nat) : string :=
  "Additional Analysis " ++ PyStr.of_nat (i + 1).

(** What [generate_with_llama] returns when the call raises, line 22. *)
Definition llama_fallback : string :=
  PyStr.join (String PyStr.newline "")
    [ "Analysis failed due to error.";
      "CSV data could not be processed.";
      "Please verify file integrity.";
      "Contact support for assistance.";
      "This is an error state." ].

Inductive Outcome : Type :=
| Failure (msg : string)          (* return False, msg *)
| Success (odp : list Slide)      (* return True, odp_bytes *)
| Uncaught (e : PyError).         (* the exception leaves the function *)

Section Generator.

Variable w : World.
(** [None] when LibreOffice converts the saved file, else the error. *)
Variable convert_error : option string.

(** Lines 17-22.  The prompt goes to the model and nowhere else, so the
    oracle is read by call number. *)
Definition generate_with_llama : M string :=
  on_tape (fun t =>
    Ok (match ollama_generate w (llm_calls t) with
        | Some response => PyStr.strip response
        | None => llama_fallback
        end,
        {| llm_calls := S (llm_calls t); draws := draws t |})).

(** A generated bullet slide: ask the model, sanitize, add the slide. *)
Definition bullets_from_llama : M (list string) :=
  text <- generate_with_llama ;;
  on_tape (split_into_bullets w text 5 6).

Section Run.

Variable df : DataFrame.
Variables col plot_type : string.
Variable min_slides : Z.
Variable user_prompt : string.

Definition num_cols : nat := List.length (df_columns df).

(** Line 83. *)
Definition other_cols : list string :=
  filter (fun c => negb (String.eqb c col)) (df_columns df).

(** Line 112. *)
Definition extra_slides_needed : bool :=
  (2 * Z.of_nat num_cols <? min_slides)%Z.

(** Lines 89-105. *)
Definition cover : M unit :=
  reply <- generate_with_llama ;;
  let cover_title := hd "" (PyStr.split PyStr.newline reply) in
  add_title_only cover_title ;;;
  extend_titles [cover_title].

(** Lines 108-117. *)
Definition collect_titles : M unit :=
  extend_titles ["Introduction to Analysis"] ;;;
  extend_titles (map (plot_title col) other_cols) ;;;
  extend_titles (map (insights_title col) other_cols) ;;;
  extend_titles (map (detail_title col) other_cols) ;;;
  (if extra_slides_needed then extend_titles ["Index of Slides"]
   else ret tt) ;;;
  (if summary_listed user_prompt
   then extend_titles ["Summary of Findings"] else ret tt) ;;;
  extend_titles ["Conclusion of Analysis"].

(** Lines 118-123. *)
Definition overview : M unit :=
  titles <- get_titles ;;
  let overview_content := numbered (PyStr.slice_to_last 2 titles) in
  let max_points_per_slide := 6 in
  for_each (range_by (List.length overview_content) max_points_per_slide)
    (fun i =>
       let chunk := firstn max_points_per_slide (skipn i overview_content) in
       let ttl := if (i =? 0)%nat then "Overview of Upcoming Slides"
                  else "Overview of Upcoming Slides Continued" in
       add_slide ttl (Some chunk) None).

(** Lines 126-129. *)
Definition introduction : M unit :=
  intro_points <- bullets_from_llama ;;
  add_slide "Introduction to Analysis" (Some intro_points) None.

(** Lines 140-176: the chart is drawn and saved into the temporary file.
    No handler surrounds these calls, so what pandas or matplotlib raise
    on the two columns leaves the function. *)
Definition draw_chart (chart : Drawing) (other_col : string) : M unit :=
  raise_from (match df_draw df chart col other_col with
              | Some e => Raise e
              | None => Ok tt
              end).

(** Lines 132-204, one round of the loop. *)
Definition comparison (other_col : string) : M unit :=
  focus <- raise_from (getitem df col) ;;
  other <- raise_from (getitem df other_col) ;;
  let is_numeric_col := col_numeric focus in
  let is_numeric_other := col_numeric other in
  let chart := snd (choose_plot is_numeric_col is_numeric_other plot_type) in
  draw_chart chart other_col ;;;
  add_slide (plot_title col other_col) None (Some chart) ;;;
  add_slide (insights_title col other_col)
            (Some (content_points df col other_col focus other)) None ;;;
  detail_points <- bullets_from_llama ;;
  add_slide (detail_title col other_col) (Some detail_points) None.

(** Lines 207-210. *)
Definition index : M unit :=
  if extra_slides_needed then
    titles <- get_titles ;;
    let index_content := numbered (PyStr.slice_to_last 2 titles) in
    index_points <-
      on_tape (split_into_bullets w
                 (PyStr.join (String PyStr.newline "") index_content) 5 6) ;;
    add_slide "Index of Slides" (Some index_points) None
  else ret tt.

(** Lines 213-218. *)
Definition summary : M unit :=
  if summary_requested user_prompt then
    summary_points <- bullets_from_llama ;;
    add_slide "Summary of Findings" (Some summary_points) None ;;;
    extend_titles ["Summary of Findings"]
  else ret tt.

(** Line 221. *)
Definition current_slides (titles : list string) : Z :=
  (Z.of_nat (List.length titles) + 1)%Z.

(** Lines 221-228. *)
Definition padding : M unit :=
  titles <- get_titles ;;
  let current := current_slides titles in
  if (current <? min_slides)%Z then
    for_each (seq 0 (Z.to_nat (min_slides - current)))
      (fun i =>
         extra_points <- bullets_from_llama ;;
         add_slide (additional_title i) (Some extra_points) None ;;;
         extend_titles [additional_title i])
  else ret tt.

(** Lines 231-250. *)
Definition closing : M unit :=
  conclusion_points <- bullets_from_llama ;;
  add_slide "Conclusion of Analysis" (Some conclusion_points) None ;;;
  add_title_only "Thank You".

(** Lines 84-218: everything before the minimum-slide check. *)
Definition plan_and_fill : M unit :=
  cover ;;;
  collect_titles ;;;
  overview ;;;
  introduction ;;;
  for_each other_cols comparison ;;;
  index ;;;
  summary.

(** Lines 84-250: everything between reading the file and saving. *)
Definition build_deck : M unit :=
  plan_and_fill ;;;
  padding ;;;
  closing.

Definition empty_state : State :=
  {| prs := []; slide_titles := []; tape := fresh_tape |}.

End Run.

(** Lines 253-264: [prs.save] stands before the [try], the conversion
    inside it. *)
Definition save_and_convert (deck : list Slide) : Outcome :=
  match save_error w with
  | Some e => Uncaught e
  | None =>
      match convert_error with
      | None => Success deck
      | Some e => Failure ("Error converting to ODP: " ++ e)
      end
  end.

(** Lines 73-264. *)
Definition generate_eda_report (csv_file : CsvFile) (col plot_type : string)
           (min_slides : Z) (user_prompt : string) : Outcome :=
  match csv_file with
  | Unreadable e => Failure ("Error reading CSV: " ++ e)
  | Table df =>
      if df_empty df then Failure "CSV file is empty."
      else
        match build_deck df col plot_type min_slides user_prompt
                         empty_state with
        | Raise e => Uncaught e
        | Ok (_, st) => save_and_convert (prs st)
        end
  end.

End Generator.

(** ** The shape of a run

    The bullets a slide gets from the language model are not determined by
    the inputs; everything else is.  [Adds c P] says that [c] never raises
    and only appends: slides [ss] to the presentation and titles [ts] to
    [slide_titles], related by [P] to the titles tracked before. *)

Definition upd (st : State) (ss : list Slide) (ts : list string) (t' : Tape)
  : State :=
  {| prs := prs st ++ ss; slide_titles := slide_titles st ++ ts; tape := t' |}.

Definition Adds (c : M unit)
           (P : list string -> list Slide -> list string -> Prop) : Prop :=
  forall st, exists ss ts t',
    c st = Ok (tt, upd st ss ts t') /\ P (slide_titles st) ss ts.

(** [Reads c Q]: [c] never raises, changes only the oracle counters and
    returns a value that satisfies [Q]. *)
Definition Reads {A} (c : M A) (Q : A -> Prop) : Prop :=
  forall st, exists a t',
    c st = Ok (a, {| prs := prs st; slide_titles := slide_titles st;
                     tape := t' |})
    /\ Q a.

Section Shape.

Variable df : DataFrame.
Variables col plot_type : string.
Variable min_slides : Z.
Variable user_prompt : string.

(** The titles of lines 108-117, after the cover title. *)
Definition planned_tail : list string :=
  ["Introduction to Analysis"]
  ++ map (plot_title col) (other_cols df col)
  ++ map (insights_title col) (other_cols df col)
  ++ map (detail_title col) (other_cols df col)
  ++ (if extra_slides_needed df min_slides then ["Index of Slides"] else [])
  ++ (if summary_listed user_prompt then ["Summary of Findings"] else [])
  ++ ["Conclusion of Analysis"].

(** The titles the slice [slide_titles[2:-1]] of lines 118 and 208 keeps:
    those between "Introduction to Analysis" and "Conclusion of
    Analysis". *)
Definition listed_titles : list string :=
  map (plot_title col) (other_cols df col)
  ++ map (insights_title col) (other_cols df col)
  ++ map (detail_title col) (other_cols df col)
  ++ (if extra_slides_needed df min_slides then ["Index of Slides"] else [])
  ++ (if summary_listed user_prompt then ["Summary of Findings"] else []).

(** The slides of the loop of lines 120-123 for a given content. *)
Definition overview_slides (overview_content : list string) : list Slide :=
  map (fun i =>
         new_slide (if (i =? 0)%nat then "Overview of Upcoming Slides"
                    else "Overview of Upcoming Slides Continued")
                   (Some (firstn 6 (skipn i overview_content))) None)
      (range_by (List.length overview_content) 6).

(** What drawing the chart of one other column raises, if anything. *)
Definition chart_failure (other_col : string) : option PyError :=
  match getitem df col, getitem df other_col with
  | Ok focus, Ok other =>
      df_draw df
        (snd (choose_plot (col_numeric focus) (col_numeric other) plot_type))
        col other_col
  | _, _ => None
  end.

(** Every chart of the run can be drawn. *)
Definition charts_drawn : bool :=
  forallb (fun other_col => match chart_failure other_col with
                            | None => true
                            | Some _ => false
                            end)
          (other_cols df col).

(** The three slides of one round of the comparison loop. *)
Definition comparison_slides (focus : Column) (other_col : string)
           (other : Column) (detail_points : list string) : list Slide :=
  [ new_slide (plot_title col other_col) None
      (Some (snd (choose_plot (col_numeric focus) (col_numeric other)
                              plot_type)));
    new_slide (insights_title col other_col)
      (Some (content_points df col other_col focus other)) None;
    new_slide (detail_title col other_col) (Some detail_points) None ].

Definition is_group (focus : Column) (other_col : string)
           (ss : list Slide) : Prop :=
  exists other detail_points,
    getitem df other_col = Ok other
    /\ ss = comparison_slides focus other_col other detail_points.

Definition is_padding_slide (i : nat) (s : Slide) : Prop :=
  exists extra_points, s = new_slide (additional_title i) (Some extra_points) None.

(** The titles tracked when line 221 counts them. *)
Definition checked_titles (cover_title : string) : list string :=
  cover_title :: planned_tail
  ++ (if summary_requested user_prompt then ["Summary of Findings"] else []).

(** How many rounds the loop of line 223 makes. *)
Definition padding_rounds (cover_title : string) : nat :=
  Z.to_nat (min_slides - current_slides (checked_titles cover_title)).

(** The presentation and the tracked titles at the minimum-slide check,
    after the padding, and at the end. *)
Inductive deck_run (focus : Column) : State -> State -> State -> Prop :=
| DeckRun (cover_title : string)
          (intro_points index_points summary_points concl_points : list string)
          (groups : list (list Slide)) (pads : list Slide) (t1 t2 t3 : Tape) :
    Forall2 (is_group focus) (other_cols df col) groups ->
    Forall2 is_padding_slide (seq 0 (padding_rounds cover_title)) pads ->
    let filled : list Slide :=
      title_only cover_title
      :: overview_slides
           (numbered (PyStr.slice_to_last 2 (cover_title :: planned_tail)))
      ++ new_slide "Introduction to Analysis" (Some intro_points) None
      :: List.concat groups
      ++ (if extra_slides_needed df min_slides
          then [new_slide "Index of Slides" (Some index_points) None]
          else [])
      ++ (if summary_requested user_prompt
          then [new_slide "Summary of Findings" (Some summary_points) None]
          else []) in
    let padded_titles : list string :=
      (checked_titles cover_title
       ++ map additional_title (seq 0 (padding_rounds cover_title)))%list in
    deck_run focus
      {| prs := filled; slide_titles := checked_titles cover_title;
         tape := t1 |}
      {| prs := filled ++ pads; slide_titles := padded_titles; tape := t2 |}
      {| prs := (filled ++ pads)
                ++ [ new_slide "Conclusion of Analysis" (Some concl_points)
                               None;
                     title_only "Thank You" ];
         slide_titles := padded_titles; tape := t3 |}.

End Shape.

(** ** Vocabulary of the specification *)

(** The chart kinds of the specification's data model. *)
Inductive ChartKind : Type := Scatter | Hexbin | Box | Bar | StackedBar.

(** The string the program holds for a kind. *)
Definition kind_name (k : ChartKind) : string :=
  match k with
  | Scatter => "Scatter"
  | Hexbin => "Hexbin"
  | Box => "Box"
  | Bar => "Bar"
  | StackedBar => "Stacked Bar"
  end.

(** The kind of the chart a plotting call draws. *)
Definition drawn_kind (d : Drawing) : option ChartKind :=
  match d with
  | ScatterPlot => Some Scatter
  | HexbinPlot => Some Hexbin
  | BoxByBins => Some Box
  | BarMeanByBins | BarMeanByGroup | BarCountByGroup => Some Bar
  | StackedBarCrosstab => Some StackedBar
  | EmptyFigure => None
  end.

(** What a forced bar chart aggregates. *)
Inductive Grouping : Type := AsRequested | GroupedMean | GroupedCount | Stacked.

Definition drawn_grouping (d : Drawing) : Grouping :=
  match d with
  | BarMeanByGroup => GroupedMean
  | BarCountByGroup => GroupedCount
  | StackedBarCrosstab => Stacked
  | _ => AsRequested
  end.

(** The four rules of the specification's classifier, in its words: first
    match wins. *)
Definition classify_spec (focus_numeric other_numeric : bool)
           (requested : ChartKind) : ChartKind * Grouping :=
  if focus_numeric && other_numeric then (requested, AsRequested)
  else if negb focus_numeric && other_numeric then (Bar, GroupedMean)
  else if focus_numeric && negb other_numeric then (Bar, GroupedCount)
  else (StackedBar, Stacked).

Module Digits.

Definition is_digit (c : ascii) : bool :=
  let n := nat_of_ascii c in ((48 <=? n) && (n <=? 57))%nat.

Fixpoint all_digits (s : string) : bool :=
  match s with
  | EmptyString => true
  | String c r => is_digit c && all_digits r
  end.

Fixpoint after_digits (s : string) : string :=
  match s with
  | EmptyString => EmptyString
  | String c r => if is_digit c then after_digits r else s
  end.

(** One digit or more, a point, two digits. *)
Definition unsigned_two_decimals (s : string) : bool :=
  match s with
  | EmptyString => false
  | String c _ =>
      is_digit c
      && match after_digits s with
         | String p (String a (String b EmptyString)) =>
             Ascii.eqb p "."%char && is_digit a && is_digit b
         | _ => false
         end
  end.

(** A figure written with exactly two decimal places. *)
Definition two_decimals (s : string) : bool :=
  match s with
  | String c r =>
      if Ascii.eqb c "-"%char then unsigned_two_decimals r
      else unsigned_two_decimals s
  | EmptyString => false
  end.

(** [two_digits] gives two digits. *)
Definition two_digit_check (r : nat) : bool :=
  match Fmt.two_digits (Z.of_nat r) with
  | String a (String b EmptyString) => is_digit a && is_digit b
  | _ => false
  end.

(** A whole number written without decimals. *)
Definition plain_integer (s : string) : bool :=
  match s with EmptyString => false | _ => all_digits s end.

End Digits.

Definition is_finite (x : pyfloat) : bool :=
  match x with S754_zero _ | S754_finite _ _ _ => true | _ => false end.

(** The numeric figures of a bullet list: the interpolated integers and
    floats, as they are printed. *)
Definition numeric_figures (l : list Template) : list string :=
  flat_map (fun t => match value t with
                     | IntValue _ | Fixed2Value _ => [show (value t)]
                     | StrValue _ => []
                     end) l.

Definition bullets_of (s : Slide) : list string :=
  match body s with Bullets l => l | _ => [] end.

Definition is_content_titled (ttl : string) (s : Slide) : bool :=
  (layout s =? 1)%nat && String.eqb (title s) ttl.

Definition is_overview_slide (s : Slide) : bool :=
  is_content_titled "Overview of Upcoming Slides" s
  || is_content_titled "Overview of Upcoming Slides Continued" s.

Definition is_index_slide : Slide -> bool :=
  is_content_titled "Index of Slides".

Definition is_summary_slide : Slide -> bool :=
  is_content_titled "Summary of Findings".

(** The entries of the overview slides, read across the pages. *)
Definition overview_entries (deck : list Slide) : list string :=
  flat_map bullets_of (filter is_overview_slide deck).

Definition index_entries (deck : list Slide) : list string :=
  flat_map bullets_of (filter is_index_slide deck).

(** The titles of a finished deck between the cover and the closing slide,
    the overview slides left out, in deck order. *)
Definition content_titles (deck : list Slide) : list string :=
  map title (filter (fun s => negb (is_overview_slide s))
                    (removelast (tl deck))).

(** The slide that follows the last overview slide. *)
Definition after_overview (deck : list Slide) : option Slide :=
  hd_error (filter (fun s => negb (is_overview_slide s)) (tl deck)).

Definition non_overview (s : Slide) : bool := negb (is_overview_slide s).

Definition is_summary_title : string -> bool :=
  String.eqb "Summary of Findings".

Definition is_additional_title (t : string) : bool :=
  prefix "Additional Analysis " t.

(** The listing the specification asks of the overview: every title of the
    plan between the cover and the closing slide, in deck order. *)
Definition overview_lists_plan (deck : list Slide) : Prop :=
  overview_entries deck = numbered (content_titles deck).

(** The placement the specification asks of the overview: the next slide
    is the first comparison slide. *)
Definition overview_precedes_comparisons (deck : list Slide) : Prop :=
  exists s, after_overview deck = Some s
            /\ prefix "Comparison Plot: " (title s) = true.

(** The index rule in the specification's words. *)
Definition index_expected_by_spec (df : DataFrame) (min_slides : Z) : Prop :=
  (min_slides > 2 * (Z.of_nat (List.length (df_columns df)) - 1))%Z.

(** ** Vocabulary of the further properties *)

(** [c in s] for one character. *)
Fixpoint mentions (c : ascii) (s : string) : bool :=
  match s with
  | EmptyString => false
  | String a r => Ascii.eqb a c || mentions c r
  end.

(** Only whitespace, or nothing at all. *)
Fixpoint all_space (s : string) : bool :=
  match s with
  | EmptyString => true
  | String a r => PyStr.is_space a && all_space r
  end.

Definition starts_with_space (s : string) : bool :=
  match s with
  | EmptyString => false
  | String a _ => PyStr.is_space a
  end.

(** A line as [usable_lines] leaves it: not empty, no line break inside,
    nothing for [strip] to remove. *)
Definition clean_line (s : string) : Prop :=
  s <> EmptyString
  /\ mentions PyStr.newline s = false
  /\ PyStr.strip s = s.

(** The five lines of the text [generate_with_llama] falls back to. *)
Definition fallback_lines : list string :=
  [ "Analysis failed due to error.";
    "CSV data could not be processed.";
    "Please verify file integrity.";
    "Contact support for assistance.";
    "This is an error state." ].

(** [Keeps P c]: when every slide of the presentation satisfies [P]
    before [c] and [c] returns, every slide satisfies [P] after it. *)
Definition Keeps {A} (P : Slide -> Prop) (c : M A) : Prop :=
  forall st a st',
    Forall P (prs st) -> c st = Ok (a, st') -> Forall P (prs st').

(** [Costs c k]: when [c] returns it has called the language model [k]
    times. *)
Definition Costs {A} (c : M A) (k : nat) : Prop :=
  forall st a st',
    c st = Ok (a, st') ->
    llm_calls (tape st') = (llm_calls (tape st) + k)%nat.

(** A value [c] can return. *)
Definition returned_by {A} (c : M A) (a : A) : Prop :=
  exists st st', c st = Ok (a, st').

(** What [add_slide] and the two title slides can produce: a title slide
    without body, a chart slide with its picture, or a content slide that
    was passed one to six bullets. *)
Definition well_formed_slide (s : Slide) : Prop :=
  match body s with
  | NoBody => layout s = 0%nat
  | Picture _ => layout s = 5%nat
  | Bullets points =>
      layout s = 1%nat
      /\ (1 <= List.length points <= 6)%nat
  end.

(** The titles of the slides whose bullets come from the language
    model. *)
Definition is_generated_title (t : string) : bool :=
  String.eqb t "Introduction to Analysis"
  || prefix "Detailed Insights: " t
  || String.eqb t "Summary of Findings"
  || prefix "Additional Analysis " t
  || String.eqb t "Conclusion of Analysis".

(** A slide filled by the language model shows [points]. *)
Definition generated_shows (points : list string) (s : Slide) : Prop :=
  layout s = 1%nat -> is_generated_title (title s) = true ->
  body s = Bullets points.

(** The cover title of a run: the first line of what the first call of
    [generate_with_llama] returns. *)
Definition cover_title_of (w : World) : string :=
  hd "" (PyStr.split PyStr.newline
           match ollama_generate w 0 with
           | Some response => PyStr.strip response
           | None => llama_fallback
           end).

(** A slide on the picture layout. *)
Definition is_chart_slide (s : Slide) : bool := (layout s =? 5)%nat.

(** The titles of the three slides of one comparison. *)
Definition comparison_titles (col other_col : string) : list string :=
  [ plot_title col other_col; insights_title col other_col;
    detail_title col other_col ].

(** The titles of the overview pages for a number of listed entries. *)
Definition overview_page_titles (entries : nat) : list string :=
  map (fun i => if (i =? 0)%nat then "Overview of Upcoming Slides"
                else "Overview of Upcoming Slides Continued")
      (range_by entries 6).

(** The stripped non-empty lines of a text in the specification's
    words: the input lines that hold more than white space, in their
    order, each without the white space at its two ends. *)
Definition stripped_non_empty_lines (text : string) : list string :=
  map PyStr.strip
      (filter (fun line => negb (all_space line))
              (PyStr.split PyStr.newline text)).

(** [random.randint(a, b)] is [a + randbelow(b - a + 1)], and the values
    0, ..., width - 1 of [randbelow(width)] are equally likely.  A
    generator whose next draw is [u]: *)
Definition drawing_next (u : Z) : World :=
  {| ollama_generate := fun _ => None;
     random_raw := fun _ => u;
     save_error := None |}.

(** The number of bullets [split_into_bullets] returns when the draw is
    [u]. *)
Definition bullets_at_draw (text : string) (min_points max_points u : Z)
  : option nat :=
  match split_into_bullets (drawing_next u) text min_points max_points
                           fresh_tape with
  | Ok (points, _) => Some (List.length points)
  | Raise _ => None
  end.

(** How many of the [width] equally likely draws give [n] bullets. *)
Definition draws_giving (text : string) (min_points max_points : Z)
           (width n : nat) : nat :=
  List.length
    (filter (fun u => match bullets_at_draw text min_points max_points
                                            (Z.of_nat u) with
                      | Some m => (m =? n)%nat
                      | None => false
                      end)
            (seq 0 width)).

(** ** Concrete inputs used by the examples *)

Module Sample.

Definition nl : string := String PyStr.newline "".

(** A model that always answers with the same seven lines. *)
Definition seven_lines : string :=
  PyStr.join nl ["Sales Report"; "two"; "three"; "four"; "five"; "six";
                 "seven"].

Definition world : World :=
  {| ollama_generate := fun _ => Some seven_lines;
     random_raw := fun n => Z.of_nat n;
     save_error := None |}.

Definition float (negative : bool) (m : positive) (e : Z) : pyfloat :=
  S754_finite negative m e.

Definition numeric_column (name : string) (mean lo hi : pyfloat) : Column :=
  {| col_name := name; col_dtype := "float64"; col_numeric := true;
     col_mean := mean; col_min := lo; col_max := hi;
     col_nunique := 3; col_mode := "1.0" |}.

Definition text_column (name : string) (unique : nat) (top : string)
  : Column :=
  {| col_name := name; col_dtype := "object"; col_numeric := false;
     col_mean := S754_nan; col_min := S754_nan; col_max := S754_nan;
     col_nunique := unique; col_mode := top |}.

Definition col_a : Column :=
  numeric_column "A" (float false 5 (-2)) (float false 1 (-3)) (float false 3 0).
Definition col_b : Column :=
  numeric_column "B" (float true 3 (-3)) (float true 7 (-1)) (float false 3 0).
Definition col_c : Column := text_column "C" 7 "x".

Definition frame (cols : list Column) : DataFrame :=
  {| df_rows := 8; df_data := cols;
     df_corr := fun _ _ => float false 1 (-1);
     df_draw := fun _ _ _ => None |}.

Definition df_a : DataFrame := frame [col_a].
Definition df_ab : DataFrame := frame [col_a; col_b].
Definition df_abc : DataFrame := frame [col_a; col_b; col_c].

(** A numeric column without a single value: its statistics are NaN. *)
Definition col_e : Column :=
  {| col_name := "E"; col_dtype := "float64"; col_numeric := true;
     col_mean := S754_nan; col_min := S754_nan; col_max := S754_nan;
     col_nunique := 0; col_mode := "" |}.

(** [pd.cut] finds no bin edges in a column without a value: the two
    charts that bin the focus column raise when the focus is E. *)
Definition df_ae : DataFrame :=
  {| df_rows := 8; df_data := [col_a; col_e];
     df_corr := fun _ _ => S754_nan;
     df_draw := fun chart x _ =>
                  match chart with
                  | BoxByBins | BarMeanByBins =>
                      if String.eqb x "E" then Some ValueError else None
                  | _ => None
                  end |}.

Definition default_text : string :=
  "Default analysis of one column vs others".

End Sample.

(** * Properties *)

(** Titles that differ in a leading character are told apart by
    computation. *)
Ltac title_differs :=
  intros; unfold non_overview, is_overview_slide, is_content_titled,
          insights_title, detail_title, additional_title, plot_title,
          title_only, new_slide;
  cbn; reflexivity.

(** ** The embedding on small inputs *)

Example usable_lines_example :
  usable_lines (PyStr.join Sample.nl ["  first  "; ""; " second"; "   "; "third"])
  = ["first"; "second"; "third"].
Proof. reflexivity. Qed.

Example format_2f_examples :
  Fmt.format_2f (Sample.float false 5 (-2)) = "1.25"
  /\ Fmt.format_2f (Sample.float true 3 (-3)) = "-0.38"
  /\ Fmt.format_2f (Sample.float false 1 (-3)) = "0.12"
  /\ Fmt.format_2f (Sample.float false 3 4) = "48.00"
  /\ Fmt.format_2f (S754_zero true) = "-0.00"
  /\ Fmt.format_2f S754_nan = "nan".
Proof. repeat split; vm_compute; reflexivity. Qed.

Example summary_directive_examples :
  summary_listed Sample.default_text = false
  /\ summary_listed "Please add a SUMMARY slide" = true
  /\ summary_listed "" = false
  /\ summary_requested "Please add a SUMMARY slide" = true.
Proof. repeat split; vm_compute; reflexivity. Qed.

(** Columns A, B (numeric) and C (categorical), focus A, a scatter plot
    and three slides at least: the titles of the deck. *)
Example three_column_deck :
  exists deck : list Slide,
    generate_eda_report Sample.world None (Table Sample.df_abc) "A"
                        "Scatter" 3 Sample.default_text
    = Success deck
    /\ map title deck
       = [ "Sales Report"; "Overview of Upcoming Slides";
           "Introduction to Analysis";
           "Comparison Plot: A vs B"; "Comparison Insights: A vs B";
           "Detailed Insights: A vs B";
           "Comparison Plot: A vs C"; "Comparison Insights: A vs C";
           "Detailed Insights: A vs C";
           "Conclusion of Analysis"; "Thank You" ]
    /\ map body (filter (fun s => (layout s =? 5)%nat) deck)
       = [Picture ScatterPlot; Picture BarCountByGroup].
Proof.
  eexists. split; [vm_compute; reflexivity |].
  split; vm_compute; reflexivity.
Qed.

(** Two columns and twenty slides at least: seven titles are tracked, so
    twelve padding slides follow. *)
Example two_column_padding :
  exists deck : list Slide,
    generate_eda_report Sample.world None (Table Sample.df_ab) "A"
                        "Scatter" 20 Sample.default_text
    = Success deck
    /\ List.length deck = 21%nat
    /\ map title (filter (fun s => is_additional_title (title s)) deck)
       = map (fun n => "Additional Analysis " ++ PyStr.of_nat n) (seq 1 12).
Proof.
  eexists. split; [vm_compute; reflexivity |].
  split; vm_compute; reflexivity.
Qed.

(** A focus column without a value and a box plot: [pd.cut] raises in the
    first round of the loop and the exception leaves the function. *)
Example chart_failure_escapes :
  charts_drawn Sample.df_ae "E" "Box" = false
  /\ generate_eda_report Sample.world None (Table Sample.df_ae) "E" "Box" 5
                         Sample.default_text
     = Uncaught ValueError.
Proof.
  split; vm_compute; reflexivity.
Qed.

(** When [prs.save] raises, the exception leaves the function although
    the deck was built. *)
Example save_failure_escapes :
  generate_eda_report
    {| ollama_generate := fun _ => Some Sample.seven_lines;
       random_raw := fun _ => 0%Z;
       save_error := Some (OtherError "PermissionError") |}
    None (Table Sample.df_ab) "A" "Scatter" 5 Sample.default_text
  = Uncaught (OtherError "PermissionError").
Proof.
  vm_compute. reflexivity.
Qed.

(** ** The sanitizer *)

(** The branch of line 27: too few usable lines. *)
Lemma split_into_bullets_few :
  forall (w : World) (text : string) (min_points max_points : Z) (t : Tape),
    (Z.of_nat (List.length (usable_lines text)) < min_points)%Z ->
    split_into_bullets w text min_points max_points t
    = Ok (canonical_failure, t).
Proof.
  intros w text min_points max_points t Hfew.
  unfold split_into_bullets.
  apply Z.ltb_lt in Hfew. rewrite Hfew.
  now rewrite orb_true_r.
Qed.

(** C3: when the text has fewer stripped non-empty lines than [min_points],
    [split_into_bullets] returns the fixed five-entry failure list, whole
    and in its order, whatever the input lines were; no random draw is
    made. *)
Theorem split_into_bullets_insufficient :
  forall (w : World) (text : string) (min_points max_points : Z) (t : Tape),
    (Z.of_nat (List.length (usable_lines text)) < min_points)%Z ->
    split_into_bullets w text min_points max_points t
    = Ok (canonical_failure, t)
    /\ canonical_failure
       = [ "Insufficient data in CSV."; "Analysis cannot be completed.";
           "Please check CSV content."; "No insights can be derived.";
           "This is an error message." ].
Proof.
  intros w text min_points max_points t Hfew.
  split; [| reflexivity].
  now apply split_into_bullets_few.
Qed.

Lemma split_into_bullets_insufficient_witness :
  (Z.of_nat (List.length
               (usable_lines (PyStr.join Sample.nl ["  one "; ""; "two"])))
   < 5)%Z
  /\ split_into_bullets Sample.world
       (PyStr.join Sample.nl ["  one "; ""; "two"]) 5 6 fresh_tape
     = Ok (canonical_failure, fresh_tape).
Proof.
  split.
  - vm_compute. reflexivity.
  - apply (split_into_bullets_insufficient Sample.world
             (PyStr.join Sample.nl ["  one "; ""; "two"]) 5 6 fresh_tape).
    vm_compute. reflexivity.
Defined.

(** With the default bounds and five usable lines or more, the range of
    [randint] is never empty. *)
Lemma split_into_bullets_default :
  forall (w : World) (text : string) (t : Tape),
    (5 <= Z.of_nat (List.length (usable_lines text)))%Z ->
    split_into_bullets w text 5 6 t
    = Ok (PyStr.take
            (5 + random_raw w (draws t)
                 mod (Z.min 6 (Z.of_nat (List.length (usable_lines text)))
                      - 5 + 1))%Z
            (usable_lines text),
          {| llm_calls := llm_calls t; draws := S (draws t) |}).
Proof.
  intros w text t Hlen.
  unfold split_into_bullets, randint.
  destruct (usable_lines text) as [| l ls] eqn:Hl.
  - simpl in Hlen. lia.
  - cbn [orb].
    destruct (Z.ltb_spec (Z.of_nat (List.length (l :: ls))) 5) as [H | _];
      [lia |].
    destruct (Z.ltb_spec 0
                (Z.min 6 (Z.of_nat (List.length (l :: ls))) - 5 + 1))
      as [_ | H]; [reflexivity | lia].
Qed.

(** The emptiness test of line 26 on a stripped line. *)
Lemma strip_truthy :
  forall s : string, PyStr.truthy (PyStr.strip s) = negb (all_space s).
Proof.
  unfold PyStr.strip.
  induction s as [| c r IH]; [reflexivity |].
  cbn [PyStr.lstrip all_space].
  destruct (PyStr.is_space c) eqn:Hc; [exact IH |].
  cbn [PyStr.rstrip andb negb].
  destruct (PyStr.rstrip r); [rewrite Hc |]; reflexivity.
Qed.

(** The comprehension of line 26 computes the stripped non-empty lines of
    the specification. *)
Lemma usable_lines_in_words :
  forall text : string, usable_lines text = stripped_non_empty_lines text.
Proof.
  intros text. unfold usable_lines, stripped_non_empty_lines.
  induction (PyStr.split PyStr.newline text) as [| l ls IH]; [reflexivity |].
  cbn [map filter]. rewrite strip_truthy, IH.
  destruct (all_space l); reflexivity.
Qed.

(** With the default bounds the number of bullets is read off the draw. *)
Lemma bullets_at_draw_default :
  forall (text : string) (u : Z),
    (5 <= Z.of_nat (List.length (usable_lines text)))%Z ->
    bullets_at_draw text 5 6 u
    = Some (Z.to_nat
              (5 + u mod (Z.min 6 (Z.of_nat (List.length (usable_lines text)))
                          - 5 + 1))).
Proof.
  intros text u Hlen. unfold bullets_at_draw.
  rewrite (split_into_bullets_default _ text fresh_tape Hlen).
  cbn [drawing_next random_raw].
  set (r := (u mod (Z.min 6 (Z.of_nat (List.length (usable_lines text)))
                    - 5 + 1))%Z).
  assert (Hr : (0 <= r
                < Z.min 6 (Z.of_nat (List.length (usable_lines text)))
                  - 5 + 1)%Z)
    by (apply Z.mod_pos_bound; lia).
  unfold PyStr.take.
  destruct (Z.ltb_spec (5 + r) 0) as [H | _]; [lia |].
  rewrite firstn_length_le by lia. reflexivity.
Qed.

(** C4: with five stripped non-empty lines or more (the default bounds 5
    and 6), [split_into_bullets] returns the first [n] of them in their
    order, where [n] lies between 5 and [min 6 available] - so is 5 or 6
    once six lines are available.  The length is 5 plus the draw of
    [randint] below the width of that range, and it is uniform over the
    range: of the [width] equally likely draws exactly one gives each
    length of the range, and none gives any other length. *)
Theorem split_into_bullets_prefix :
  forall (w : World) (text : string) (t : Tape),
    let lines := stripped_non_empty_lines text in
    let available := Z.of_nat (List.length lines) in
    let hi := Z.min 6 available in
    let width := (hi - 5 + 1)%Z in
    (5 <= available)%Z ->
    exists n : nat,
      split_into_bullets w text 5 6 t
      = Ok (firstn n lines,
            {| llm_calls := llm_calls t; draws := S (draws t) |})
      /\ List.length (firstn n lines) = n
      /\ (5 <= Z.of_nat n <= hi)%Z
      /\ ((6 <= available)%Z -> n = 5 \/ n = 6)
      /\ (Z.of_nat n = 5 + random_raw w (draws t) mod width)%Z
      /\ (forall k : nat,
             draws_giving text 5 6 (Z.to_nat width) k
             = if ((5 <=? Z.of_nat k) && (Z.of_nat k <=? hi))%Z
               then 1%nat else 0%nat).
Proof.
  intros w text t lines available hi width Hlen.
  assert (Hlines : usable_lines text = lines)
    by apply usable_lines_in_words.
  assert (Hlen' : (5 <= Z.of_nat (List.length (usable_lines text)))%Z)
    by (rewrite Hlines; exact Hlen).
  set (r := (random_raw w (draws t) mod width)%Z).
  assert (Hr : (0 <= r < width)%Z)
    by (apply Z.mod_pos_bound; subst width hi; lia).
  exists (Z.to_nat (5 + r)).
  assert (Hn : (Z.of_nat (Z.to_nat (5 + r)) = 5 + r)%Z) by lia.
  split; [| split; [| split; [| split; [| split]]]].
  - rewrite (split_into_bullets_default w text t Hlen'), Hlines.
    fold available hi width r.
    unfold PyStr.take.
    destruct (Z.ltb_spec (5 + r) 0) as [H | _]; [lia | reflexivity].
  - apply firstn_length_le. subst width hi available. lia.
  - subst width. lia.
  - intros H6. subst width hi. lia.
  - exact Hn.
  - intros k. unfold draws_giving.
    assert (Hcount :
              forall u : nat,
                bullets_at_draw text 5 6 (Z.of_nat u)
                = Some (Z.to_nat (5 + Z.of_nat u mod width))).
    { intros u. rewrite (bullets_at_draw_default text _ Hlen'), Hlines.
      reflexivity. }
    assert (Hhi : (hi = 5 /\ width = 1)%Z \/ (hi = 6 /\ width = 2)%Z)
      by (subst width hi; lia).
    destruct Hhi as [[Hhi Hw] | [Hhi Hw]]; rewrite Hw in *; rewrite Hhi.
    + change (Z.to_nat 1) with 1%nat. cbn [seq filter].
      rewrite Hcount.
      change (Z.to_nat (5 + Z.of_nat 0 mod 1)) with 5%nat.
      destruct (Nat.eqb_spec 5 k) as [<- | Hk]; [reflexivity |].
      destruct (Z.leb_spec 5 (Z.of_nat k)), (Z.leb_spec (Z.of_nat k) 5);
        cbn [andb List.length]; try reflexivity; lia.
    + change (Z.to_nat 2) with 2%nat. cbn [seq filter].
      rewrite !Hcount.
      change (Z.to_nat (5 + Z.of_nat 0 mod 2)) with 5%nat.
      change (Z.to_nat (5 + Z.of_nat 1 mod 2)) with 6%nat.
      destruct (Nat.eqb_spec 5 k) as [<- | H5];
        [reflexivity |].
      destruct (Nat.eqb_spec 6 k) as [<- | H6];
        [reflexivity |].
      destruct (Z.leb_spec 5 (Z.of_nat k)), (Z.leb_spec (Z.of_nat k) 6);
        cbn [andb List.length]; try reflexivity; lia.
Qed.

Lemma split_into_bullets_prefix_witness :
  (5 <= Z.of_nat (List.length (stripped_non_empty_lines Sample.seven_lines)))%Z
  /\ exists n : nat,
      split_into_bullets Sample.world Sample.seven_lines 5 6 fresh_tape
      = Ok (firstn n (stripped_non_empty_lines Sample.seven_lines),
            {| llm_calls := 0; draws := 1 |})
      /\ (n = 5 \/ n = 6)
      /\ draws_giving Sample.seven_lines 5 6 2 5 = 1%nat
      /\ draws_giving Sample.seven_lines 5 6 2 6 = 1%nat
      /\ draws_giving Sample.seven_lines 5 6 2 7 = 0%nat.
Proof.
  split.
  - vm_compute. discriminate.
  - destruct (split_into_bullets_prefix Sample.world Sample.seven_lines
                fresh_tape) as [n [Hrun [_ [_ [H56 [_ Huniform]]]]]].
    + vm_compute. discriminate.
    + exists n. split; [exact Hrun |].
      split; [apply H56; vm_compute; discriminate |].
      split; [exact (Huniform 5%nat) |].
      split; [exact (Huniform 6%nat) | exact (Huniform 7%nat)].
Defined.

(** ** The chart chosen for a pair of columns *)

Lemma plot_options_kinds :
  forall plot_type : string,
    In plot_type plot_options ->
    exists k : ChartKind, kind_name k = plot_type /\ k <> StackedBar.
Proof.
  intros plot_type Hin. simpl in Hin.
  destruct Hin as [H | [H | [H | [H | []]]]]; subst plot_type.
  - exists Scatter. split; [reflexivity | discriminate].
  - exists Hexbin. split; [reflexivity | discriminate].
  - exists Box. split; [reflexivity | discriminate].
  - exists Bar. split; [reflexivity | discriminate].
Qed.

(** C2: for a requested kind among Scatter, Hexbin, Box and Bar, the kind
    recorded and the chart drawn follow the four rules of the classifier:
    the requested kind when both columns are numeric, a bar chart of
    grouped means when only the other column is numeric, a bar chart of
    grouped counts when only the focus column is numeric, a stacked bar
    chart when neither is; and the request changes nothing unless both
    columns are numeric. *)
Theorem choose_plot_follows_rules :
  forall (focus_numeric other_numeric : bool) (plot_type : string),
    In plot_type plot_options ->
    exists requested : ChartKind,
      kind_name requested = plot_type
      /\ fst (choose_plot focus_numeric other_numeric plot_type)
         = kind_name (fst (classify_spec focus_numeric other_numeric requested))
      /\ drawn_kind (snd (choose_plot focus_numeric other_numeric plot_type))
         = Some (fst (classify_spec focus_numeric other_numeric requested))
      /\ drawn_grouping (snd (choose_plot focus_numeric other_numeric plot_type))
         = snd (classify_spec focus_numeric other_numeric requested)
      /\ (focus_numeric = true -> other_numeric = true ->
          fst (choose_plot focus_numeric other_numeric plot_type) = plot_type)
      /\ (focus_numeric = false -> other_numeric = true ->
          choose_plot focus_numeric other_numeric plot_type
          = ("Bar", BarMeanByGroup))
      /\ (focus_numeric = true -> other_numeric = false ->
          choose_plot focus_numeric other_numeric plot_type
          = ("Bar", BarCountByGroup))
      /\ (focus_numeric = false -> other_numeric = false ->
          choose_plot focus_numeric other_numeric plot_type
          = ("Stacked Bar", StackedBarCrosstab))
      /\ (focus_numeric && other_numeric = false ->
          forall other_request : string,
            choose_plot focus_numeric other_numeric other_request
            = choose_plot focus_numeric other_numeric plot_type).
Proof.
  intros fn on plot_type Hin.
  destruct (plot_options_kinds plot_type Hin) as [k [Hk Hns]].
  exists k. subst plot_type.
  destruct k; try congruence;
    destruct fn, on; cbn;
    repeat split; intros; try reflexivity; try discriminate.
Qed.

Lemma choose_plot_follows_rules_witness :
  In "Hexbin" plot_options
  /\ choose_plot true false "Hexbin" = ("Bar", BarCountByGroup).
Proof.
  split.
  - simpl. auto.
  - destruct (choose_plot_follows_rules true false "Hexbin")
      as [k [_ [_ [_ [_ [_ [_ [H _]]]]]]]].
    + simpl. auto.
    + apply H; reflexivity.
Defined.

(** ** Printed figures *)

Module DigitFacts.
Import Digits.

Lemma all_digits_uint :
  forall d : Decimal.uint, all_digits (NilEmpty.string_of_uint d) = true.
Proof.
  induction d; simpl; auto.
Qed.

Lemma of_Z_plain :
  forall z : Z, (0 <= z)%Z -> plain_integer (PyStr.of_Z z) = true.
Proof.
  intros z Hz. unfold PyStr.of_Z.
  destruct z as [| p | p]; [reflexivity | | lia].
  cbn [Z.to_int NilZero.string_of_int].
  unfold NilZero.string_of_uint, plain_integer.
  pose proof (all_digits_uint (Pos.to_uint p)) as Hd.
  destruct (Pos.to_uint p); simpl in *; auto.
Qed.

Lemma of_nat_plain :
  forall n : nat, plain_integer (PyStr.of_nat n) = true.
Proof.
  intros n. apply of_Z_plain. lia.
Qed.

Lemma two_digits_shape :
  forall r : Z,
    (0 <= r < 100)%Z ->
    exists a b : ascii,
      Fmt.two_digits r = String a (String b EmptyString)
      /\ is_digit a = true /\ is_digit b = true.
Proof.
  intros r Hr.
  assert (Hall : forallb two_digit_check (seq 0 100) = true)
    by (vm_compute; reflexivity).
  rewrite forallb_forall in Hall.
  specialize (Hall (Z.to_nat r)).
  assert (Hin : In (Z.to_nat r) (seq 0 100)) by (apply in_seq; lia).
  specialize (Hall Hin). unfold two_digit_check in Hall.
  rewrite Z2Nat.id in Hall by lia.
  destruct (Fmt.two_digits r) as [| a [| b [| c s]]]; try discriminate.
  apply andb_true_iff in Hall. destruct Hall as [Ha Hb].
  exists a, b. auto.
Qed.

Lemma digit_is_not_point :
  forall c : ascii, is_digit c = true -> Ascii.eqb c "-"%char = false.
Proof.
  intros c Hc.
  destruct (Ascii.eqb_spec c "-"%char) as [-> | _]; [| reflexivity].
  vm_compute in Hc. discriminate.
Qed.

Lemma after_digits_point :
  forall (ip rest : string),
    all_digits ip = true ->
    after_digits (ip ++ String "."%char rest) = String "."%char rest.
Proof.
  induction ip as [| c ip IH]; intros rest Hd; simpl in *.
  - reflexivity.
  - apply andb_true_iff in Hd. destruct Hd as [Hc Hd].
    rewrite Hc. auto.
Qed.

Lemma fixed2_two_decimals :
  forall h : Z,
    (0 <= h)%Z -> unsigned_two_decimals (Fmt.fixed2 h) = true.
Proof.
  intros h Hh. unfold Fmt.fixed2.
  assert (Hq : (0 <= h / 100)%Z) by (apply Z.div_pos; lia).
  pose proof (of_Z_plain _ Hq) as Hip.
  destruct (two_digits_shape (h mod 100)) as [a [b [Hab [Ha Hb]]]].
  { apply Z.mod_pos_bound. lia. }
  rewrite Hab.
  unfold plain_integer in Hip.
  destruct (PyStr.of_Z (h / 100)) as [| c ip] eqn:Hs; [discriminate |].
  simpl in Hip. apply andb_true_iff in Hip. destruct Hip as [Hc Hip].
  change (String c ip ++ "." ++ String a (String b ""))
    with (String c (ip ++ String "."%char (String a (String b "")))).
  unfold unsigned_two_decimals.
  cbn [after_digits]. rewrite Hc.
  rewrite after_digits_point by exact Hip.
  rewrite Ha, Hb. reflexivity.
Qed.

Lemma hundredths_nonneg :
  forall (m : positive) (e : Z), (0 <= Fmt.hundredths m e)%Z.
Proof.
  intros m e. unfold Fmt.hundredths, Fmt.round_half_even.
  destruct (Z.leb_spec 0 e) as [He | He].
  - assert (0 <= 2 ^ e)%Z by (apply Z.pow_nonneg; lia). nia.
  - assert (Hd : (0 < 2 ^ (- e))%Z) by (apply Z.pow_pos_nonneg; lia).
    assert (Hq : (0 <= Z.pos m * 100 / 2 ^ (- e))%Z)
      by (apply Z.div_pos; lia).
    repeat match goal with
           | |- context [if ?b then _ else _] => destruct b
           end; lia.
Qed.

(** A finite float under [:.2f] has exactly two decimal places. *)
Lemma format_2f_two_decimals :
  forall x : pyfloat,
    is_finite x = true -> two_decimals (Fmt.format_2f x) = true.
Proof.
  intros x Hx.
  destruct x as [s | s | | s m e]; try discriminate.
  - destruct s; reflexivity.
  - cbn [Fmt.format_2f].
    pose proof (fixed2_two_decimals _ (hundredths_nonneg m e)) as H2.
    destruct s; cbn [Fmt.sign].
    + exact H2.
    + change ("" ++ Fmt.fixed2 (Fmt.hundredths m e))
        with (Fmt.fixed2 (Fmt.hundredths m e)).
      unfold two_decimals.
      destruct (Fmt.fixed2 (Fmt.hundredths m e)) as [| c r] eqn:Hf;
        [discriminate |].
      assert (Hc : is_digit c = true).
      { unfold unsigned_two_decimals in H2.
        apply andb_true_iff in H2. tauto. }
      rewrite (digit_is_not_point c Hc). exact H2.
Qed.

End DigitFacts.

(** ** Composition of appending computations *)

Section AddsRules.

Local Open Scope list_scope.

Lemma adds_weaken :
  forall (c : M unit) (P Q : list string -> list Slide -> list string -> Prop),
    Adds c P ->
    (forall T ss ts, P T ss ts -> Q T ss ts) ->
    Adds c Q.
Proof.
  intros c P Q Hc HPQ st.
  destruct (Hc st) as [ss [ts [t' [Hrun HP]]]].
  exists ss, ts, t'. auto.
Qed.

Lemma adds_ret :
  Adds (ret tt) (fun _ ss ts => ss = [] /\ ts = []).
Proof.
  intros st. exists [], [], (tape st).
  split; [| auto].
  unfold ret, upd. rewrite !app_nil_r. destruct st; reflexivity.
Qed.

Lemma adds_seq :
  forall (c1 c2 : M unit)
         (P1 P2 : list string -> list Slide -> list string -> Prop),
    Adds c1 P1 ->
    Adds c2 P2 ->
    Adds (c1 ;;; c2)
         (fun T ss ts =>
            exists ss1 ts1 ss2 ts2,
              ss = ss1 ++ ss2 /\ ts = ts1 ++ ts2
              /\ P1 T ss1 ts1 /\ P2 (T ++ ts1) ss2 ts2).
Proof.
  intros c1 c2 P1 P2 H1 H2 st.
  destruct (H1 st) as [ss1 [ts1 [t1 [Hrun1 HP1]]]].
  destruct (H2 (upd st ss1 ts1 t1)) as [ss2 [ts2 [t2 [Hrun2 HP2]]]].
  exists (ss1 ++ ss2), (ts1 ++ ts2), t2.
  split.
  - unfold bind. rewrite Hrun1, Hrun2.
    unfold upd. cbn [prs slide_titles tape]. now rewrite !app_assoc.
  - exists ss1, ts1, ss2, ts2. auto.
Qed.

Lemma adds_bind :
  forall (A : Type) (c : M A) (Q : A -> Prop) (k : A -> M unit)
         (P : A -> list string -> list Slide -> list string -> Prop),
    Reads c Q ->
    (forall a, Q a -> Adds (k a) (P a)) ->
    Adds (bind c k) (fun T ss ts => exists a, Q a /\ P a T ss ts).
Proof.
  intros A c Q k P Hc Hk st.
  destruct (Hc st) as [a [t' [Hrun HQ]]].
  destruct (Hk a HQ {| prs := prs st; slide_titles := slide_titles st;
                       tape := t' |}) as [ss [ts [t'' [Hrun' HP]]]].
  exists ss, ts, t''. split.
  - unfold bind. rewrite Hrun. exact Hrun'.
  - exists a. auto.
Qed.

Lemma adds_get_titles :
  forall (k : list string -> M unit)
         (P : list string -> list string -> list Slide -> list string -> Prop),
    (forall T0, Adds (k T0) (P T0)) ->
    Adds (bind get_titles k) (fun T ss ts => P T T ss ts).
Proof.
  intros k P Hk st.
  destruct (Hk (slide_titles st) st) as [ss [ts [t' [Hrun HP]]]].
  exists ss, ts, t'. split; [| exact HP].
  unfold bind, get_titles. exact Hrun.
Qed.

Lemma adds_extend :
  forall l : list string,
    Adds (extend_titles l) (fun _ ss ts => ss = [] /\ ts = l).
Proof.
  intros l st. exists [], l, (tape st). split; [| auto].
  unfold extend_titles, upd. now rewrite app_nil_r.
Qed.

Lemma adds_push :
  forall s : Slide,
    Adds (push_slide s) (fun _ ss ts => ss = [s] /\ ts = []).
Proof.
  intros s st. exists [s], [], (tape st). split; [| auto].
  unfold push_slide, upd. now rewrite app_nil_r.
Qed.

Lemma adds_if :
  forall (b : bool) (c1 c2 : M unit)
         (P1 P2 : list string -> list Slide -> list string -> Prop),
    Adds c1 P1 ->
    Adds c2 P2 ->
    Adds (if b then c1 else c2)
         (fun T ss ts => if b then P1 T ss ts else P2 T ss ts).
Proof.
  intros b c1 c2 P1 P2 H1 H2. destruct b; assumption.
Qed.

(** A loop whose rounds append slides [Q x] and the titles [tf x]. *)
Lemma adds_for_each :
  forall (A : Type) (body : A -> M unit) (Q : A -> list Slide -> Prop)
         (tf : A -> list string) (l : list A),
    (forall x, In x l -> Adds (body x) (fun _ ss ts => Q x ss /\ ts = tf x)) ->
    Adds (for_each l body)
         (fun _ ss ts =>
            exists parts, Forall2 Q l parts
                          /\ ss = List.concat parts /\ ts = flat_map tf l).
Proof.
  intros A body Q tf l.
  induction l as [| x l IH]; intros Hbody.
  - cbn [for_each].
    apply (adds_weaken _ _ _ adds_ret).
    intros T ss ts [-> ->]. exists []. repeat split; constructor.
  - cbn [for_each].
    eapply adds_weaken.
    + apply adds_seq.
      * apply Hbody. now left.
      * apply IH. intros y Hy. apply Hbody. now right.
    + cbv beta.
      intros T ss ts [ss1 [ts1 [ss2 [ts2 [-> [-> [[HQ ->] Hrest]]]]]]].
      destruct Hrest as [parts [HF [-> ->]]].
      exists (ss1 :: parts). repeat split.
      constructor; assumption.
Qed.

Lemma adds_for_each_push :
  forall (A : Type) (f : A -> Slide) (l : list A),
    Adds (for_each l (fun x => push_slide (f x)))
         (fun _ ss ts => ss = map f l /\ ts = []).
Proof.
  intros A f l.
  induction l as [| x l IH]; cbn [for_each].
  - exact adds_ret.
  - eapply adds_weaken.
    + apply adds_seq; [apply adds_push | exact IH].
    + cbv beta.
      intros T ss ts [ss1 [ts1 [ss2 [ts2 [-> [-> [[-> ->] [-> ->]]]]]]]].
      auto.
Qed.

End AddsRules.

(** ** What each stage of the generator appends *)

Section Stages.

Local Open Scope list_scope.

Variable w : World.
Variable df : DataFrame.
Variables col plot_type : string.
Variable min_slides : Z.
Variable user_prompt : string.

Lemma reads_bind :
  forall (A B : Type) (c : M A) (k : A -> M B) (Q : A -> Prop)
         (Q' : B -> Prop),
    Reads c Q ->
    (forall a, Q a -> Reads (k a) Q') ->
    Reads (bind c k) Q'.
Proof.
  intros A B c k Q Q' Hc Hk st.
  destruct (Hc st) as [a [t1 [Hrun HQ]]].
  destruct (Hk a HQ {| prs := prs st; slide_titles := slide_titles st;
                       tape := t1 |}) as [b [t2 [Hrun' HQ']]].
  exists b, t2. split; [| exact HQ'].
  unfold bind. rewrite Hrun. exact Hrun'.
Qed.

Lemma generate_with_llama_reads :
  Reads (generate_with_llama w) (fun _ => True).
Proof.
  intros st. unfold generate_with_llama, on_tape.
  eexists. eexists. split; [reflexivity | exact I].
Qed.

(** With the default bounds the sanitizer never raises. *)
Lemma split_into_bullets_total :
  forall (text : string) (t : Tape),
    exists (bullets : list string) (t' : Tape),
      split_into_bullets w text 5 6 t = Ok (bullets, t').
Proof.
  intros text t.
  destruct (Z_lt_le_dec (Z.of_nat (List.length (usable_lines text))) 5)
    as [Hfew | Hmany].
  - exists canonical_failure, t.
    apply (split_into_bullets_few w text 5 6 t Hfew).
  - eexists. eexists. apply (split_into_bullets_default w text t Hmany).
Qed.

Lemma sanitize_reads :
  forall text : string,
    Reads (on_tape (split_into_bullets w text 5 6)) (fun _ => True).
Proof.
  intros text st. unfold on_tape.
  destruct (split_into_bullets_total text (tape st)) as [b [t' Hrun]].
  rewrite Hrun. exists b, t'. split; [reflexivity | exact I].
Qed.

Lemma bullets_from_llama_reads :
  Reads (bullets_from_llama w) (fun _ => True).
Proof.
  unfold bullets_from_llama.
  eapply reads_bind.
  - apply generate_with_llama_reads.
  - intros text _. apply sanitize_reads.
Qed.

(** A generated bullet slide under a fixed title. *)
Lemma adds_generated_slide :
  forall ttl : string,
    Adds (points <- bullets_from_llama w ;; add_slide ttl (Some points) None)
         (fun _ ss ts =>
            (exists points, ss = [new_slide ttl (Some points) None])
            /\ ts = []).
Proof.
  intros ttl.
  eapply adds_weaken.
  - eapply adds_bind.
    + apply bullets_from_llama_reads.
    + intros points _. apply adds_push.
  - cbv beta. intros T ss ts [points [_ [-> ->]]].
    split; [exists points |]; reflexivity.
Qed.

Lemma cover_adds :
  Adds (cover w)
       (fun _ ss ts =>
          exists cover_title, ss = [title_only cover_title]
                              /\ ts = [cover_title]).
Proof.
  unfold cover.
  eapply adds_weaken.
  - eapply adds_bind.
    + apply generate_with_llama_reads.
    + intros reply _. apply adds_seq.
      * apply adds_push.
      * apply adds_extend.
  - cbv beta.
    intros T ss ts [reply [_ [ss1 [ts1 [ss2 [ts2 H]]]]]].
    destruct H as [-> [-> [[-> ->] [-> ->]]]].
    eexists. split; reflexivity.
Qed.

Lemma collect_titles_adds :
  Adds (collect_titles df col min_slides user_prompt)
       (fun _ ss ts =>
          ss = [] /\ ts = planned_tail df col min_slides user_prompt).
Proof.
  unfold collect_titles.
  eapply adds_weaken.
  - repeat (apply adds_seq; [| idtac]);
      try apply adds_extend;
      try (apply adds_if; [apply adds_extend | apply adds_ret]).
  - cbv beta. unfold planned_tail.
    intros T ss ts H.
    repeat match goal with
           | H : exists _, _ |- _ => destruct H
           | H : _ /\ _ |- _ => destruct H
           end.
    subst.
    destruct (extra_slides_needed df min_slides),
      (summary_listed user_prompt);
      repeat match goal with
             | H : _ /\ _ |- _ => destruct H
             end; subst; simpl; auto.
Qed.

Lemma overview_adds :
  Adds overview
       (fun T ss ts =>
          ss = overview_slides (numbered (PyStr.slice_to_last 2 T))
          /\ ts = []).
Proof.
  unfold overview.
  apply (adds_get_titles _
           (fun T0 _ ss ts =>
              ss = overview_slides (numbered (PyStr.slice_to_last 2 T0))
              /\ ts = [])).
  intros T0. unfold add_slide.
  apply (adds_for_each_push _
           (fun i =>
              new_slide (if (i =? 0)%nat then "Overview of Upcoming Slides"
                         else "Overview of Upcoming Slides Continued")
                (Some (firstn 6 (skipn i (numbered
                                            (PyStr.slice_to_last 2 T0)))))
                None)).
Qed.

Lemma introduction_adds :
  Adds (introduction w)
       (fun _ ss ts =>
          (exists points,
              ss = [new_slide "Introduction to Analysis" (Some points) None])
          /\ ts = []).
Proof.
  apply adds_generated_slide.
Qed.

Lemma getitem_found :
  forall name : string,
    In name (df_columns df) -> exists c, getitem df name = Ok c.
Proof.
  intros name. unfold getitem, df_columns.
  induction (df_data df) as [| c cs IH]; simpl; intros Hin.
  - contradiction.
  - destruct (String.eqb_spec (col_name c) name) as [Heq | Hne].
    + eexists. reflexivity.
    + destruct Hin as [Heq | Hin]; [contradiction |]. auto.
Qed.

Lemma getitem_missing :
  forall name : string,
    ~ In name (df_columns df) -> getitem df name = Raise (KeyError name).
Proof.
  intros name. unfold getitem, df_columns.
  induction (df_data df) as [| c cs IH]; simpl; intros Hnot.
  - reflexivity.
  - destruct (String.eqb_spec (col_name c) name) as [Heq | Hne].
    + exfalso. apply Hnot. now left.
    + destruct (find (fun c0 => (col_name c0 =? name)%string) cs) eqn:Hf.
      * exfalso.
        assert (Hx : Ok c0 = Raise (KeyError name)) by (apply IH; tauto).
        discriminate.
      * reflexivity.
Qed.

Lemma other_cols_in :
  forall name : string,
    In name (other_cols df col) -> In name (df_columns df).
Proof.
  intros name Hin. unfold other_cols in Hin.
  apply filter_In in Hin. tauto.
Qed.

Lemma comparison_adds :
  forall (focus : Column) (other_col : string),
    getitem df col = Ok focus ->
    In other_col (df_columns df) ->
    chart_failure df col plot_type other_col = None ->
    Adds (comparison w df col plot_type other_col)
         (fun _ ss ts =>
            is_group df col plot_type focus other_col ss /\ ts = []).
Proof.
  intros focus other_col Hfocus Hin Hdrawn.
  destruct (getitem_found other_col Hin) as [other Hother].
  unfold chart_failure in Hdrawn. rewrite Hfocus, Hother in Hdrawn.
  intros st.
  destruct (adds_seq _ _ _ _
              (adds_push (new_slide (plot_title col other_col) None
                            (Some (snd (choose_plot (col_numeric focus)
                                          (col_numeric other) plot_type)))))
              (adds_seq _ _ _ _
                 (adds_push (new_slide (insights_title col other_col)
                               (Some (content_points df col other_col
                                        focus other)) None))
                 (adds_generated_slide (detail_title col other_col))) st)
    as [ss [ts [t' [Hrun HP]]]].
  exists ss, ts, t'. split.
  - rewrite <- Hrun.
    unfold comparison, draw_chart.
    unfold bind at 1. unfold raise_from at 1. rewrite Hfocus.
    unfold bind at 1. unfold raise_from at 1. rewrite Hother.
    cbv zeta. unfold bind at 1. unfold raise_from at 1. rewrite Hdrawn.
    reflexivity.
  - destruct HP as [ss1 [ts1 [ss2 [ts2 [-> [-> [[-> ->] HP]]]]]]].
    destruct HP as [ss3 [ts3 [ss4 [ts4 [-> [-> [[-> ->] HP]]]]]]].
    destruct HP as [[points ->] ->].
    split; [| reflexivity].
    exists other, points. split; [exact Hother | reflexivity].
Qed.

Lemma charts_drawn_each :
  forall other_col : string,
    charts_drawn df col plot_type = true ->
    In other_col (other_cols df col) ->
    chart_failure df col plot_type other_col = None.
Proof.
  intros other_col Hall Hin. unfold charts_drawn in Hall.
  rewrite forallb_forall in Hall. specialize (Hall other_col Hin).
  destruct (chart_failure df col plot_type other_col);
    [discriminate | reflexivity].
Qed.

Lemma comparisons_add :
  forall focus : Column,
    getitem df col = Ok focus ->
    charts_drawn df col plot_type = true ->
    Adds (for_each (other_cols df col) (comparison w df col plot_type))
         (fun _ ss ts =>
            (exists groups,
                Forall2 (is_group df col plot_type focus)
                        (other_cols df col) groups
                /\ ss = List.concat groups)
            /\ ts = []).
Proof.
  intros focus Hfocus Hdrawn.
  eapply adds_weaken.
  - apply (adds_for_each _ _ (is_group df col plot_type focus)
             (fun _ => [])).
    intros x Hx.
    apply comparison_adds;
      [exact Hfocus | now apply other_cols_in
       | now apply charts_drawn_each].
  - cbv beta. intros T ss ts [groups [HF [-> ->]]].
    split; [exists groups; auto |].
    clear HF. induction (other_cols df col); simpl; auto.
Qed.

End Stages.

Section Assembly.

Local Open Scope list_scope.

Variable w : World.
Variable df : DataFrame.
Variables col plot_type : string.
Variable min_slides : Z.
Variable user_prompt : string.

Lemma index_adds :
  Adds (index w df min_slides)
       (fun _ ss ts =>
          (if extra_slides_needed df min_slides
           then exists points,
               ss = [new_slide "Index of Slides" (Some points) None]
           else ss = [])
          /\ ts = []).
Proof.
  unfold index.
  destruct (extra_slides_needed df min_slides).
  - eapply adds_weaken.
    + apply (adds_get_titles _
               (fun _ _ ss ts =>
                  exists points : list string,
                    True /\ ss = [new_slide "Index of Slides" (Some points)
                                            None]
                    /\ ts = [])).
      intros T0.
      eapply adds_bind.
      * apply sanitize_reads.
      * intros points _. apply adds_push.
    + cbv beta. intros T ss ts [points [_ [-> ->]]].
      split; [exists points |]; reflexivity.
  - exact adds_ret.
Qed.

Lemma summary_adds :
  Adds (summary w user_prompt)
       (fun _ ss ts =>
          if summary_requested user_prompt
          then (exists points,
                   ss = [new_slide "Summary of Findings" (Some points) None])
               /\ ts = ["Summary of Findings"]
          else ss = [] /\ ts = []).
Proof.
  unfold summary.
  destruct (summary_requested user_prompt).
  - eapply adds_weaken.
    + eapply adds_bind.
      * apply bullets_from_llama_reads.
      * intros points _. apply adds_seq.
        -- apply adds_push.
        -- apply adds_extend.
    + cbv beta.
      intros T ss ts [points [_ [ss1 [ts1 [ss2 [ts2 H]]]]]].
      destruct H as [-> [-> [[-> ->] [-> ->]]]].
      split; [exists points |]; reflexivity.
  - exact adds_ret.
Qed.

Lemma padding_round_adds :
  forall i : nat,
    Adds (extra_points <- bullets_from_llama w ;;
          add_slide (additional_title i) (Some extra_points) None ;;;
          extend_titles [additional_title i])
         (fun _ ss ts =>
            (exists s, ss = [s] /\ is_padding_slide i s)
            /\ ts = [additional_title i]).
Proof.
  intros i.
  eapply adds_weaken.
  - eapply adds_bind.
    + apply bullets_from_llama_reads.
    + intros points _. apply adds_seq.
      * apply adds_push.
      * apply adds_extend.
  - cbv beta.
    intros T ss ts [points [_ [ss1 [ts1 [ss2 [ts2 H]]]]]].
    destruct H as [-> [-> [[-> ->] [-> ->]]]].
    split; [| reflexivity].
    eexists. split; [reflexivity |]. exists points. reflexivity.
Qed.

Lemma singleton_parts :
  forall (l : list nat) (parts : list (list Slide)),
    Forall2 (fun i ss => exists s, ss = [s] /\ is_padding_slide i s)
            l parts ->
    Forall2 is_padding_slide l (List.concat parts).
Proof.
  intros l parts HF.
  induction HF as [| i ss l parts [s [-> Hs]] _ IH]; simpl.
  - constructor.
  - constructor; assumption.
Qed.

Lemma padding_adds :
  Adds (padding w min_slides)
       (fun T ss ts =>
          Forall2 is_padding_slide
                  (seq 0 (Z.to_nat (min_slides - current_slides T))) ss
          /\ ts = map additional_title
                      (seq 0 (Z.to_nat (min_slides - current_slides T)))).
Proof.
  unfold padding.
  apply (adds_get_titles _
           (fun T0 _ ss ts =>
              Forall2 is_padding_slide
                      (seq 0 (Z.to_nat (min_slides - current_slides T0))) ss
              /\ ts = map additional_title
                          (seq 0 (Z.to_nat (min_slides - current_slides T0))))).
  intros T0.
  destruct (Z.ltb_spec (current_slides T0) min_slides) as [Hlt | Hge].
  - eapply adds_weaken.
    + apply (adds_for_each _ _
               (fun i ss => exists s, ss = [s] /\ is_padding_slide i s)
               (fun i => [additional_title i])).
      intros i _. apply padding_round_adds.
    + cbv beta. intros T ss ts [parts [HF [-> ->]]].
      split.
      * now apply singleton_parts.
      * clear HF.
        induction (seq 0 (Z.to_nat (min_slides - current_slides T0)));
          simpl; congruence.
  - replace (Z.to_nat (min_slides - current_slides T0)) with 0%nat by lia.
    apply (adds_weaken _ _ _ adds_ret).
    intros T ss ts [-> ->]. split; constructor.
Qed.

Lemma closing_adds :
  Adds (closing w)
       (fun _ ss ts =>
          (exists points,
              ss = [ new_slide "Conclusion of Analysis" (Some points) None;
                     title_only "Thank You" ])
          /\ ts = []).
Proof.
  unfold closing.
  eapply adds_weaken.
  - eapply adds_bind.
    + apply bullets_from_llama_reads.
    + intros points _. apply adds_seq.
      * apply adds_push.
      * apply adds_push.
  - cbv beta.
    intros T ss ts [points [_ [ss1 [ts1 [ss2 [ts2 H]]]]]].
    destruct H as [-> [-> [[-> ->] [-> ->]]]].
    split; [exists points |]; reflexivity.
Qed.

(** Lines 84-218 from the empty presentation. *)
Lemma plan_and_fill_runs :
  forall focus : Column,
    getitem df col = Ok focus ->
    charts_drawn df col plot_type = true ->
    exists (cover_title : string)
           (intro_points index_points summary_points : list string)
           (groups : list (list Slide)) (t1 : Tape),
      Forall2 (is_group df col plot_type focus) (other_cols df col) groups
      /\ plan_and_fill w df col plot_type min_slides user_prompt empty_state
         = Ok (tt,
               {| prs :=
                    title_only cover_title
                    :: overview_slides
                         (numbered
                            (PyStr.slice_to_last 2
                               (cover_title
                                :: planned_tail df col min_slides user_prompt)))
                    ++ new_slide "Introduction to Analysis"
                                 (Some intro_points) None
                    :: List.concat groups
                    ++ (if extra_slides_needed df min_slides
                        then [new_slide "Index of Slides" (Some index_points)
                                        None]
                        else [])
                    ++ (if summary_requested user_prompt
                        then [new_slide "Summary of Findings"
                                        (Some summary_points) None]
                        else []);
                  slide_titles :=
                    checked_titles df col min_slides user_prompt cover_title;
                  tape := t1 |}).
Proof.
  intros focus Hfocus Hdrawn.
  pose proof
       (adds_seq _ _ _ _ (cover_adds w)
          (adds_seq _ _ _ _
             (collect_titles_adds df col min_slides user_prompt)
             (adds_seq _ _ _ _ overview_adds
                (adds_seq _ _ _ _ (introduction_adds w)
                   (adds_seq _ _ _ _
                      (comparisons_add w df col plot_type focus Hfocus
                                       Hdrawn)
                      (adds_seq _ _ _ _ index_adds summary_adds))))))
    as Hall.
  destruct (Hall empty_state) as [ss [ts [t1 [Hrun HP]]]].
  cbn [slide_titles empty_state] in HP.
  destruct HP as [ss1 [ts1 [ss2 [ts2 [-> [-> [[ct [-> ->]] HP]]]]]]].
  destruct HP as [ss3 [ts3 [ss4 [ts4 [-> [-> [[-> ->] HP]]]]]]].
  destruct HP as [ss5 [ts5 [ss6 [ts6 [-> [-> [[-> ->] HP]]]]]]].
  destruct HP as [ss7 [ts7 [ss8 [ts8 [-> [-> [[[gi ->] ->] HP]]]]]]].
  destruct HP as [ss9 [ts9 [ssA [tsA [-> [-> [[[groups [HF ->]] ->] HP]]]]]]].
  destruct HP as [ssB [tsB [ssC [tsC [-> [-> [[Hidx ->] Hsum]]]]]]].
  assert (Hidx' :
            exists gx,
              ssB = if extra_slides_needed df min_slides
                    then [new_slide "Index of Slides" (Some gx) None]
                    else []).
  { destruct (extra_slides_needed df min_slides).
    - destruct Hidx as [gx ->]. exists gx. reflexivity.
    - exists []. exact Hidx. }
  destruct Hidx' as [gx ->].
  assert (Hsum' :
            exists gs,
              ssC = (if summary_requested user_prompt
                     then [new_slide "Summary of Findings" (Some gs) None]
                     else [])
              /\ tsC = if summary_requested user_prompt
                       then ["Summary of Findings"] else []).
  { destruct (summary_requested user_prompt).
    - destruct Hsum as [[gs ->] ->]. exists gs. auto.
    - destruct Hsum as [-> ->]. exists []. auto. }
  destruct Hsum' as [gs [-> ->]].
  exists ct, gi, gx, gs, groups, t1.
  split; [exact HF |].
  unfold plan_and_fill. rewrite Hrun.
  unfold upd, checked_titles.
  cbn [prs slide_titles empty_state app]. reflexivity.
Qed.

End Assembly.

(** ** The whole run *)

Section WholeRun.

Local Open Scope list_scope.

Variable w : World.
Variable convert_error : option string.
Variable df : DataFrame.
Variables col plot_type : string.
Variable min_slides : Z.
Variable user_prompt : string.

(** When the focus column exists and every chart can be drawn the three
    phases run to the end, and the states between them have the shape
    [deck_run]. *)
Lemma build_deck_runs :
  forall focus : Column,
    getitem df col = Ok focus ->
    charts_drawn df col plot_type = true ->
    exists st1 st2 st3 : State,
      plan_and_fill w df col plot_type min_slides user_prompt empty_state
      = Ok (tt, st1)
      /\ padding w min_slides st1 = Ok (tt, st2)
      /\ closing w st2 = Ok (tt, st3)
      /\ build_deck w df col plot_type min_slides user_prompt empty_state
         = Ok (tt, st3)
      /\ deck_run df col plot_type min_slides user_prompt focus st1 st2 st3.
Proof.
  intros focus Hfocus Hdrawn.
  destruct (plan_and_fill_runs w df col plot_type min_slides user_prompt
              focus Hfocus Hdrawn)
    as [ct [gi [gx [gs [groups [t1 [HF Hrun1]]]]]]].
  match type of Hrun1 with _ = Ok (tt, ?s) => set (st1 := s) in * end.
  destruct (padding_adds w min_slides st1) as [pads [ts [t2 [Hrun2 [HP ->]]]]].
  destruct (closing_adds w (upd st1 pads
                              (map additional_title
                                 (seq 0 (Z.to_nat
                                           (min_slides
                                            - current_slides
                                                (slide_titles st1)))))
                              t2))
    as [ss [ts [t3 [Hrun3 [[gc ->] ->]]]]].
  eexists. eexists. eexists.
  split; [exact Hrun1 |].
  split; [exact Hrun2 |].
  split; [exact Hrun3 |].
  split.
  - unfold build_deck, bind. rewrite Hrun1, Hrun2. exact Hrun3.
  - unfold upd. subst st1. cbn [prs slide_titles tape].
    rewrite app_nil_r.
    apply (DeckRun df col plot_type min_slides user_prompt focus
             ct gi gx gs gc groups pads t1 t2 t3 HF HP).
Qed.

Lemma generate_eda_report_built :
  forall st : State,
    df_empty df = false ->
    build_deck w df col plot_type min_slides user_prompt empty_state
    = Ok (tt, st) ->
    generate_eda_report w convert_error (Table df) col plot_type min_slides
                        user_prompt
    = save_and_convert w convert_error (prs st).
Proof.
  intros st Hne Hrun. unfold generate_eda_report.
  rewrite Hne, Hrun. reflexivity.
Qed.

Lemma listed_titles_slice :
  forall cover_title : string,
    PyStr.slice_to_last 2
      (cover_title :: planned_tail df col min_slides user_prompt)
    = listed_titles df col min_slides user_prompt.
Proof.
  intros ct. unfold PyStr.slice_to_last, planned_tail.
  replace (ct :: ["Introduction to Analysis"]
              ++ map (plot_title col) (other_cols df col)
              ++ map (insights_title col) (other_cols df col)
              ++ map (detail_title col) (other_cols df col)
              ++ (if extra_slides_needed df min_slides
                  then ["Index of Slides"] else [])
              ++ (if summary_listed user_prompt
                  then ["Summary of Findings"] else [])
              ++ ["Conclusion of Analysis"])
    with ((ct :: "Introduction to Analysis"
              :: listed_titles df col min_slides user_prompt)
          ++ ["Conclusion of Analysis"]).
  - rewrite removelast_last. reflexivity.
  - unfold listed_titles. cbn [app]. rewrite <- !app_assoc. reflexivity.
Qed.

Lemma length_numbered :
  forall l : list string, List.length (numbered l) = List.length l.
Proof.
  intros l. unfold numbered, enumerate.
  rewrite length_map, length_combine, length_seq. lia.
Qed.

Lemma length_overview_slides :
  forall content : list string,
    List.length (overview_slides content)
    = ((List.length content + 5) / 6)%nat.
Proof.
  intros content. unfold overview_slides, range_by.
  rewrite !length_map, length_seq.
  f_equal. lia.
Qed.

Lemma length_groups :
  forall (focus : Column) (names : list string) (groups : list (list Slide)),
    Forall2 (is_group df col plot_type focus) names groups ->
    List.length (List.concat groups) = (3 * List.length names)%nat.
Proof.
  intros focus names groups HF.
  induction HF as [| o ss names groups [other [g [_ ->]]] _ IH].
  - reflexivity.
  - cbn [List.concat]. rewrite length_app, IH. simpl. lia.
Qed.

Lemma summary_requested_listed :
  summary_requested user_prompt = true -> summary_listed user_prompt = true.
Proof.
  unfold summary_requested, summary_listed.
  destruct (PyStr.truthy user_prompt); simpl; [auto | discriminate].
Qed.

Lemma length_listed_titles :
  List.length (listed_titles df col min_slides user_prompt)
  = (3 * List.length (other_cols df col)
     + (if extra_slides_needed df min_slides then 1 else 0)
     + (if summary_listed user_prompt then 1 else 0))%nat.
Proof.
  unfold listed_titles.
  rewrite !length_app, !length_map.
  destruct (extra_slides_needed df min_slides),
    (summary_listed user_prompt); simpl; lia.
Qed.

Lemma length_checked_titles :
  forall cover_title : string,
    List.length (checked_titles df col min_slides user_prompt cover_title)
    = (3 + List.length (listed_titles df col min_slides user_prompt)
       + (if summary_requested user_prompt then 1 else 0))%nat.
Proof.
  intros ct. unfold checked_titles, planned_tail.
  cbn [app List.length].
  rewrite length_listed_titles.
  rewrite !length_app, !length_map.
  destruct (extra_slides_needed df min_slides),
    (summary_listed user_prompt), (summary_requested user_prompt);
    simpl; lia.
Qed.

End WholeRun.

(** ** The minimum number of slides *)

Section Minimum.

Local Open Scope list_scope.

Lemma additional_titles_from_one :
  forall rounds : nat,
    map additional_title (seq 0 rounds)
    = map (fun n => ("Additional Analysis " ++ PyStr.of_nat n)%string)
          (seq 1 rounds).
Proof.
  intros rounds. rewrite <- seq_shift, map_map.
  apply map_ext. intros i. unfold additional_title.
  now rewrite Nat.add_1_r.
Qed.

Lemma padding_slide_titles :
  forall (l : list nat) (pads : list Slide),
    Forall2 is_padding_slide l pads ->
    map title pads = map additional_title l
    /\ Forall (fun s => layout s = 1%nat) pads.
Proof.
  intros l pads HF.
  induction HF as [| i s l pads [g ->] _ [IHt IHl]]; simpl.
  - split; constructor.
  - split; [now rewrite IHt | constructor; auto].
Qed.

Lemma overview_covers_summary :
  forall (df : DataFrame) (col : string) (min_slides : Z)
         (user_prompt : string),
    ((if summary_listed user_prompt then 1 else 0)
     <= (List.length (listed_titles df col min_slides user_prompt) + 5) / 6)%nat.
Proof.
  intros df col min_slides user_prompt.
  rewrite length_listed_titles.
  destruct (summary_listed user_prompt); [| lia].
  apply Nat.div_le_lower_bound; lia.
Qed.

(** C1: for a non-empty dataset, a focus column of it and charts that
    can be drawn, the run counts [len(slide_titles) + 1] after the summary
    stage and makes [min_slides] minus that count rounds of padding (none
    when the difference is not positive).  The rounds append the slides
    "Additional Analysis 1", "Additional Analysis 2", ... one by one, the
    count of tracked titles plus one stays below [min_slides] before each
    round and is [min_slides] after the last one (unchanged when there
    was no round), and the finished deck has at least [min_slides] slides
    (for every [min_slides], so for those from 3 on). *)
Theorem minimum_slides_met :
  forall (w : World) (convert_error : option string) (df : DataFrame)
         (col plot_type : string) (min_slides : Z) (user_prompt : string),
    df_empty df = false ->
    In col (df_columns df) ->
    charts_drawn df col plot_type = true ->
    exists st1 st2 st3 : State,
      plan_and_fill w df col plot_type min_slides user_prompt empty_state
      = Ok (tt, st1)
      /\ padding w min_slides st1 = Ok (tt, st2)
      /\ closing w st2 = Ok (tt, st3)
      /\ generate_eda_report w convert_error (Table df) col plot_type
                             min_slides user_prompt
         = save_and_convert w convert_error (prs st3)
      /\ let counted := (Z.of_nat (List.length (slide_titles st1)) + 1)%Z in
         let rounds := Z.to_nat (min_slides - counted) in
         let names :=
           map (fun n => ("Additional Analysis " ++ PyStr.of_nat n)%string)
               (seq 1 rounds) in
         current_slides (slide_titles st1) = counted
         /\ slide_titles st2 = slide_titles st1 ++ names
         /\ (exists pads,
                prs st2 = prs st1 ++ pads
                /\ map title pads = names
                /\ Forall (fun s => layout s = 1%nat) pads)
         /\ (forall k : nat,
                (k < rounds)%nat ->
                (Z.of_nat (List.length
                             (slide_titles st1
                              ++ map additional_title (seq 0 k))) + 1
                 < min_slides)%Z)
         /\ (Z.of_nat (List.length (slide_titles st2)) + 1
             = Z.max counted min_slides)%Z
         /\ slide_titles st3 = slide_titles st2
         /\ (min_slides <= Z.of_nat (List.length (prs st3)))%Z.
Proof.
  intros w ce df col plot_type min_slides user_prompt Hne Hcol Hdrawn.
  destruct (getitem_found df col Hcol) as [focus Hfocus].
  destruct (build_deck_runs w df col plot_type min_slides user_prompt
              focus Hfocus Hdrawn)
    as [st1 [st2 [st3 [Hrun1 [Hrun2 [Hrun3 [Hrun Hshape]]]]]]].
  exists st1, st2, st3.
  split; [exact Hrun1 |].
  split; [exact Hrun2 |].
  split; [exact Hrun3 |].
  split; [now apply generate_eda_report_built |].
  destruct Hshape as [ct gi gx gs gc groups pads t1 t2 t3 HF HP filled padded].
  cbn [prs slide_titles]. cbv zeta.
  unfold padding_rounds, current_slides in *.
  set (rounds :=
         Z.to_nat
           (min_slides
            - (Z.of_nat
                 (List.length
                    (checked_titles df col min_slides user_prompt ct)) + 1)))
    in *.
  destruct (padding_slide_titles _ _ HP) as [Htitles Hlayouts].
  pose proof (Forall2_length HP) as Hpads. rewrite length_seq in Hpads.
  pose proof (length_checked_titles df col min_slides user_prompt ct)
    as Hchecked.
  split; [reflexivity |].
  split; [| split; [| split; [| split; [| split]]]].
  - subst padded. now rewrite additional_titles_from_one.
  - exists pads. rewrite <- additional_titles_from_one. auto.
  - intros k Hk. rewrite length_app, length_map, length_seq. lia.
  - subst padded. rewrite length_app, length_map, length_seq. lia.
  - reflexivity.
  - subst filled.
    rewrite listed_titles_slice.
    pose proof (overview_covers_summary df col min_slides user_prompt)
      as Hov.
    pose proof (length_groups df col plot_type focus _ _ HF) as Hgroups.
    pose proof (length_listed_titles df col min_slides user_prompt) as Hl.
    assert (Hreq : summary_requested user_prompt = true ->
                   summary_listed user_prompt = true)
      by apply summary_requested_listed.
    repeat (rewrite ?length_app, ?length_overview_slides, ?length_numbered;
            cbn [List.length]).
    rewrite Hgroups, <- Hpads.
    destruct (extra_slides_needed df min_slides),
      (summary_listed user_prompt) eqn:Hsl,
      (summary_requested user_prompt) eqn:Hsr;
      try (specialize (Hreq eq_refl); discriminate);
      cbn [List.length] in *; lia.
Qed.

(** Two columns, twenty slides asked for: seven titles are tracked, the
    count is eight, twelve rounds of padding follow and the deck has
    twenty-one slides with its overview slide. *)
Lemma minimum_slides_met_witness :
  df_empty Sample.df_ab = false
  /\ In "A" (df_columns Sample.df_ab)
  /\ charts_drawn Sample.df_ab "A" "Scatter" = true
  /\ exists st1 st3 : State,
      plan_and_fill Sample.world Sample.df_ab "A" "Scatter" 20
                    Sample.default_text empty_state
      = Ok (tt, st1)
      /\ generate_eda_report Sample.world None (Table Sample.df_ab) "A"
                             "Scatter" 20 Sample.default_text
         = Success (prs st3)
      /\ List.length (slide_titles st1) = 7%nat
      /\ List.length (slide_titles st3) = 19%nat
      /\ (20 <= Z.of_nat (List.length (prs st3)))%Z.
Proof.
  split; [reflexivity |].
  split; [simpl; auto |].
  split; [reflexivity |].
  destruct (minimum_slides_met Sample.world None Sample.df_ab "A" "Scatter"
              20 Sample.default_text)
    as [st1 [st2 [st3 [Hrun1 [_ [_ [Hrun H]]]]]]].
  - reflexivity.
  - simpl. auto.
  - reflexivity.
  - exists st1, st3. split; [exact Hrun1 |]. split; [exact Hrun |].
    destruct H as [_ [_ [_ [_ [Hmax [Hsame Hlen]]]]]].
    assert (H7 : List.length (slide_titles st1) = 7%nat).
    { vm_compute in Hrun1. injection Hrun1 as <-. reflexivity. }
    rewrite H7 in Hmax. rewrite Hsame.
    split; [exact H7 |]. split; [| exact Hlen].
    change (Z.max (Z.of_nat 7 + 1) 20) with 20%Z in Hmax. lia.
Defined.

End Minimum.

(** ** A focus column that is not in the dataset *)

Section MissingFocus.

Local Open Scope list_scope.

Lemma other_cols_all :
  forall (df : DataFrame) (col : string),
    ~ In col (df_columns df) -> other_cols df col = df_columns df.
Proof.
  intros df col. unfold other_cols.
  induction (df_columns df) as [| c cs IH]; simpl; intros Hnot.
  - reflexivity.
  - destruct (String.eqb_spec c col) as [Heq | Hne].
    + exfalso. apply Hnot. now left.
    + simpl. f_equal. apply IH. tauto.
Qed.

(** C10: nothing checks that the focus column is a column of the
    dataset.  For a non-empty dataset and a focus name that is not among
    its columns, every column counts as an other column, the first round
    of the comparison loop raises [KeyError] at [df[col]], and the
    exception leaves [generate_eda_report]: the result is not a
    [(False, message)] failure. *)
Theorem missing_focus_raises :
  forall (w : World) (convert_error : option string) (df : DataFrame)
         (col plot_type : string) (min_slides : Z) (user_prompt : string),
    df_empty df = false ->
    ~ In col (df_columns df) ->
    other_cols df col = df_columns df
    /\ other_cols df col <> []
    /\ generate_eda_report w convert_error (Table df) col plot_type
                           min_slides user_prompt
       = Uncaught (KeyError col)
    /\ forall msg : string,
        generate_eda_report w convert_error (Table df) col plot_type
                            min_slides user_prompt
        <> Failure msg.
Proof.
  intros w ce df col plot_type min_slides user_prompt Hne Hnot.
  pose proof (other_cols_all df col Hnot) as Hall.
  assert (Hsome : exists o rest, other_cols df col = o :: rest).
  { rewrite Hall. unfold df_empty in Hne. unfold df_columns.
    destruct (df_data df) as [| c cs].
    - simpl in Hne. rewrite orb_true_r in Hne. discriminate.
    - simpl. eauto. }
  destruct Hsome as [o [rest Ho]].
  assert (Hrun :
            generate_eda_report w ce (Table df) col plot_type min_slides
                                user_prompt
            = Uncaught (KeyError col)).
  { unfold generate_eda_report. rewrite Hne.
    unfold build_deck, plan_and_fill.
    destruct (adds_seq _ _ _ _ (cover_adds w)
                (adds_seq _ _ _ _
                   (collect_titles_adds df col min_slides user_prompt)
                   (adds_seq _ _ _ _ overview_adds (introduction_adds w)))
                empty_state) as [ss [ts [t' [Hfirst _]]]].
    unfold bind in *.
    destruct (cover w empty_state) as [[[] sa] | e]; [| discriminate].
    destruct (collect_titles df col min_slides user_prompt sa)
      as [[[] sb] | e]; [| discriminate].
    destruct (overview sb) as [[[] sc] | e]; [| discriminate].
    destruct (introduction w sc) as [[[] sd] | e]; [| discriminate].
    rewrite Ho. cbn [for_each]. unfold bind, comparison, bind, raise_from.
    rewrite (getitem_missing df col Hnot). reflexivity. }
  split; [exact Hall |].
  split; [rewrite Ho; discriminate |].
  split; [exact Hrun |].
  intros msg. rewrite Hrun. discriminate.
Qed.

Lemma missing_focus_raises_witness :
  df_empty Sample.df_ab = false
  /\ ~ In "Price" (df_columns Sample.df_ab)
  /\ generate_eda_report Sample.world None (Table Sample.df_ab) "Price"
                         "Scatter" 5 Sample.default_text
     = Uncaught (KeyError "Price").
Proof.
  assert (Hnot : ~ In "Price" (df_columns Sample.df_ab)).
  { simpl. intros [H | [H | []]]; discriminate. }
  split; [reflexivity |].
  split; [exact Hnot |].
  apply (missing_focus_raises Sample.world None Sample.df_ab "Price"
           "Scatter" 5 Sample.default_text eq_refl Hnot).
Defined.

End MissingFocus.

(** ** Which slides carry which title *)

Section Census.

Local Open Scope list_scope.

Variable df : DataFrame.
Variables col plot_type : string.

Lemma filter_none :
  forall (A : Type) (p : A -> bool) (l : list A),
    Forall (fun x => p x = false) l -> filter p l = [].
Proof.
  intros A p l HF. induction HF as [| x l Hx _ IH]; simpl.
  - reflexivity.
  - now rewrite Hx.
Qed.

Lemma filter_all :
  forall (A : Type) (p : A -> bool) (l : list A),
    Forall (fun x => p x = true) l -> filter p l = l.
Proof.
  intros A p l HF. induction HF as [| x l Hx _ IH]; simpl.
  - reflexivity.
  - now rewrite Hx, IH.
Qed.

Lemma groups_forall :
  forall (P : Slide -> Prop) (focus : Column) (names : list string)
         (groups : list (list Slide)),
    (forall other_col other detail_points,
        Forall P (comparison_slides df col plot_type focus other_col other
                                    detail_points)) ->
    Forall2 (is_group df col plot_type focus) names groups ->
    Forall P (List.concat groups).
Proof.
  intros P focus names groups HP HF.
  induction HF as [| o ss names groups [other [g [_ ->]]] _ IH];
    cbn [List.concat].
  - constructor.
  - apply Forall_app. split; [apply HP | exact IH].
Qed.

Lemma pads_forall :
  forall (P : Slide -> Prop) (l : list nat) (pads : list Slide),
    (forall i points,
        P (new_slide (additional_title i) (Some points) None)) ->
    Forall2 is_padding_slide l pads ->
    Forall P pads.
Proof.
  intros P l pads HP HF.
  induction HF as [| i s l pads [g ->] _ IH]; constructor; auto.
Qed.

Lemma overview_forall :
  forall (P : Slide -> Prop) (content : list string),
    (forall chunk,
        P (new_slide "Overview of Upcoming Slides" (Some chunk) None)) ->
    (forall chunk,
        P (new_slide "Overview of Upcoming Slides Continued" (Some chunk)
                     None)) ->
    Forall P (overview_slides content).
Proof.
  intros P content H1 H2. unfold overview_slides.
  apply Forall_forall. intros s Hs.
  apply in_map_iff in Hs. destruct Hs as [i [<- _]].
  destruct (i =? 0)%nat; auto.
Qed.

(** A predicate on slides that is false on every slide but those of the
    index and summary stages selects, in a finished deck, what it
    selects among these. *)
Lemma filter_finished_deck :
  forall (p : Slide -> bool) (focus : Column) (names : list string)
         (groups : list (list Slide)) (l : list nat)
         (cover intro concl closing : Slide)
         (content : list string) (idx summ pads : list Slide),
    Forall2 (is_group df col plot_type focus) names groups ->
    Forall2 is_padding_slide l pads ->
    p cover = false -> p intro = false -> p concl = false ->
    p closing = false ->
    Forall (fun s => p s = false) (overview_slides content) ->
    (forall other_col other detail_points,
        Forall (fun s => p s = false)
               (comparison_slides df col plot_type focus other_col other
                                  detail_points)) ->
    (forall i points,
        p (new_slide (additional_title i) (Some points) None) = false) ->
    filter p (((cover :: overview_slides content
                ++ intro :: List.concat groups ++ idx ++ summ)
               ++ pads) ++ [concl; closing])
    = filter p idx ++ filter p summ.
Proof.
  intros p focus names groups l cover intro concl closing content idx summ
         pads HF HP Hc Hi Hcl Hty Hov Hg Hpad.
  rewrite !filter_app. cbn [filter].
  rewrite Hc, Hcl, Hty.
  rewrite filter_app. cbn [filter]. rewrite Hi.
  rewrite !filter_app.
  rewrite (filter_none _ p _ Hov).
  rewrite (filter_none _ p _
             (groups_forall (fun s => p s = false) focus names groups Hg HF)).
  rewrite (filter_none _ p _
             (pads_forall (fun s => p s = false) l pads Hpad HP)).
  cbn [app]. now rewrite !app_nil_r.
Qed.

Lemma comparison_slides_not_titled :
  forall (ttl : string) (focus : Column),
    (forall x, String.eqb (insights_title col x) ttl = false) ->
    (forall x, String.eqb (detail_title col x) ttl = false) ->
    forall other_col other detail_points,
      Forall (fun s => is_content_titled ttl s = false)
             (comparison_slides df col plot_type focus other_col other
                                detail_points).
Proof.
  intros ttl focus Hi Hd other_col other g.
  unfold comparison_slides.
  repeat constructor; unfold is_content_titled; cbn [layout title new_slide].
  - apply Hi.
  - apply Hd.
Qed.

End Census.

(** ** The index slide *)

Section IndexRule.

Local Open Scope list_scope.

(** In a finished deck the index slides are those of the index stage. *)
Lemma index_slides_of_run :
  forall (df : DataFrame) (col plot_type : string) (min_slides : Z)
         (user_prompt : string) (focus : Column) (st1 st2 st3 : State),
    deck_run df col plot_type min_slides user_prompt focus st1 st2 st3 ->
    List.length (filter is_index_slide (prs st3))
    = if extra_slides_needed df min_slides then 1%nat else 0%nat.
Proof.
  intros df col plot_type min_slides user_prompt focus st1 st2 st3 Hshape.
  destruct Hshape as [ct gi gx gs gc groups pads t1 t2 t3 HF HP filled padded].
  cbn [prs]. subst filled. unfold is_index_slide.
  rewrite (filter_finished_deck df col plot_type _ focus _ groups _
             _ _ _ _ _ _ _ pads HF HP);
    try (title_differs).
  - destruct (extra_slides_needed df min_slides),
      (summary_requested user_prompt); reflexivity.
  - apply overview_forall; title_differs.
  - apply comparison_slides_not_titled; title_differs.
Qed.

(** C8, as the code has it: in the deck of a run whose charts can all be
    drawn the "Index of Slides" slide is present exactly when
    [min_slides > 2 * num_cols], where [num_cols] counts all the columns
    of the dataset; there is then one such slide. *)
Theorem index_slide_rule :
  forall (w : World) (convert_error : option string) (df : DataFrame)
         (col plot_type : string) (min_slides : Z) (user_prompt : string),
    df_empty df = false ->
    In col (df_columns df) ->
    charts_drawn df col plot_type = true ->
    exists st : State,
      build_deck w df col plot_type min_slides user_prompt empty_state
      = Ok (tt, st)
      /\ generate_eda_report w convert_error (Table df) col plot_type
                             min_slides user_prompt
         = save_and_convert w convert_error (prs st)
      /\ ((exists s, In s (prs st) /\ is_index_slide s = true)
          <-> (min_slides > 2 * Z.of_nat (List.length (df_columns df)))%Z)
      /\ List.length (filter is_index_slide (prs st))
         = if (2 * Z.of_nat (List.length (df_columns df)) <? min_slides)%Z
           then 1%nat else 0%nat.
Proof.
  intros w ce df col plot_type min_slides user_prompt Hne Hcol Hdrawn.
  destruct (getitem_found df col Hcol) as [focus Hfocus].
  destruct (build_deck_runs w df col plot_type min_slides user_prompt
              focus Hfocus Hdrawn)
    as [st1 [st2 [st3 [_ [_ [_ [Hrun Hshape]]]]]]].
  exists st3.
  split; [exact Hrun |].
  split; [now apply generate_eda_report_built |].
  pose proof (index_slides_of_run _ _ _ _ _ _ _ _ _ Hshape) as Hcount.
  unfold extra_slides_needed, num_cols in Hcount.
  split; [| exact Hcount].
  destruct (Z.ltb_spec (2 * Z.of_nat (List.length (df_columns df)))
                       min_slides) as [Hlt | Hge].
  - split; [lia |]. intros _.
    destruct (filter is_index_slide (prs st3)) as [| s rest] eqn:Hf;
      [discriminate |].
    exists s. apply filter_In. rewrite Hf. now left.
  - split; [| lia]. intros [s Hs].
    apply filter_In in Hs.
    destruct (filter is_index_slide (prs st3)); [contradiction |].
    discriminate.
Qed.

Lemma index_slide_rule_witness :
  df_empty Sample.df_ab = false
  /\ In "A" (df_columns Sample.df_ab)
  /\ charts_drawn Sample.df_ab "A" "Scatter" = true
  /\ exists deck : list Slide,
      generate_eda_report Sample.world None (Table Sample.df_ab) "A"
                          "Scatter" 5 Sample.default_text
      = Success deck
      /\ List.length (filter is_index_slide deck) = 1%nat.
Proof.
  split; [reflexivity |].
  split; [simpl; auto |].
  split; [reflexivity |].
  destruct (index_slide_rule Sample.world None Sample.df_ab "A" "Scatter" 5
              Sample.default_text)
    as [st [_ [Hrun [_ Hcount]]]].
  - reflexivity.
  - simpl. auto.
  - reflexivity.
  - exists (prs st). split; [exact Hrun | exact Hcount].
Defined.

(** C8, as the specification words it, fails: with two columns and
    [min_slides = 3] the specification's test [3 > 2 * (2 - 1)] holds,
    and the deck has no index slide. *)
Lemma index_rule_of_spec_fails :
  exists deck : list Slide,
    generate_eda_report Sample.world None (Table Sample.df_ab) "A"
                        "Scatter" 3 Sample.default_text
    = Success deck
    /\ ~ ((exists s, In s deck /\ is_index_slide s = true)
          <-> index_expected_by_spec Sample.df_ab 3).
Proof.
  eexists. split.
  - vm_compute. reflexivity.
  - intros [_ Hback].
    destruct Hback as [s [Hin Hs]].
    + unfold index_expected_by_spec. simpl. lia.
    + repeat (destruct Hin as [<- | Hin];
              [vm_compute in Hs; discriminate |]).
      contradiction.
Qed.

End IndexRule.

(** ** The summary directive *)

Section SummaryDirective.

Local Open Scope list_scope.

Lemma contains_nonempty :
  forall needle hay : string,
    needle <> EmptyString ->
    PyStr.contains needle hay = true -> hay <> EmptyString.
Proof.
  intros needle hay Hn Hc ->.
  destruct needle; [congruence | discriminate].
Qed.

(** The two tests of the directive, lines 115 and 213, agree. *)
Lemma summary_listed_requested :
  forall user_prompt : string,
    summary_listed user_prompt = true ->
    summary_requested user_prompt = true.
Proof.
  intros user_prompt H. unfold summary_requested.
  unfold summary_listed in H.
  apply andb_true_iff in H. destruct H as [Hd Hc].
  rewrite Hd, Hc.
  assert (Hne : PyStr.lower user_prompt <> EmptyString)
    by (apply (contains_nonempty "summary"); [discriminate | exact Hc]).
  destruct user_prompt; [exfalso; apply Hne|]; reflexivity.
Qed.

Lemma filter_map_none :
  forall (A : Type) (p : string -> bool) (f : A -> string) (l : list A),
    (forall x, p (f x) = false) -> filter p (map f l) = [].
Proof.
  intros A p f l Hp. induction l as [| x l IH]; simpl.
  - reflexivity.
  - now rewrite Hp.
Qed.

Lemma summary_titles_planned :
  forall (df : DataFrame) (col : string) (min_slides : Z)
         (user_prompt : string),
    filter is_summary_title (planned_tail df col min_slides user_prompt)
    = if summary_listed user_prompt then ["Summary of Findings"] else [].
Proof.
  intros df col min_slides user_prompt. unfold planned_tail.
  rewrite !filter_app.
  rewrite !filter_map_none by (intros; cbn; reflexivity).
  destruct (extra_slides_needed df min_slides),
    (summary_listed user_prompt); reflexivity.
Qed.

Lemma non_overview_count :
  forall (df : DataFrame) (col plot_type : string) (min_slides : Z)
         (user_prompt : string) (focus : Column) (st1 st2 st3 : State),
    deck_run df col plot_type min_slides user_prompt focus st1 st2 st3 ->
    List.length (filter non_overview (prs st3))
    = (4 + 3 * List.length (other_cols df col)
       + (if extra_slides_needed df min_slides then 1 else 0)
       + (if summary_requested user_prompt then 1 else 0)
       + Z.to_nat (min_slides - current_slides (slide_titles st1)))%nat.
Proof.
  intros df col plot_type min_slides user_prompt focus st1 st2 st3 Hshape.
  destruct Hshape as [ct gi gx gs gc groups pads t1 t2 t3 HF HP filled padded].
  cbn [prs slide_titles]. subst filled.
  fold (padding_rounds df col min_slides user_prompt ct).
  pose proof (Forall2_length HP) as Hpads. rewrite length_seq in Hpads.
  pose proof (length_groups df col plot_type focus _ _ HF) as Hgroups.
  rewrite !filter_app. cbn [filter].
  rewrite filter_app. cbn [filter].
  rewrite !filter_app.
  rewrite (filter_none _ non_overview (overview_slides _))
    by (apply overview_forall; reflexivity).
  rewrite (filter_all _ non_overview (List.concat groups)).
  2:{ apply (groups_forall df col plot_type _ focus _ _) with (2 := HF).
      intros o other g. unfold comparison_slides.
      repeat constructor; unfold non_overview; title_differs. }
  rewrite (filter_all _ non_overview pads).
  2:{ apply (pads_forall _ _ _) with (2 := HP).
      intros i g. unfold non_overview. title_differs. }
  replace (non_overview (title_only ct)) with true by reflexivity.
  replace (non_overview (title_only "Thank You")) with true by reflexivity.
  replace (non_overview (new_slide "Introduction to Analysis" (Some gi) None))
    with true by reflexivity.
  replace (non_overview (new_slide "Conclusion of Analysis" (Some gc) None))
    with true by reflexivity.
  cbn [app List.length].
  rewrite !length_app, Hgroups, <- Hpads.
  destruct (extra_slides_needed df min_slides),
    (summary_requested user_prompt); cbn; lia.
Qed.

Lemma summary_slides_of_run :
  forall (df : DataFrame) (col plot_type : string) (min_slides : Z)
         (user_prompt : string) (focus : Column) (st1 st2 st3 : State),
    deck_run df col plot_type min_slides user_prompt focus st1 st2 st3 ->
    List.length (filter is_summary_slide (prs st3))
    = if summary_requested user_prompt then 1%nat else 0%nat.
Proof.
  intros df col plot_type min_slides user_prompt focus st1 st2 st3 Hshape.
  destruct Hshape as [ct gi gx gs gc groups pads t1 t2 t3 HF HP filled padded].
  cbn [prs]. subst filled. unfold is_summary_slide.
  rewrite (filter_finished_deck df col plot_type _ focus _ groups _
             _ _ _ _ _ _ _ pads HF HP);
    try (title_differs).
  - destruct (extra_slides_needed df min_slides),
      (summary_requested user_prompt); reflexivity.
  - apply overview_forall; title_differs.
  - apply comparison_slides_not_titled; title_differs.
Qed.

End SummaryDirective.

Section SummaryCount.

Local Open Scope list_scope.

(** C9: when the prompt, in lower case, is not the default phrase and
    contains "summary", and every chart of the run can be drawn, so that
    the run reaches lines 213-221, the deck gets one "Summary of
    Findings" slide
    while [slide_titles] gets the title twice - at line 116 and at line
    218 - so [len(slide_titles) + 1], the count of the minimum-slide
    check, is one more than the number of slides of the finished deck
    that are not overview slides, both at the check (the padding rounds
    still to come) and at the end. *)
Theorem summary_counted_twice :
  forall (w : World) (convert_error : option string) (df : DataFrame)
         (col plot_type : string) (min_slides : Z) (user_prompt : string),
    df_empty df = false ->
    In col (df_columns df) ->
    charts_drawn df col plot_type = true ->
    negb (String.eqb (PyStr.lower user_prompt) default_prompt)
    && PyStr.contains "summary" (PyStr.lower user_prompt) = true ->
    exists st1 st3 : State,
      plan_and_fill w df col plot_type min_slides user_prompt empty_state
      = Ok (tt, st1)
      /\ build_deck w df col plot_type min_slides user_prompt empty_state
         = Ok (tt, st3)
      /\ generate_eda_report w convert_error (Table df) col plot_type
                             min_slides user_prompt
         = save_and_convert w convert_error (prs st3)
      /\ List.length (filter is_summary_slide (prs st3)) = 1%nat
      /\ (exists cover_title : string,
             slide_titles st1
             = cover_title
               :: planned_tail df col min_slides user_prompt
               ++ ["Summary of Findings"])
      /\ filter is_summary_title (planned_tail df col min_slides user_prompt)
         = ["Summary of Findings"]
      /\ List.length (filter is_summary_title (tl (slide_titles st1)))
         = 2%nat
      /\ List.length (filter is_summary_title (tl (slide_titles st3)))
         = 2%nat
      /\ (Z.of_nat (List.length (slide_titles st1)) + 1
          + Z.of_nat
              (Z.to_nat
                 (min_slides
                  - (Z.of_nat (List.length (slide_titles st1)) + 1)))
          = Z.of_nat (List.length (filter non_overview (prs st3))) + 1)%Z
      /\ (Z.of_nat (List.length (slide_titles st3)) + 1
          = Z.of_nat (List.length (filter non_overview (prs st3))) + 1)%Z.
Proof.
  intros w ce df col plot_type min_slides user_prompt Hne Hcol Hdrawn Hfires.
  fold (summary_listed user_prompt) in Hfires.
  pose proof (summary_listed_requested user_prompt Hfires) as Hreq.
  destruct (getitem_found df col Hcol) as [focus Hfocus].
  destruct (build_deck_runs w df col plot_type min_slides user_prompt
              focus Hfocus Hdrawn)
    as [st1 [st2 [st3 [Hrun1 [_ [_ [Hrun Hshape]]]]]]].
  exists st1, st3.
  split; [exact Hrun1 |].
  split; [exact Hrun |].
  split; [now apply generate_eda_report_built |].
  pose proof (summary_slides_of_run _ _ _ _ _ _ _ _ _ Hshape) as Hslides.
  pose proof (non_overview_count _ _ _ _ _ _ _ _ _ Hshape) as Hcount.
  rewrite Hreq in Hslides, Hcount.
  split; [exact Hslides |].
  rewrite Hcount. clear Hslides Hcount.
  destruct Hshape as [ct gi gx gs gc groups pads t1 t2 t3 HF HP filled padded].
  cbn [prs slide_titles]. subst padded.
  fold (padding_rounds df col min_slides user_prompt ct).
  pose proof (length_checked_titles df col min_slides user_prompt ct)
    as Hchecked.
  pose proof (length_listed_titles df col min_slides user_prompt) as Hl.
  rewrite Hreq, Hfires in *.
  assert (Htitles :
            filter is_summary_title
                   (tl (checked_titles df col min_slides user_prompt ct))
            = ["Summary of Findings"; "Summary of Findings"]).
  { unfold checked_titles. cbn [tl].
    rewrite filter_app, summary_titles_planned, Hfires, Hreq.
    reflexivity. }
  split.
  { exists ct. unfold checked_titles. now rewrite Hreq. }
  split; [now rewrite summary_titles_planned, Hfires |].
  split; [now rewrite Htitles |].
  split.
  - unfold checked_titles in *. cbn [tl app] in *.
    rewrite filter_app, Htitles.
    rewrite filter_map_none by (intros; cbn; reflexivity).
    reflexivity.
  - unfold current_slides.
    rewrite length_app, length_map, length_seq, Hchecked, Hl.
    unfold padding_rounds, current_slides.
    rewrite Hchecked, Hl.
    destruct (extra_slides_needed df min_slides); split; lia.
Qed.

Lemma summary_counted_twice_witness :
  df_empty Sample.df_ab = false
  /\ In "A" (df_columns Sample.df_ab)
  /\ charts_drawn Sample.df_ab "A" "Scatter" = true
  /\ negb (String.eqb (PyStr.lower "Please add a SUMMARY slide")
                      default_prompt)
     && PyStr.contains "summary" (PyStr.lower "Please add a SUMMARY slide")
     = true
  /\ exists deck : list Slide,
      generate_eda_report Sample.world None (Table Sample.df_ab) "A"
                          "Scatter" 3 "Please add a SUMMARY slide"
      = Success deck
      /\ List.length (filter is_summary_slide deck) = 1%nat.
Proof.
  split; [reflexivity |].
  split; [simpl; auto |].
  split; [reflexivity |].
  split; [reflexivity |].
  destruct (summary_counted_twice Sample.world None Sample.df_ab "A"
              "Scatter" 3 "Please add a SUMMARY slide")
    as [st1 [st3 [_ [_ [Hrun [Hone _]]]]]].
  - reflexivity.
  - simpl. auto.
  - reflexivity.
  - reflexivity.
  - exists (prs st3). split; [exact Hrun | exact Hone].
Defined.

End SummaryCount.

(** ** The overview slides *)

Section Overview.

Local Open Scope list_scope.

Lemma bullets_of_new_slide :
  forall (ttl : string) (points : list string),
    bullets_of (new_slide ttl (Some points) None) = points.
Proof.
  intros ttl [| p ps]; reflexivity.
Qed.

(** Cutting a list into pages of six and reading the pages in order
    gives the list back. *)
Lemma pages_cover :
  forall (A : Type) (pages : nat) (content : list A),
    (List.length content <= 6 * pages)%nat ->
    flat_map (fun k => firstn 6 (skipn (k * 6) content)) (seq 0 pages)
    = content.
Proof.
  intros A pages.
  induction pages as [| pages IH]; intros content Hlen.
  - destruct content; [reflexivity | simpl in Hlen; lia].
  - rewrite <- cons_seq, <- seq_shift. cbn [flat_map].
    rewrite flat_map_concat_map, map_map, <- flat_map_concat_map.
    rewrite (flat_map_ext _ (fun k => firstn 6 (skipn (k * 6)
                                                  (skipn 6 content)))).
    + rewrite IH.
      * apply (firstn_skipn 6 content).
      * rewrite length_skipn. lia.
    + intros k. rewrite skipn_skipn. do 2 f_equal. lia.
Qed.

Lemma overview_slides_entries :
  forall content : list string,
    flat_map bullets_of (overview_slides content) = content.
Proof.
  intros content. unfold overview_slides, range_by.
  rewrite map_map.
  rewrite flat_map_concat_map, map_map, <- flat_map_concat_map.
  rewrite (flat_map_ext _ (fun k => firstn 6 (skipn (k * 6) content))).
  - apply pages_cover.
    pose proof (Nat.div_mod_eq (List.length content + 6 - 1) 6) as Hd.
    pose proof (Nat.mod_upper_bound (List.length content + 6 - 1) 6).
    lia.
  - intros k. apply bullets_of_new_slide.
Qed.

Lemma overview_page :
  forall (content : list string) (j : nat),
    (j < (List.length content + 5) / 6)%nat ->
    nth_error (overview_slides content) j
    = Some (new_slide (if (j =? 0)%nat then "Overview of Upcoming Slides"
                       else "Overview of Upcoming Slides Continued")
                      (Some (firstn 6 (skipn (6 * j) content))) None).
Proof.
  intros content j Hj. unfold overview_slides, range_by.
  rewrite map_map, nth_error_map, nth_error_seq.
  replace (List.length content + 6 - 1)%nat
    with (List.length content + 5)%nat by lia.
  destruct (Nat.ltb_spec j ((List.length content + 5) / 6)) as [_ | H];
    [| lia].
  cbn [option_map Nat.add].
  replace (j * 6)%nat with (6 * j)%nat by lia.
  destruct j as [| j]; [reflexivity |].
  replace (6 * S j =? 0)%nat with false; [reflexivity |].
  symmetry. apply Nat.eqb_neq. lia.
Qed.

Lemma numbered_entry :
  forall (l : list string) (i : nat) (t : string),
    nth_error l i = Some t ->
    nth_error (numbered l) i
    = Some (PyStr.of_nat (i + 1) ++ ". " ++ t)%string.
Proof.
  intros l i t Hnth. unfold numbered, enumerate.
  assert (Hgen :
            forall (n a : nat) (l0 : list string) (i0 : nat),
              (List.length l0 <= n)%nat ->
              nth_error l0 i0 = Some t ->
              nth_error (combine (seq a n) l0) i0 = Some ((a + i0)%nat, t)).
  { induction n as [| n IHn]; intros a l0 i0 Hlen H0.
    - destruct l0; [destruct i0; discriminate | simpl in Hlen; lia].
    - destruct l0 as [| x l0]; [destruct i0; discriminate |].
      destruct i0 as [| i0]; cbn in *.
      + inversion H0. now rewrite Nat.add_0_r.
      + rewrite (IHn (S a) l0 i0) by (auto; lia).
        do 2 f_equal. lia. }
  rewrite nth_error_map, (Hgen _ 0%nat l i (le_n _) Hnth).
  reflexivity.
Qed.

(** In a finished deck the overview slides are those of the overview
    stage. *)
Lemma overview_slides_of_run :
  forall (df : DataFrame) (col plot_type : string) (min_slides : Z)
         (user_prompt : string) (focus : Column) (st1 st2 st3 : State),
    deck_run df col plot_type min_slides user_prompt focus st1 st2 st3 ->
    filter is_overview_slide (prs st3)
    = overview_slides
        (numbered (listed_titles df col min_slides user_prompt)).
Proof.
  intros df col plot_type min_slides user_prompt focus st1 st2 st3 Hshape.
  destruct Hshape as [ct gi gx gs gc groups pads t1 t2 t3 HF HP filled padded].
  cbn [prs]. subst filled.
  rewrite listed_titles_slice.
  rewrite !filter_app. cbn [filter].
  rewrite filter_app. cbn [filter].
  rewrite !filter_app.
  rewrite (filter_all _ is_overview_slide (overview_slides _))
    by (apply overview_forall; reflexivity).
  rewrite (filter_none _ is_overview_slide (List.concat groups)).
  2:{ apply (groups_forall df col plot_type _ focus _ _) with (2 := HF).
      intros o other g. unfold comparison_slides.
      repeat constructor; title_differs. }
  rewrite (filter_none _ is_overview_slide pads).
  2:{ apply (pads_forall _ _ _) with (2 := HP). title_differs. }
  replace (is_overview_slide (title_only ct)) with false by reflexivity.
  replace (is_overview_slide (title_only "Thank You"))
    with false by reflexivity.
  replace (is_overview_slide
             (new_slide "Introduction to Analysis" (Some gi) None))
    with false by reflexivity.
  replace (is_overview_slide
             (new_slide "Conclusion of Analysis" (Some gc) None))
    with false by reflexivity.
  destruct (extra_slides_needed df min_slides),
    (summary_requested user_prompt); cbn [filter app];
    rewrite ?app_nil_r; reflexivity.
Qed.

Lemma listed_titles_not_additional :
  forall (df : DataFrame) (col : string) (min_slides : Z)
         (user_prompt : string),
    Forall (fun t => is_additional_title t = false)
           (listed_titles df col min_slides user_prompt).
Proof.
  intros df col min_slides user_prompt. unfold listed_titles.
  repeat (apply Forall_app; split);
    try (apply Forall_forall; intros t Ht;
         apply in_map_iff in Ht; destruct Ht as [o [<- _]]; reflexivity).
  - destruct (extra_slides_needed df min_slides); repeat constructor.
  - destruct (summary_listed user_prompt); repeat constructor.
Qed.

End Overview.

Section OverviewListing.

Local Open Scope list_scope.

(** C7, as the code has it, for a run that is not cut short by a chart
    that cannot be drawn: the overview slides come directly after the
    cover and directly before the "Introduction to Analysis" slide.  Read
    across the pages they list, numbered [i + 1] by position, a title
    sequence that holds, side by side and in this order, the "Comparison
    Plot" titles of all other columns in column order, then all the
    "Comparison Insights" titles, then all the "Detailed Insights"
    titles, then "Index of Slides" when that slide is planned and
    "Summary of Findings" when the directive is listed.  No listed title
    is an "Additional Analysis" title.  The pages hold six entries each,
    the last one what remains; the first is titled "Overview of Upcoming
    Slides", the others "Overview of Upcoming Slides Continued". *)
Theorem overview_lists_grouped_titles :
  forall (w : World) (convert_error : option string) (df : DataFrame)
         (col plot_type : string) (min_slides : Z) (user_prompt : string),
    df_empty df = false ->
    In col (df_columns df) ->
    charts_drawn df col plot_type = true ->
    exists (st : State) (cover_title : string) (intro_points : list string)
           (rest : list Slide) (listed before after : list string),
      build_deck w df col plot_type min_slides user_prompt empty_state
      = Ok (tt, st)
      /\ generate_eda_report w convert_error (Table df) col plot_type
                             min_slides user_prompt
         = save_and_convert w convert_error (prs st)
      /\ prs st
         = title_only cover_title
           :: overview_slides (numbered listed)
           ++ new_slide "Introduction to Analysis" (Some intro_points) None
           :: rest
      /\ filter is_overview_slide (prs st)
         = overview_slides (numbered listed)
      /\ listed
         = before
           ++ (map (plot_title col) (other_cols df col)
               ++ map (insights_title col) (other_cols df col)
               ++ map (detail_title col) (other_cols df col)
               ++ (if (2 * Z.of_nat (List.length (df_columns df))
                       <? min_slides)%Z
                   then ["Index of Slides"] else [])
               ++ (if summary_listed user_prompt
                   then ["Summary of Findings"] else []))
           ++ after
      /\ Forall (fun t => is_additional_title t = false) listed
      /\ overview_entries (prs st) = numbered listed
      /\ (forall (i : nat) (t : string),
             nth_error listed i = Some t ->
             nth_error (numbered listed) i
             = Some (PyStr.of_nat (i + 1) ++ ". " ++ t)%string)
      /\ List.length (overview_slides (numbered listed))
         = ((List.length listed + 5) / 6)%nat
      /\ (forall j : nat,
             (j < (List.length listed + 5) / 6)%nat ->
             nth_error (overview_slides (numbered listed)) j
             = Some (new_slide
                       (if (j =? 0)%nat then "Overview of Upcoming Slides"
                        else "Overview of Upcoming Slides Continued")
                       (Some (firstn 6 (skipn (6 * j) (numbered listed))))
                       None)).
Proof.
  intros w ce df col plot_type min_slides user_prompt Hne Hcol Hdrawn.
  destruct (getitem_found df col Hcol) as [focus Hfocus].
  destruct (build_deck_runs w df col plot_type min_slides user_prompt
              focus Hfocus Hdrawn)
    as [st1 [st2 [st3 [_ [_ [_ [Hrun Hshape]]]]]]].
  pose proof (overview_slides_of_run _ _ _ _ _ _ _ _ _ Hshape) as Hov.
  assert (Hdeck :
            exists ct gi rest,
              prs st3
              = title_only ct
                :: overview_slides
                     (numbered (listed_titles df col min_slides user_prompt))
                ++ new_slide "Introduction to Analysis" (Some gi) None
                :: rest).
  { destruct Hshape
      as [ct gi gx gs gc groups pads t1 t2 t3 HF HP filled padded].
    cbn [prs]. subst filled. rewrite listed_titles_slice.
    exists ct, gi. eexists.
    cbn [app]. rewrite <- !app_assoc. cbn [app]. reflexivity. }
  destruct Hdeck as [ct [gi [rest Hdeck]]].
  exists st3, ct, gi, rest,
    (listed_titles df col min_slides user_prompt), [], [].
  split; [exact Hrun |].
  split; [now apply generate_eda_report_built |].
  split; [exact Hdeck |].
  split; [exact Hov |].
  split; [rewrite app_nil_r; reflexivity |].
  split; [apply listed_titles_not_additional |].
  split.
  { unfold overview_entries. rewrite Hov. apply overview_slides_entries. }
  split; [apply numbered_entry |].
  split.
  { rewrite length_overview_slides, length_numbered. reflexivity. }
  intros j Hj. apply overview_page. now rewrite length_numbered.
Qed.

Lemma overview_lists_grouped_titles_witness :
  df_empty Sample.df_abc = false
  /\ In "A" (df_columns Sample.df_abc)
  /\ charts_drawn Sample.df_abc "A" "Scatter" = true
  /\ exists deck : list Slide,
      generate_eda_report Sample.world None (Table Sample.df_abc) "A"
                          "Scatter" 12 Sample.default_text
      = Success deck
      /\ exists listed : list string,
          overview_entries deck = numbered listed
          /\ Forall (fun t => is_additional_title t = false) listed.
Proof.
  split; [reflexivity |].
  split; [simpl; auto |].
  split; [reflexivity |].
  destruct (overview_lists_grouped_titles Sample.world None Sample.df_abc
              "A" "Scatter" 12 Sample.default_text)
    as [st [ct [gi [rest [listed [before [after H]]]]]]].
  - reflexivity.
  - simpl. auto.
  - reflexivity.
  - destruct H as [_ [Hrun [_ [_ [_ [Hno [Hentries _]]]]]]].
    exists (prs st). split; [exact Hrun |].
    exists listed. split; [exact Hentries | exact Hno].
Defined.

(** C7, as the specification words it, fails.  With columns A, B and C,
    focus A and [min_slides = 12] the deck has the slides "Introduction
    to Analysis", the comparison slides column by column, "Index of
    Slides", "Additional Analysis 1" and "Conclusion of Analysis" between
    the overview and the closing slide; the overview lists the
    comparison titles kind by kind and then "Index of Slides", and the
    slide after the overview is the introduction. *)
Lemma overview_of_spec_fails :
  exists deck : list Slide,
    generate_eda_report Sample.world None (Table Sample.df_abc) "A"
                        "Scatter" 12 Sample.default_text
    = Success deck
    /\ content_titles deck
       = [ "Introduction to Analysis";
           "Comparison Plot: A vs B"; "Comparison Insights: A vs B";
           "Detailed Insights: A vs B";
           "Comparison Plot: A vs C"; "Comparison Insights: A vs C";
           "Detailed Insights: A vs C";
           "Index of Slides"; "Additional Analysis 1";
           "Conclusion of Analysis" ]
    /\ overview_entries deck
       = [ "1. Comparison Plot: A vs B"; "2. Comparison Plot: A vs C";
           "3. Comparison Insights: A vs B";
           "4. Comparison Insights: A vs C";
           "5. Detailed Insights: A vs B"; "6. Detailed Insights: A vs C";
           "7. Index of Slides" ]
    /\ ~ overview_lists_plan deck
    /\ ~ overview_precedes_comparisons deck.
Proof.
  eexists. split; [vm_compute; reflexivity |].
  split; [vm_compute; reflexivity |].
  split; [vm_compute; reflexivity |].
  split.
  - intros H. vm_compute in H. discriminate.
  - intros [s [Hs Hp]]. vm_compute in Hs.
    inversion Hs; subst s. vm_compute in Hp. discriminate.
Qed.

End OverviewListing.

(** ** The comparison insights *)

Section Insights.

Local Open Scope list_scope.

Lemma group_of_column :
  forall (df : DataFrame) (col plot_type : string) (focus : Column)
         (names : list string) (groups : list (list Slide))
         (other_col : string),
    Forall2 (is_group df col plot_type focus) names groups ->
    In other_col names ->
    exists other detail_points,
      getitem df other_col = Ok other
      /\ incl (comparison_slides df col plot_type focus other_col other
                                 detail_points)
              (List.concat groups).
Proof.
  intros df col plot_type focus names groups other_col HF.
  induction HF as [| o ss names groups Hg _ IH]; intros Hin.
  - contradiction.
  - cbn [List.concat]. destruct Hin as [-> | Hin].
    + destruct Hg as [other [g [Hother ->]]].
      exists other, g. split; [exact Hother |].
      apply incl_appl, incl_refl.
    + destruct (IH Hin) as [other [g [Hother Hincl]]].
      exists other, g. split; [exact Hother |].
      now apply incl_appr.
Qed.

Lemma figures_well_formed :
  forall (df : DataFrame) (col other_col : string) (focus other : Column),
    Forall (fun t =>
              match value t with
              | Fixed2Value x =>
                  is_finite x = true ->
                  Digits.two_decimals (show (value t)) = true
              | IntValue _ => Digits.plain_integer (show (value t)) = true
              | StrValue _ => True
              end)
           (content_templates df col other_col focus other).
Proof.
  intros df col other_col focus other.
  unfold content_templates, correlation.
  destruct (col_numeric focus), (col_numeric other);
    cbn [andb]; repeat constructor; cbn [value show];
    try apply DigitFacts.format_2f_two_decimals;
    try apply DigitFacts.of_nat_plain.
Qed.

(** C5, as the code has it: when every chart of the run can be drawn,
    for every other column the "Comparison Insights" slide of the deck
    carries the six stat bullets as built, whatever the language model
    and the random generator do.  Their
    values come in the order row count; correlation, or the focus
    column's dtype unless both columns are numeric; the other column's
    mean or unique count; its minimum or mode; its maximum or the
    diversity flag, "High" when the unique count is above 5 and "Low"
    otherwise; the focus column's mean or mode.  Every float among them
    (correlation, mean, minimum, maximum) that is finite is printed with
    exactly two decimal places; the row count and the unique count are
    printed as plain integers. *)
Theorem insights_bullets_fixed :
  forall (w : World) (convert_error : option string) (df : DataFrame)
         (col plot_type : string) (min_slides : Z) (user_prompt : string),
    df_empty df = false ->
    In col (df_columns df) ->
    charts_drawn df col plot_type = true ->
    exists (focus : Column) (st : State),
      getitem df col = Ok focus
      /\ build_deck w df col plot_type min_slides user_prompt empty_state
         = Ok (tt, st)
      /\ generate_eda_report w convert_error (Table df) col plot_type
                             min_slides user_prompt
         = save_and_convert w convert_error (prs st)
      /\ forall other_col : string,
          In other_col (other_cols df col) ->
          exists other : Column,
            getitem df other_col = Ok other
            /\ let templates :=
                 content_templates df col other_col focus other in
               let slide :=
                 new_slide (insights_title col other_col)
                           (Some (content_points df col other_col focus
                                                 other)) None in
               In slide (prs st)
               /\ bullets_of slide = map render templates
               /\ List.length (bullets_of slide) = 6%nat
               /\ map value templates
                  = [ IntValue (df_rows df);
                      if col_numeric focus && col_numeric other
                      then Fixed2Value (df_corr df col other_col)
                      else StrValue (col_dtype focus);
                      if col_numeric other
                      then Fixed2Value (col_mean other)
                      else IntValue (col_nunique other);
                      if col_numeric other
                      then Fixed2Value (col_min other)
                      else StrValue (col_mode other);
                      if col_numeric other
                      then Fixed2Value (col_max other)
                      else StrValue (if (5 <? col_nunique other)%nat
                                     then "High" else "Low");
                      if col_numeric focus
                      then Fixed2Value (col_mean focus)
                      else StrValue (col_mode focus) ]
               /\ (col_numeric other = false ->
                   (nth_error (map value templates) 4
                    = Some (StrValue "High")
                    <-> (col_nunique other > 5)%nat))
               /\ Forall
                    (fun t =>
                       match value t with
                       | Fixed2Value x =>
                           is_finite x = true ->
                           Digits.two_decimals (show (value t)) = true
                       | IntValue _ =>
                           Digits.plain_integer (show (value t)) = true
                       | StrValue _ => True
                       end) templates.
Proof.
  intros w ce df col plot_type min_slides user_prompt Hne Hcol Hdrawn.
  destruct (getitem_found df col Hcol) as [focus Hfocus].
  destruct (build_deck_runs w df col plot_type min_slides user_prompt
              focus Hfocus Hdrawn)
    as [st1 [st2 [st3 [_ [_ [_ [Hrun Hshape]]]]]]].
  exists focus, st3.
  split; [exact Hfocus |].
  split; [exact Hrun |].
  split; [now apply generate_eda_report_built |].
  intros other_col Hother_col.
  destruct Hshape as [ct gi gx gs gc groups pads t1 t2 t3 HF HP filled padded].
  destruct (group_of_column _ _ _ _ _ _ other_col HF Hother_col)
    as [other [g [Hother Hincl]]].
  exists other. split; [exact Hother |].
  cbv zeta. cbn [prs].
  split.
  { apply in_or_app. left. apply in_or_app. left. subst filled.
    right. apply in_or_app. right. right.
    apply in_or_app. left. apply Hincl.
    unfold comparison_slides. right. left. reflexivity. }
  split; [apply bullets_of_new_slide |].
  split; [rewrite bullets_of_new_slide; reflexivity |].
  split.
  { unfold content_templates, correlation.
    destruct (col_numeric focus), (col_numeric other); reflexivity. }
  split; [| apply figures_well_formed].
  intros Hcat. unfold content_templates. rewrite Hcat.
  cbn [map nth_error value].
  destruct (Nat.ltb_spec 5 (col_nunique other)) as [Hhigh | Hlow].
  - split; [intros _; lia | reflexivity].
  - split; [discriminate | lia].
Qed.

Lemma insights_bullets_fixed_witness :
  df_empty Sample.df_abc = false
  /\ In "A" (df_columns Sample.df_abc)
  /\ charts_drawn Sample.df_abc "A" "Box" = true
  /\ exists deck : list Slide,
      generate_eda_report Sample.world None (Table Sample.df_abc) "A"
                          "Box" 3 Sample.default_text
      = Success deck
      /\ exists other : Column,
          getitem Sample.df_abc "B" = Ok other
          /\ In (new_slide (insights_title "A" "B")
                   (Some (content_points Sample.df_abc "A" "B"
                                         Sample.col_a other)) None)
                deck.
Proof.
  split; [reflexivity |].
  split; [simpl; auto |].
  split; [reflexivity |].
  destruct (insights_bullets_fixed Sample.world None Sample.df_abc "A"
              "Box" 3 Sample.default_text)
    as [focus [st [Hfocus [_ [Hrun Hall]]]]].
  - reflexivity.
  - simpl. auto.
  - reflexivity.
  - exists (prs st). split; [exact Hrun |].
    destruct (Hall "B") as [other [Hother [Hin _]]].
    + simpl. auto.
    + exists other. split; [exact Hother |].
      assert (Hf : focus = Sample.col_a).
      { vm_compute in Hfocus. now inversion Hfocus. }
      rewrite <- Hf. exact Hin.
Defined.

(** C5, as the specification words it, fails: the row count and the
    unique count are numeric figures of the bullets and are printed
    without decimals, and the statistics of a numeric column without
    values are printed as "nan". *)
Lemma integer_figures_have_no_decimals :
  exists deck : list Slide,
    generate_eda_report Sample.world None (Table Sample.df_abc) "A"
                        "Scatter" 3 Sample.default_text
    = Success deck
    /\ In (new_slide "Comparison Insights: A vs C"
             (Some [ "Rows analyzed: 8. Total entries in CSV.";
                     "A type: float64. Non-numeric data detected.";
                     "C unique: 7. Distinct values counted.";
                     "C top: x. Most frequent in CSV.";
                     "C diversity: High. Variation in data.";
                     "A stat: 1.25. Numeric average from CSV." ]) None)
          deck
    /\ numeric_figures
         (content_templates Sample.df_abc "A" "C" Sample.col_a Sample.col_c)
       = ["8"; "7"; "1.25"]
    /\ ~ Forall (fun figure => Digits.two_decimals figure = true)
                (numeric_figures
                   (content_templates Sample.df_abc "A" "C" Sample.col_a
                                      Sample.col_c))
    /\ numeric_figures
         (content_templates Sample.df_ae "A" "E" Sample.col_a Sample.col_e)
       = ["8"; "nan"; "nan"; "nan"; "nan"; "1.25"]
    /\ Digits.two_decimals "nan" = false.
Proof.
  eexists. split; [vm_compute; reflexivity |].
  split.
  { do 7 right. left. vm_compute. reflexivity. }
  split; [vm_compute; reflexivity |].
  split.
  { intros H. inversion H as [| x l Hx _]; subst.
    vm_compute in Hx. discriminate. }
  split; vm_compute; reflexivity.
Qed.

End Insights.

(** ** The index slide against the overview *)

Section IndexContent.

Local Open Scope list_scope.

(** C6 does not hold of the code: the index content passes through
    [split_into_bullets].  With columns A and B, focus A and
    [min_slides = 5] the overview lists four titles and the index slide
    shows the failure bullets; with columns A, B and C and
    [min_slides = 7] the overview lists seven titles and the index slide
    the first six of them. *)
Theorem index_slide_differs_from_overview :
  (exists deck : list Slide,
      generate_eda_report Sample.world None (Table Sample.df_ab) "A"
                          "Scatter" 5 Sample.default_text
      = Success deck
      /\ overview_entries deck
         = [ "1. Comparison Plot: A vs B"; "2. Comparison Insights: A vs B";
             "3. Detailed Insights: A vs B"; "4. Index of Slides" ]
      /\ index_entries deck = canonical_failure)
  /\ (exists deck : list Slide,
         generate_eda_report Sample.world None (Table Sample.df_abc) "A"
                             "Scatter" 7 Sample.default_text
         = Success deck
         /\ overview_entries deck
            = [ "1. Comparison Plot: A vs B"; "2. Comparison Plot: A vs C";
                "3. Comparison Insights: A vs B";
                "4. Comparison Insights: A vs C";
                "5. Detailed Insights: A vs B";
                "6. Detailed Insights: A vs C"; "7. Index of Slides" ]
         /\ index_entries deck
            = [ "1. Comparison Plot: A vs B"; "2. Comparison Plot: A vs C";
                "3. Comparison Insights: A vs B";
                "4. Comparison Insights: A vs C";
                "5. Detailed Insights: A vs B";
                "6. Detailed Insights: A vs C" ]).
Proof.
  split; eexists; (split; [vm_compute; reflexivity |]);
    split; vm_compute; reflexivity.
Qed.

End IndexContent.

(** * Further properties *)

(** ** Lines, stripping and joining *)

Section Lines.

Local Open Scope list_scope.

Lemma split_not_nil :
  forall (sep : ascii) (s : string), PyStr.split sep s <> [].
Proof.
  intros sep s. destruct s as [| c r]; simpl.
  - discriminate.
  - destruct (Ascii.eqb c sep); [discriminate |].
    destruct (PyStr.split sep r); discriminate.
Qed.

Lemma split_pieces_without_separator :
  forall (sep : ascii) (s : string),
    Forall (fun piece => mentions sep piece = false) (PyStr.split sep s).
Proof.
  intros sep s. induction s as [| c r IH]; simpl.
  - repeat constructor.
  - destruct (Ascii.eqb c sep) eqn:Hc.
    + constructor; [reflexivity | exact IH].
    + destruct (PyStr.split sep r) as [| piece pieces].
      * repeat constructor. simpl. now rewrite Hc.
      * inversion IH as [| ? ? Hpiece Hrest]; subst.
        constructor; [| exact Hrest].
        simpl. now rewrite Hc, Hpiece.
Qed.

Lemma join_cons :
  forall (sep x : string) (l : list string),
    l <> [] ->
    PyStr.join sep (x :: l) = (x ++ sep ++ PyStr.join sep l)%string.
Proof.
  intros sep x l Hl. destruct l; [congruence | reflexivity].
Qed.

Lemma split_app_separator :
  forall (sep : ascii) (x rest : string),
    mentions sep x = false ->
    PyStr.split sep (x ++ String sep rest)%string
    = x :: PyStr.split sep rest.
Proof.
  intros sep x rest. induction x as [| c x IH]; simpl; intros Hx.
  - now rewrite Ascii.eqb_refl.
  - apply orb_false_iff in Hx. destruct Hx as [Hc Hx].
    rewrite Hc, (IH Hx). reflexivity.
Qed.

Lemma split_without_separator :
  forall (sep : ascii) (x : string),
    mentions sep x = false -> PyStr.split sep x = [x].
Proof.
  intros sep x. induction x as [| c x IH]; simpl; intros Hx.
  - reflexivity.
  - apply orb_false_iff in Hx. destruct Hx as [Hc Hx].
    rewrite Hc, (IH Hx). reflexivity.
Qed.

Lemma split_join :
  forall (sep : ascii) (l : list string),
    l <> [] ->
    Forall (fun piece => mentions sep piece = false) l ->
    PyStr.split sep (PyStr.join (String sep "") l) = l.
Proof.
  intros sep l Hl HF.
  induction HF as [| x l Hx HF IH]; [congruence |].
  destruct l as [| y l].
  - simpl. now apply split_without_separator.
  - rewrite join_cons by discriminate.
    change (String sep "" ++ PyStr.join (String sep "") (y :: l))%string
      with (String sep (PyStr.join (String sep "") (y :: l))).
    rewrite (split_app_separator sep x _ Hx).
    f_equal. apply IH. discriminate.
Qed.

(** Splitting a text at a separator and joining the pieces with it gives
    the text back. *)
Lemma join_split_round_trip :
  forall (sep : ascii) (s : string),
    PyStr.join (String sep "") (PyStr.split sep s) = s.
Proof.
  intros sep s. induction s as [| c r IH]; simpl.
  - reflexivity.
  - destruct (Ascii.eqb_spec c sep) as [-> | Hne].
    + rewrite join_cons by apply split_not_nil.
      rewrite IH. reflexivity.
    + pose proof (split_not_nil sep r) as Hnil.
      destruct (PyStr.split sep r) as [| piece pieces]; [congruence |].
      destruct pieces as [| p2 pieces].
      * simpl in *. now rewrite IH.
      * rewrite join_cons in * by discriminate.
        simpl. now rewrite <- IH.
Qed.

(** X1: [split] and [join] undo each other.  Splitting a text at a
    separator and joining the pieces with it gives the text back; joining
    lines with a separator and splitting the text again gives the lines
    back, when there is a line at least and no line holds the
    separator. *)
Theorem split_join_round_trip :
  forall sep : ascii,
    (forall s : string,
        PyStr.join (String sep "") (PyStr.split sep s) = s)
    /\ (forall l : list string,
           l <> [] ->
           Forall (fun piece => mentions sep piece = false) l ->
           PyStr.split sep (PyStr.join (String sep "") l) = l).
Proof.
  intros sep. split.
  - apply join_split_round_trip.
  - intros l Hl HF. now apply split_join.
Qed.

Lemma lstrip_head :
  forall s : string, starts_with_space (PyStr.lstrip s) = false.
Proof.
  induction s as [| c r IH]; simpl.
  - reflexivity.
  - destruct (PyStr.is_space c) eqn:Hc; [exact IH |].
    simpl. exact Hc.
Qed.

Lemma lstrip_fixed :
  forall s : string, starts_with_space s = false -> PyStr.lstrip s = s.
Proof.
  intros [| c r]; simpl; intros H; [reflexivity | now rewrite H].
Qed.

Lemma rstrip_head :
  forall s : string,
    starts_with_space s = false ->
    starts_with_space (PyStr.rstrip s) = false.
Proof.
  intros [| c r]; simpl; intros H; [reflexivity |].
  destruct (PyStr.rstrip r); [rewrite H |]; simpl; auto.
Qed.

Lemma rstrip_cons :
  forall (c : ascii) (r : string),
    PyStr.rstrip (String c r)
    = match PyStr.rstrip r with
      | EmptyString =>
          if PyStr.is_space c then EmptyString else String c EmptyString
      | String a r' => String c (String a r')
      end.
Proof.
  reflexivity.
Qed.

Lemma rstrip_idempotent :
  forall s : string, PyStr.rstrip (PyStr.rstrip s) = PyStr.rstrip s.
Proof.
  induction s as [| c r IH]; [reflexivity |].
  rewrite rstrip_cons.
  destruct (PyStr.rstrip r) as [| c' r'] eqn:Hr.
  - destruct (PyStr.is_space c) eqn:Hc; [reflexivity |].
    rewrite rstrip_cons. simpl. now rewrite Hc.
  - rewrite rstrip_cons, IH. reflexivity.
Qed.

Lemma strip_idempotent :
  forall s : string, PyStr.strip (PyStr.strip s) = PyStr.strip s.
Proof.
  intros s. unfold PyStr.strip.
  rewrite (lstrip_fixed (PyStr.rstrip (PyStr.lstrip s))).
  - apply rstrip_idempotent.
  - apply rstrip_head, lstrip_head.
Qed.

Lemma lstrip_mentions :
  forall (c : ascii) (s : string),
    mentions c s = false -> mentions c (PyStr.lstrip s) = false.
Proof.
  intros c s. induction s as [| a r IH]; simpl; intros H.
  - reflexivity.
  - apply orb_false_iff in H. destruct H as [Ha Hr].
    destruct (PyStr.is_space a); [auto |].
    simpl. now rewrite Ha, Hr.
Qed.

Lemma rstrip_mentions :
  forall (c : ascii) (s : string),
    mentions c s = false -> mentions c (PyStr.rstrip s) = false.
Proof.
  intros c s. induction s as [| a r IH]; simpl; intros H.
  - reflexivity.
  - apply orb_false_iff in H. destruct H as [Ha Hr].
    specialize (IH Hr).
    destruct (PyStr.rstrip r) as [| a' r'].
    + destruct (PyStr.is_space a); simpl; [reflexivity |].
      now rewrite Ha.
    + cbn [mentions] in *. now rewrite Ha, IH.
Qed.

Lemma strip_mentions :
  forall (c : ascii) (s : string),
    mentions c s = false -> mentions c (PyStr.strip s) = false.
Proof.
  intros c s H. unfold PyStr.strip.
  now apply rstrip_mentions, lstrip_mentions.
Qed.

Lemma usable_lines_clean :
  forall text : string, Forall clean_line (usable_lines text).
Proof.
  intros text. unfold usable_lines.
  pose proof (split_pieces_without_separator PyStr.newline text) as HF.
  induction HF as [| piece pieces Hpiece _ IH]; simpl.
  - constructor.
  - destruct (PyStr.strip piece) eqn:Hs; simpl; [exact IH |].
    constructor; [| exact IH].
    rewrite <- Hs. repeat split.
    + rewrite Hs. discriminate.
    + now apply strip_mentions.
    + apply strip_idempotent.
Qed.

Lemma clean_lines_kept :
  forall l : list string,
    Forall clean_line l ->
    filter PyStr.truthy (map PyStr.strip l) = l.
Proof.
  intros l HF.
  induction HF as [| y l [Hne [_ Hstrip]] _ IH]; simpl.
  - reflexivity.
  - rewrite Hstrip. destruct y; [congruence |].
    simpl. now rewrite IH.
Qed.

Lemma usable_lines_of_clean :
  forall l : list string,
    Forall clean_line l ->
    usable_lines (PyStr.join (String PyStr.newline "") l) = l.
Proof.
  intros l HF. unfold usable_lines.
  destruct l as [| x l]; [reflexivity |].
  rewrite split_join.
  - now apply clean_lines_kept.
  - discriminate.
  - apply Forall_impl with (2 := HF). intros y Hy. apply Hy.
Qed.

(** X2: the usable lines of a text are not empty, hold no line break and
    have no white space at either end; joining them with line breaks and
    taking the usable lines again changes nothing. *)
Theorem usable_lines_stable :
  forall text : string,
    Forall clean_line (usable_lines text)
    /\ usable_lines
         (PyStr.join (String PyStr.newline "") (usable_lines text))
       = usable_lines text.
Proof.
  intros text. split.
  - apply usable_lines_clean.
  - apply usable_lines_of_clean, usable_lines_clean.
Qed.

Lemma lstrip_all_space :
  forall s : string, all_space s = true -> PyStr.lstrip s = EmptyString.
Proof.
  induction s as [| c r IH]; simpl; intros H.
  - reflexivity.
  - apply andb_true_iff in H. destruct H as [Hc Hr].
    rewrite Hc. auto.
Qed.

Lemma split_all_space :
  forall (sep : ascii) (s : string),
    all_space s = true ->
    Forall (fun piece => all_space piece = true) (PyStr.split sep s).
Proof.
  intros sep s. induction s as [| c r IH]; simpl; intros H.
  - repeat constructor.
  - apply andb_true_iff in H. destruct H as [Hc Hr].
    specialize (IH Hr).
    destruct (Ascii.eqb c sep).
    + constructor; [reflexivity | exact IH].
    + destruct (PyStr.split sep r) as [| piece pieces].
      * repeat constructor. simpl. now rewrite Hc.
      * inversion IH as [| ? ? Hpiece Hrest]; subst.
        constructor; [| exact Hrest].
        simpl. now rewrite Hc, Hpiece.
Qed.

Lemma usable_lines_all_space :
  forall text : string, all_space text = true -> usable_lines text = [].
Proof.
  intros text H. unfold usable_lines.
  pose proof (split_all_space PyStr.newline text H) as HF.
  induction HF as [| piece pieces Hpiece _ IH]; simpl.
  - reflexivity.
  - unfold PyStr.strip. rewrite (lstrip_all_space piece Hpiece).
    simpl. exact IH.
Qed.

End Lines.

(** ** The sanitizer on every text *)

Section SanitizerFacts.

Local Open Scope list_scope.

Lemma canonical_failure_clean : Forall clean_line canonical_failure.
Proof.
  repeat constructor; try discriminate.
Qed.

Lemma firstn_forall :
  forall (A : Type) (P : A -> Prop) (n : nat) (l : list A),
    Forall P l -> Forall P (firstn n l).
Proof.
  intros A P n l HF. revert n.
  induction HF as [| x l Hx _ IH]; intros [| n]; simpl; constructor; auto.
Qed.

(** X3: with the default bounds [split_into_bullets] never raises and
    returns five or six bullets for every text: the failure list, or the
    first usable lines of the text.  Every bullet is non-empty, holds no
    line break and has no white space at either end; at most one random
    draw is made and the language model is not called. *)
Theorem split_into_bullets_five_or_six :
  forall (w : World) (text : string) (t : Tape),
    exists (bullets : list string) (t' : Tape),
      split_into_bullets w text 5 6 t = Ok (bullets, t')
      /\ (List.length bullets = 5%nat \/ List.length bullets = 6%nat)
      /\ (bullets = canonical_failure
          \/ exists n : nat, bullets = firstn n (usable_lines text))
      /\ Forall clean_line bullets
      /\ llm_calls t' = llm_calls t
      /\ (draws t <= draws t' <= S (draws t))%nat.
Proof.
  intros w text t.
  destruct (Z_lt_le_dec (Z.of_nat (List.length (usable_lines text))) 5)
    as [Hfew | Hmany].
  - exists canonical_failure, t.
    split; [now apply split_into_bullets_few |].
    split; [left; reflexivity |].
    split; [left; reflexivity |].
    split; [apply canonical_failure_clean |].
    split; [reflexivity | lia].
  - rewrite (split_into_bullets_default w text t Hmany).
    set (r := (random_raw w (draws t)
               mod (Z.min 6 (Z.of_nat (List.length (usable_lines text)))
                    - 5 + 1))%Z).
    assert (Hr : (0 <= r
                  < Z.min 6 (Z.of_nat (List.length (usable_lines text)))
                    - 5 + 1)%Z)
      by (apply Z.mod_pos_bound; lia).
    eexists. eexists. split; [reflexivity |].
    unfold PyStr.take.
    destruct (Z.ltb_spec (5 + r) 0) as [H | _]; [lia |].
    split.
    { rewrite firstn_length_le by lia. lia. }
    split; [right; eexists; reflexivity |].
    split; [apply firstn_forall, usable_lines_clean |].
    simpl. split; [reflexivity | lia].
Qed.

(** X4: [split_into_bullets] raises exactly when the text has a usable
    line, has [min_points] usable lines or more, and [max_points] is below
    [min_points]; the exception is then a [ValueError], the class that
    [random.randint] raises on an empty range (the message, which names
    the range and differs between versions of the library, is not part of
    the model). *)
Theorem split_into_bullets_raises_iff :
  forall (w : World) (text : string) (min_points max_points : Z) (t : Tape)
         (e : PyError),
    split_into_bullets w text min_points max_points t = Raise e
    <-> (usable_lines text <> []
         /\ (min_points <= Z.of_nat (List.length (usable_lines text)))%Z
         /\ (max_points < min_points)%Z
         /\ e = ValueError).
Proof.
  intros w text min_points max_points t e.
  unfold split_into_bullets, randint.
  destruct (usable_lines text) as [| l ls] eqn:Hl.
  - cbn [orb]. split; [discriminate |].
    intros [Hne _]. congruence.
  - cbn [orb].
    destruct (Z.ltb_spec (Z.of_nat (List.length (l :: ls))) min_points)
      as [Hfew | Hmany].
    + split; [discriminate | intros [_ [H _]]; lia].
    + destruct (Z.ltb_spec 0
                  (Z.min max_points (Z.of_nat (List.length (l :: ls)))
                   - min_points + 1)) as [Hwide | Hnarrow].
      * split; [discriminate | intros [_ [_ [H _]]]; lia].
      * split.
        -- intros H. inversion H; subst.
           repeat split; try discriminate; lia.
        -- intros [_ [_ [_ ->]]]. reflexivity.
Qed.

(** X5: a text of white space only - spaces, tabs, line breaks, or nothing
    at all - has no usable line, and [split_into_bullets] answers with the
    failure list for every pair of bounds, also for [min_points <= 0],
    without a random draw. *)
Theorem split_into_bullets_blank_text :
  forall (w : World) (text : string) (min_points max_points : Z) (t : Tape),
    all_space text = true ->
    usable_lines text = []
    /\ split_into_bullets w text min_points max_points t
       = Ok (canonical_failure, t).
Proof.
  intros w text min_points max_points t Hblank.
  pose proof (usable_lines_all_space text Hblank) as Hnone.
  split; [exact Hnone |].
  unfold split_into_bullets. rewrite Hnone. reflexivity.
Qed.

Lemma split_into_bullets_blank_text_witness :
  all_space (PyStr.join Sample.nl ["   "; ""; " "]) = true
  /\ split_into_bullets Sample.world (PyStr.join Sample.nl ["   "; ""; " "])
       0 6 fresh_tape
     = Ok (canonical_failure, fresh_tape).
Proof.
  split; [reflexivity |].
  apply (split_into_bullets_blank_text Sample.world
           (PyStr.join Sample.nl ["   "; ""; " "]) 0 6 fresh_tape).
  reflexivity.
Defined.

Lemma usable_lines_fallback : usable_lines llama_fallback = fallback_lines.
Proof.
  vm_compute. reflexivity.
Qed.

(** X6: when the call to the language model raises, [generate_with_llama]
    returns its fixed five-line text, and the bullets made of it are these
    five lines - not the failure list of [split_into_bullets].  One model
    call and one random draw are counted; the presentation and the tracked
    titles are untouched. *)
Theorem bullets_when_model_fails :
  forall (w : World) (st : State),
    ollama_generate w (llm_calls (tape st)) = None ->
    bullets_from_llama w st
    = Ok (fallback_lines,
          {| prs := prs st; slide_titles := slide_titles st;
             tape := {| llm_calls := S (llm_calls (tape st));
                        draws := S (draws (tape st)) |} |})
    /\ fallback_lines <> canonical_failure.
Proof.
  intros w st Hfail. split; [| discriminate].
  unfold bullets_from_llama, bind, generate_with_llama, on_tape.
  rewrite Hfail. cbn [tape llm_calls draws prs slide_titles].
  rewrite split_into_bullets_default
    by (rewrite usable_lines_fallback; simpl; lia).
  rewrite usable_lines_fallback.
  cbn [llm_calls draws List.length fallback_lines].
  change (Z.min 6 (Z.of_nat 5) - 5 + 1)%Z with 1%Z.
  rewrite Z.mod_1_r. reflexivity.
Qed.

Lemma bullets_when_model_fails_witness :
  ollama_generate
    {| ollama_generate := fun _ => None; random_raw := fun _ => 7%Z;
       save_error := None |}
    (llm_calls (tape empty_state)) = None
  /\ exists st' : State,
      bullets_from_llama
        {| ollama_generate := fun _ => None; random_raw := fun _ => 7%Z;
           save_error := None |}
        empty_state
      = Ok (fallback_lines, st').
Proof.
  split; [reflexivity |].
  eexists.
  apply (bullets_when_model_fails
           {| ollama_generate := fun _ => None; random_raw := fun _ => 7%Z;
              save_error := None |}
           empty_state).
  reflexivity.
Defined.

End SanitizerFacts.

(** ** The chart, the directive and the other columns *)

Section SmallDecisions.

Local Open Scope list_scope.

(** X7: the chart file stays an empty figure exactly when both columns are
    numeric and the plot type is none of "Scatter", "Hexbin", "Box" and
    "Bar" (the comparison is by exact string, so "scatter" is none of
    them); in every other case a plotting call is made. *)
Theorem empty_figure_iff :
  forall (is_numeric_col is_numeric_other : bool) (plot_type : string),
    snd (choose_plot is_numeric_col is_numeric_other plot_type) = EmptyFigure
    <-> (is_numeric_col = true /\ is_numeric_other = true
         /\ ~ In plot_type plot_options).
Proof.
  intros fn on plot_type. unfold choose_plot, plot_options.
  destruct fn, on; cbn [andb snd];
    try (split; [discriminate | intros [H1 [H2 _]]; discriminate]).
  destruct (String.eqb_spec plot_type "Scatter") as [-> | H1].
  { split; [discriminate | intros [_ [_ H]]; exfalso; apply H; simpl; auto]. }
  destruct (String.eqb_spec plot_type "Hexbin") as [-> | H2].
  { split; [discriminate | intros [_ [_ H]]; exfalso; apply H; simpl; auto]. }
  destruct (String.eqb_spec plot_type "Box") as [-> | H3].
  { split; [discriminate | intros [_ [_ H]]; exfalso; apply H; simpl; auto]. }
  destruct (String.eqb_spec plot_type "Bar") as [-> | H4].
  { split; [discriminate | intros [_ [_ H]]; exfalso; apply H; simpl; auto]. }
  split; [| reflexivity].
  intros _. repeat split.
  simpl. intros [H | [H | [H | [H | []]]]]; congruence.
Qed.

Lemma summary_tests_equal :
  forall user_prompt : string,
    summary_listed user_prompt
    = PyStr.contains "summary" (PyStr.lower user_prompt)
    /\ summary_requested user_prompt = summary_listed user_prompt.
Proof.
  intros user_prompt. split.
  - unfold summary_listed.
    destruct (String.eqb_spec (PyStr.lower user_prompt) default_prompt)
      as [Heq | Hne]; [| reflexivity].
    rewrite Heq. vm_compute. reflexivity.
  - destruct (summary_listed user_prompt) eqn:Hl.
    + now apply summary_listed_requested.
    + destruct (summary_requested user_prompt) eqn:Hr; [| reflexivity].
      apply summary_requested_listed in Hr. congruence.
Qed.

(** X8: the test of line 115 and the test of line 213 always agree, and
    both say no more than that the prompt in lower case contains
    "summary": the default phrase does not contain that word, and a prompt
    that contains it is not empty.  So the title is listed in the overview
    exactly when the slide is added. *)
Theorem summary_tests_agree :
  forall user_prompt : string,
    summary_listed user_prompt
    = PyStr.contains "summary" (PyStr.lower user_prompt)
    /\ summary_requested user_prompt
       = PyStr.contains "summary" (PyStr.lower user_prompt)
    /\ summary_listed default_prompt = false.
Proof.
  intros user_prompt.
  destruct (summary_tests_equal user_prompt) as [Hl Hr].
  split; [exact Hl |].
  split; [congruence | reflexivity].
Qed.

Lemma filter_keeps_others :
  forall (col : string) (names : list string),
    ~ In col names ->
    filter (fun c => negb (String.eqb c col)) names = names.
Proof.
  intros col names Hnot.
  induction names as [| d names IH]; [reflexivity |].
  cbn [filter].
  destruct (String.eqb_spec d col) as [-> | Hd].
  - exfalso. apply Hnot. now left.
  - cbn [negb]. f_equal. apply IH. intros H. apply Hnot. now right.
Qed.

(** X9: when the focus name stands once among the columns, as it does
    when [read_csv] has made the names distinct, the other columns are
    the columns before it followed by the columns after it, in their
    order: one column less, and the focus column is never compared with
    itself. *)
Theorem other_cols_without_focus :
  forall (df : DataFrame) (col : string) (before after : list string),
    df_columns df = before ++ col :: after ->
    ~ In col before ->
    ~ In col after ->
    other_cols df col = before ++ after
    /\ S (List.length (other_cols df col)) = List.length (df_columns df)
    /\ ~ In col (other_cols df col).
Proof.
  intros df col before after Hcols Hb Ha.
  assert (Hother : other_cols df col = before ++ after).
  { unfold other_cols. rewrite Hcols, filter_app. cbn [filter].
    rewrite String.eqb_refl. cbn [negb].
    now rewrite !filter_keeps_others. }
  split; [exact Hother |].
  rewrite Hother, Hcols. split.
  - rewrite !length_app. cbn [List.length]. lia.
  - intros H. apply in_app_or in H. tauto.
Qed.

Lemma other_cols_without_focus_witness :
  df_columns Sample.df_abc = ["A"] ++ "B" :: ["C"]
  /\ ~ In "B" ["A"]
  /\ ~ In "B" ["C"]
  /\ other_cols Sample.df_abc "B" = ["A"; "C"].
Proof.
  assert (Hb : ~ In "B" ["A"])
    by (simpl; intros [H | []]; discriminate).
  assert (Ha : ~ In "B" ["C"])
    by (simpl; intros [H | []]; discriminate).
  split; [reflexivity |].
  split; [exact Hb |].
  split; [exact Ha |].
  apply (other_cols_without_focus Sample.df_abc "B" ["A"] ["C"] eq_refl
           Hb Ha).
Defined.

End SmallDecisions.

(** ** How a run ends *)

Section Outcomes.

Local Open Scope list_scope.

Variable w : World.
Variable convert_error : option string.

Lemma build_deck_missing_focus :
  forall (df : DataFrame) (col plot_type : string) (min_slides : Z)
         (user_prompt : string),
    df_empty df = false ->
    ~ In col (df_columns df) ->
    build_deck w df col plot_type min_slides user_prompt empty_state
    = Raise (KeyError col).
Proof.
  intros df col plot_type min_slides user_prompt Hne Hnot.
  assert (Hsome : exists o rest, other_cols df col = o :: rest).
  { rewrite (other_cols_all df col Hnot).
    unfold df_empty in Hne. unfold df_columns.
    destruct (df_data df) as [| c cs].
    - simpl in Hne. rewrite orb_true_r in Hne. discriminate.
    - simpl. eauto. }
  destruct Hsome as [o [rest Ho]].
  unfold build_deck, plan_and_fill.
  destruct (adds_seq _ _ _ _ (cover_adds w)
              (adds_seq _ _ _ _
                 (collect_titles_adds df col min_slides user_prompt)
                 (adds_seq _ _ _ _ overview_adds (introduction_adds w)))
              empty_state) as [ss [ts [t' [Hfirst _]]]].
  unfold bind in *.
  destruct (cover w empty_state) as [[[] sa] | e]; [| discriminate].
  destruct (collect_titles df col min_slides user_prompt sa)
    as [[[] sb] | e]; [| discriminate].
  destruct (overview sb) as [[[] sc] | e]; [| discriminate].
  destruct (introduction w sc) as [[[] sd] | e]; [| discriminate].
  rewrite Ho. cbn [for_each]. unfold bind, comparison, bind, raise_from.
  rewrite (getitem_missing df col Hnot). reflexivity.
Qed.

(** The stages before the comparison loop never raise. *)
Lemma stages_before_loop :
  forall (df : DataFrame) (col : string) (min_slides : Z)
         (user_prompt : string),
    exists st : State,
      (cover w ;;;
       collect_titles df col min_slides user_prompt ;;;
       overview ;;;
       introduction w) empty_state
      = Ok (tt, st).
Proof.
  intros df col min_slides user_prompt.
  destruct (adds_seq _ _ _ _ (cover_adds w)
              (adds_seq _ _ _ _
                 (collect_titles_adds df col min_slides user_prompt)
                 (adds_seq _ _ _ _ overview_adds (introduction_adds w)))
              empty_state) as [ss [ts [t' [Hfirst _]]]].
  eexists. exact Hfirst.
Qed.

(** A round whose chart cannot be drawn raises what the plotting call
    raises. *)
Lemma comparison_raises :
  forall (df : DataFrame) (col plot_type other_col : string) (e : PyError)
         (st : State),
    In col (df_columns df) ->
    chart_failure df col plot_type other_col = Some e ->
    comparison w df col plot_type other_col st = Raise e.
Proof.
  intros df col plot_type other_col e st Hcol Hfail.
  destruct (getitem_found df col Hcol) as [focus Hfocus].
  unfold chart_failure in Hfail. rewrite Hfocus in Hfail.
  destruct (getitem df other_col) as [other |] eqn:Hother;
    [| discriminate].
  unfold comparison, draw_chart.
  unfold bind at 1. unfold raise_from at 1. rewrite Hfocus.
  unfold bind at 1. unfold raise_from at 1. rewrite Hother.
  cbv zeta. unfold bind at 1. unfold raise_from at 1. rewrite Hfail.
  reflexivity.
Qed.

(** The loop stops at the first chart that cannot be drawn. *)
Lemma comparisons_raise :
  forall (df : DataFrame) (col plot_type : string)
         (before after : list string) (other_col : string) (e : PyError)
         (st : State),
    In col (df_columns df) ->
    (forall o, In o before ->
               In o (df_columns df)
               /\ chart_failure df col plot_type o = None) ->
    chart_failure df col plot_type other_col = Some e ->
    for_each (before ++ other_col :: after) (comparison w df col plot_type)
             st
    = Raise e.
Proof.
  intros df col plot_type before after other_col e st Hcol.
  destruct (getitem_found df col Hcol) as [focus Hfocus].
  revert st.
  induction before as [| o before IH]; intros st Hbefore Hfail.
  - cbn [app for_each]. unfold bind.
    now rewrite (comparison_raises df col plot_type other_col e st Hcol
                   Hfail).
  - cbn [app for_each]. unfold bind.
    destruct (Hbefore o (or_introl eq_refl)) as [Hin Hdrawn].
    destruct (comparison_adds w df col plot_type focus o Hfocus Hin Hdrawn
                st) as [ss [ts [t' [Hrun _]]]].
    rewrite Hrun. apply IH; [| exact Hfail].
    intros o' Ho'. apply Hbefore. now right.
Qed.

(** The first chart that cannot be drawn, when there is one. *)
Lemma first_failure :
  forall (df : DataFrame) (col plot_type : string) (names : list string),
    forallb (fun o => match chart_failure df col plot_type o with
                      | None => true
                      | Some _ => false
                      end) names = false ->
    exists (before after : list string) (other_col : string) (e : PyError),
      names = before ++ other_col :: after
      /\ (forall o, In o before -> chart_failure df col plot_type o = None)
      /\ chart_failure df col plot_type other_col = Some e.
Proof.
  intros df col plot_type names.
  induction names as [| o names IH]; cbn [forallb]; intros H;
    [discriminate |].
  destruct (chart_failure df col plot_type o) as [e |] eqn:Ho.
  - exists [], names, o, e. split; [reflexivity |].
    split; [intros o' [] | exact Ho].
  - cbn [andb] in H.
    destruct (IH H) as [before [after [x [e [-> [Hbefore Hx]]]]]].
    exists (o :: before), after, x, e. split; [reflexivity |].
    split; [| exact Hx].
    intros o' [<- | Ho']; [exact Ho | now apply Hbefore].
Qed.

Lemma build_deck_chart_failure :
  forall (df : DataFrame) (col plot_type : string) (min_slides : Z)
         (user_prompt : string) (before after : list string)
         (other_col : string) (e : PyError),
    In col (df_columns df) ->
    other_cols df col = before ++ other_col :: after ->
    (forall o, In o before -> chart_failure df col plot_type o = None) ->
    chart_failure df col plot_type other_col = Some e ->
    build_deck w df col plot_type min_slides user_prompt empty_state
    = Raise e.
Proof.
  intros df col plot_type min_slides user_prompt before after other_col e
         Hcol Hsplit Hbefore Hfail.
  destruct (stages_before_loop df col min_slides user_prompt)
    as [st Hfirst].
  unfold build_deck, plan_and_fill.
  unfold bind in *.
  destruct (cover w empty_state) as [[[] sa] | e0]; [| discriminate].
  destruct (collect_titles df col min_slides user_prompt sa)
    as [[[] sb] | e0]; [| discriminate].
  destruct (overview sb) as [[[] sc] | e0]; [| discriminate].
  destruct (introduction w sc) as [[[] sd] | e0]; [| discriminate].
  rewrite Hsplit.
  rewrite (comparisons_raise df col plot_type before after other_col e sd
             Hcol); [reflexivity | | exact Hfail].
  intros o Ho. split; [| now apply Hbefore].
  apply (other_cols_in df col). rewrite Hsplit.
  apply in_or_app. now left.
Qed.

(** X10: the complete table of results of [generate_eda_report].  An
    unreadable file and an empty dataset give the two fixed failures.
    For a non-empty dataset and a focus name outside its columns the
    [KeyError] of [df[col]] leaves the function.  With the focus among
    the columns, the exception of the first chart that cannot be drawn
    leaves the function; when every chart can be drawn the deck is built
    and is not empty, and the result is the exception of [prs.save] when
    it raises, else the converted deck or the conversion failure. *)
Theorem generate_eda_report_outcomes :
  forall (csv_file : CsvFile) (col plot_type : string) (min_slides : Z)
         (user_prompt : string),
    let result :=
      generate_eda_report w convert_error csv_file col plot_type min_slides
                          user_prompt in
    match csv_file with
    | Unreadable err => result = Failure ("Error reading CSV: " ++ err)
    | Table df =>
        if df_empty df then result = Failure "CSV file is empty."
        else
          (~ In col (df_columns df) -> result = Uncaught (KeyError col))
          /\ (In col (df_columns df) ->
              if charts_drawn df col plot_type then
                exists st : State,
                  build_deck w df col plot_type min_slides user_prompt
                             empty_state
                  = Ok (tt, st)
                  /\ prs st <> []
                  /\ result
                     = match save_error w, convert_error with
                       | Some e, _ => Uncaught e
                       | None, None => Success (prs st)
                       | None, Some err =>
                           Failure ("Error converting to ODP: " ++ err)
                       end
              else
                exists (before after : list string) (other_col : string)
                       (e : PyError),
                  other_cols df col = before ++ other_col :: after
                  /\ (forall o, In o before ->
                                chart_failure df col plot_type o = None)
                  /\ chart_failure df col plot_type other_col = Some e
                  /\ result = Uncaught e)
    end.
Proof.
  intros csv_file col plot_type min_slides user_prompt result.
  destruct csv_file as [err | df]; [reflexivity |].
  destruct (df_empty df) eqn:Hne.
  - subst result. unfold generate_eda_report. now rewrite Hne.
  - split.
    + intros Hnot. subst result. unfold generate_eda_report.
      rewrite Hne.
      now rewrite (build_deck_missing_focus df col plot_type min_slides
                     user_prompt Hne Hnot).
    + intros Hcol.
      destruct (charts_drawn df col plot_type) eqn:Hdrawn.
      * destruct (getitem_found df col Hcol) as [focus Hfocus].
        destruct (build_deck_runs w df col plot_type min_slides user_prompt
                    focus Hfocus Hdrawn)
          as [st1 [st2 [st3 [_ [_ [_ [Hrun Hshape]]]]]]].
        exists st3. split; [exact Hrun |].
        split; [destruct Hshape; cbn [prs]; discriminate |].
        subst result.
        rewrite (generate_eda_report_built w convert_error df col plot_type
                   min_slides user_prompt st3 Hne Hrun).
        unfold save_and_convert.
        destruct (save_error w), convert_error; reflexivity.
      * destruct (first_failure df col plot_type _ Hdrawn)
          as [before [after [other_col [e [Hsplit [Hbefore Hfail]]]]]].
        exists before, after, other_col, e.
        split; [exact Hsplit |].
        split; [exact Hbefore |].
        split; [exact Hfail |].
        subst result. unfold generate_eda_report. rewrite Hne.
        now rewrite (build_deck_chart_failure df col plot_type min_slides
                       user_prompt before after other_col e Hcol Hsplit
                       Hbefore Hfail).
Qed.

End Outcomes.

(** The focus column E has no value and a box plot is asked for: the
    chart of the first other column cannot be drawn, and what [pd.cut]
    raises is the result of the run. *)
Lemma generate_eda_report_outcomes_witness :
  In "E" (df_columns Sample.df_ae)
  /\ charts_drawn Sample.df_ae "E" "Box" = false
  /\ exists e : PyError,
      chart_failure Sample.df_ae "E" "Box" "A" = Some e
      /\ generate_eda_report Sample.world None (Table Sample.df_ae) "E"
                             "Box" 5 Sample.default_text
         = Uncaught e.
Proof.
  assert (Hin : In "E" (df_columns Sample.df_ae)) by (simpl; auto).
  split; [exact Hin |].
  split; [reflexivity |].
  destruct (generate_eda_report_outcomes Sample.world None
              (Table Sample.df_ae) "E" "Box" 5 Sample.default_text)
    as [_ Hrows].
  destruct (Hrows Hin)
    as [before [after [other_col [e [Hsplit [_ [Hfail Hresult]]]]]]].
  exists e. split; [| exact Hresult].
  change (other_cols Sample.df_ae "E") with ["A"] in Hsplit.
  destruct before as [| b before].
  - injection Hsplit as <- _. exact Hfail.
  - destruct before; discriminate.
Defined.

(** ** The plan of a finished deck *)

Section DeckPlan.

Local Open Scope list_scope.

Variable w : World.
Variable df : DataFrame.
Variables col plot_type : string.
Variable min_slides : Z.
Variable user_prompt : string.

(** The first slide of a finished deck is the cover made from the first
    reply of the model. *)
Lemma build_deck_cover :
  forall (focus : Column) (st : State),
    getitem df col = Ok focus ->
    charts_drawn df col plot_type = true ->
    build_deck w df col plot_type min_slides user_prompt empty_state
    = Ok (tt, st) ->
    exists rest : list Slide,
      prs st = title_only (cover_title_of w) :: rest.
Proof.
  intros focus st Hfocus Hdrawn Hrun.
  unfold build_deck, plan_and_fill in Hrun.
  pose proof
       (adds_seq _ _ _ _
          (adds_seq _ _ _ _
             (collect_titles_adds df col min_slides user_prompt)
             (adds_seq _ _ _ _ overview_adds
                (adds_seq _ _ _ _ (introduction_adds w)
                   (adds_seq _ _ _ _
                      (comparisons_add w df col plot_type focus Hfocus
                                       Hdrawn)
                      (adds_seq _ _ _ _ (index_adds w df min_slides)
                         (summary_adds w user_prompt))))))
          (adds_seq _ _ _ _ (padding_adds w min_slides) (closing_adds w)))
    as Hrest.
  set (after_cover :=
         {| prs := [title_only (cover_title_of w)];
            slide_titles := [cover_title_of w];
            tape := {| llm_calls := 1; draws := 0 |} |}).
  assert (Hcover : cover w empty_state = Ok (tt, after_cover))
    by reflexivity.
  destruct (Hrest after_cover) as [ss [ts [t' [Hgo _]]]].
  unfold bind in Hrun, Hgo. rewrite Hcover in Hrun.
  destruct (collect_titles df col min_slides user_prompt after_cover)
    as [[[] sb] | e]; [| discriminate].
  destruct (overview sb) as [[[] sc] | e]; [| discriminate].
  destruct (introduction w sc) as [[[] sd] | e]; [| discriminate].
  destruct (for_each (other_cols df col) (comparison w df col plot_type) sd)
    as [[[] se] | e]; [| discriminate].
  destruct (index w df min_slides se) as [[[] sf] | e]; [| discriminate].
  destruct (summary w user_prompt sf) as [[[] sg] | e]; [| discriminate].
  destruct (padding w min_slides sg) as [[[] sh] | e]; [| discriminate].
  rewrite Hgo in Hrun. inversion Hrun; subst st.
  exists ss. reflexivity.
Qed.

Lemma overview_slide_titles :
  forall content : list string,
    map title (overview_slides content)
    = overview_page_titles (List.length content).
Proof.
  intros content. unfold overview_slides, overview_page_titles.
  rewrite map_map. apply map_ext. intros i. reflexivity.
Qed.

Lemma group_titles :
  forall (focus : Column) (names : list string) (groups : list (list Slide)),
    Forall2 (is_group df col plot_type focus) names groups ->
    map title (List.concat groups) = flat_map (comparison_titles col) names.
Proof.
  intros focus names groups HF.
  induction HF as [| o ss names groups [other [g [_ ->]]] _ IH].
  - reflexivity.
  - cbn [List.concat flat_map]. rewrite map_app, IH. reflexivity.
Qed.

Lemma padding_rounds_value :
  forall cover_title : string,
    padding_rounds df col min_slides user_prompt cover_title
    = Z.to_nat
        (min_slides
         - (Z.of_nat (List.length
                        (listed_titles df col min_slides user_prompt))
            + (if summary_listed user_prompt then 1 else 0) + 4)).
Proof.
  intros ct. unfold padding_rounds, current_slides.
  rewrite length_checked_titles.
  destruct (summary_tests_equal user_prompt) as [_ Hagree].
  rewrite Hagree.
  destruct (summary_listed user_prompt); f_equal; lia.
Qed.

(** X11: the titles of the deck of a run whose charts can all be drawn,
    slide by slide.  After the cover
    title come the overview pages, "Introduction to Analysis", for every
    other column in column order its plot, insights and detail titles,
    then "Index of Slides" and "Summary of Findings" when they apply, the
    padding titles numbered from 1, "Conclusion of Analysis" and "Thank
    You".  Apart from the cover title, which is the first line of the
    model's first reply, the sequence depends on the column names, the
    focus, [min_slides] and the prompt only. *)
Theorem deck_title_sequence :
  forall convert_error : option string,
    df_empty df = false ->
    In col (df_columns df) ->
    charts_drawn df col plot_type = true ->
    exists st : State,
      build_deck w df col plot_type min_slides user_prompt empty_state
      = Ok (tt, st)
      /\ generate_eda_report w convert_error (Table df) col plot_type
                             min_slides user_prompt
         = save_and_convert w convert_error (prs st)
      /\ let listed :=
           List.length (listed_titles df col min_slides user_prompt) in
         let rounds :=
           Z.to_nat (min_slides
                     - (Z.of_nat listed
                        + (if summary_listed user_prompt then 1 else 0)
                        + 4)) in
         map title (prs st)
         = cover_title_of w
           :: overview_page_titles listed
           ++ "Introduction to Analysis"
           :: flat_map (comparison_titles col) (other_cols df col)
           ++ (if (2 * Z.of_nat (List.length (df_columns df)) <? min_slides)%Z
               then ["Index of Slides"] else [])
           ++ (if summary_listed user_prompt
               then ["Summary of Findings"] else [])
           ++ map (fun n => ("Additional Analysis " ++ PyStr.of_nat n)%string)
                  (seq 1 rounds)
           ++ ["Conclusion of Analysis"; "Thank You"].
Proof.
  intros ce Hne Hcol Hdrawn.
  destruct (getitem_found df col Hcol) as [focus Hfocus].
  destruct (build_deck_runs w df col plot_type min_slides user_prompt
              focus Hfocus Hdrawn)
    as [st1 [st2 [st3 [_ [_ [_ [Hrun Hshape]]]]]]].
  exists st3.
  split; [exact Hrun |].
  split; [now apply generate_eda_report_built |].
  destruct (build_deck_cover focus st3 Hfocus Hdrawn Hrun)
    as [rest Hhead].
  destruct (summary_tests_equal user_prompt) as [_ Hagree].
  destruct Hshape as [ct gi gx gs gc groups pads t1 t2 t3 HF HP filled padded].
  cbn [prs] in *. subst filled.
  assert (Hct : ct = cover_title_of w).
  { cbn [app] in Hhead. inversion Hhead. reflexivity. }
  destruct (padding_slide_titles _ _ HP) as [Hpads _].
  rewrite padding_rounds_value, additional_titles_from_one in Hpads.
  cbv zeta.
  rewrite listed_titles_slice.
  repeat (rewrite ?map_app; cbn [map]).
  rewrite overview_slide_titles, length_numbered.
  rewrite (group_titles focus _ _ HF), Hpads, Hct, Hagree.
  fold (num_cols df). fold (extra_slides_needed df min_slides).
  destruct (extra_slides_needed df min_slides),
    (summary_listed user_prompt);
    cbn [map app]; repeat (rewrite <- app_assoc; cbn [app]); reflexivity.
Qed.

End DeckPlan.

Lemma deck_title_sequence_witness :
  df_empty Sample.df_ab = false
  /\ In "B" (df_columns Sample.df_ab)
  /\ charts_drawn Sample.df_ab "B" "Bar" = true
  /\ exists deck : list Slide,
      generate_eda_report Sample.world None (Table Sample.df_ab) "B"
                          "Bar" 11 "with a summary, please"
      = Success deck
      /\ map title deck
         = [ "Sales Report"; "Overview of Upcoming Slides";
             "Introduction to Analysis";
             "Comparison Plot: B vs A"; "Comparison Insights: B vs A";
             "Detailed Insights: B vs A";
             "Index of Slides"; "Summary of Findings";
             "Additional Analysis 1";
             "Conclusion of Analysis"; "Thank You" ].
Proof.
  split; [reflexivity |].
  split; [simpl; auto |].
  split; [reflexivity |].
  destruct (deck_title_sequence Sample.world Sample.df_ab "B" "Bar" 11
              "with a summary, please" None)
    as [st [_ [Hrun Htitles]]].
  - reflexivity.
  - simpl. auto.
  - reflexivity.
  - exists (prs st). split; [exact Hrun |].
    rewrite Htitles. vm_compute. reflexivity.
Defined.

(** ** The frame and the size of a finished deck *)

Section DeckFrame.

Local Open Scope list_scope.

Variable w : World.
Variable df : DataFrame.
Variables col plot_type : string.
Variable min_slides : Z.
Variable user_prompt : string.

Lemma group_charts :
  forall (focus : Column) (names : list string) (groups : list (list Slide)),
    Forall2 (is_group df col plot_type focus) names groups ->
    Forall2
      (fun other_col s =>
         exists other : Column,
           getitem df other_col = Ok other
           /\ s = new_slide (plot_title col other_col) None
                    (Some (snd (choose_plot (col_numeric focus)
                                            (col_numeric other) plot_type))))
      names (filter is_chart_slide (List.concat groups)).
Proof.
  intros focus names groups HF.
  induction HF as [| o ss names groups [other [g [Hother ->]]] _ IH].
  - constructor.
  - cbn [List.concat]. rewrite filter_app.
    unfold comparison_slides at 1. cbn [filter].
    replace (is_chart_slide (new_slide (plot_title col o) None _))
      with true by reflexivity.
    replace (is_chart_slide (new_slide (insights_title col o) _ None))
      with false by reflexivity.
    replace (is_chart_slide (new_slide (detail_title col o) (Some g) None))
      with false by reflexivity.
    cbn [app]. constructor; [| exact IH].
    exists other. auto.
Qed.

(** X12: the frame of the deck when every chart of the run can be
    drawn.  The first slide is the title-only
    cover, the last two are the "Conclusion of Analysis" content slide and
    the title-only "Thank You"; every slide between the cover and the
    conclusion is a content slide or a chart slide; and the chart slides
    are one per other column, in column order, each with the chart that
    [choose_plot] picks for the two columns. *)
Theorem deck_frame :
  df_empty df = false ->
  In col (df_columns df) ->
  charts_drawn df col plot_type = true ->
  exists (focus : Column) (st : State) (middle : list Slide)
         (concl_points : list string),
    getitem df col = Ok focus
    /\ build_deck w df col plot_type min_slides user_prompt empty_state
       = Ok (tt, st)
    /\ prs st
       = title_only (cover_title_of w)
         :: middle
         ++ [ new_slide "Conclusion of Analysis" (Some concl_points) None;
              title_only "Thank You" ]
    /\ Forall (fun s => layout s = 1%nat \/ layout s = 5%nat) middle
    /\ Forall2
         (fun other_col s =>
            exists other : Column,
              getitem df other_col = Ok other
              /\ s = new_slide (plot_title col other_col) None
                       (Some (snd (choose_plot (col_numeric focus)
                                               (col_numeric other)
                                               plot_type))))
         (other_cols df col) (filter is_chart_slide (prs st)).
Proof.
  intros Hne Hcol Hdrawn.
  destruct (getitem_found df col Hcol) as [focus Hfocus].
  destruct (build_deck_runs w df col plot_type min_slides user_prompt
              focus Hfocus Hdrawn)
    as [st1 [st2 [st3 [_ [_ [_ [Hrun Hshape]]]]]]].
  destruct (build_deck_cover w df col plot_type min_slides user_prompt
              focus st3 Hfocus Hdrawn Hrun) as [rest Hhead].
  destruct Hshape as [ct gi gx gs gc groups pads t1 t2 t3 HF HP filled padded].
  cbn [prs] in *. subst filled.
  assert (Hct : ct = cover_title_of w).
  { cbn [app] in Hhead. inversion Hhead. reflexivity. }
  subst ct.
  exists focus. eexists.
  exists (overview_slides
            (numbered
               (PyStr.slice_to_last 2
                  (cover_title_of w
                   :: planned_tail df col min_slides user_prompt)))
          ++ new_slide "Introduction to Analysis" (Some gi) None
          :: List.concat groups
          ++ (if extra_slides_needed df min_slides
              then [new_slide "Index of Slides" (Some gx) None] else [])
          ++ (if summary_requested user_prompt
              then [new_slide "Summary of Findings" (Some gs) None] else [])
          ++ pads).
  exists gc.
  split; [exact Hfocus |].
  split; [exact Hrun |].
  cbn [prs].
  split.
  { cbn [app]. f_equal.
    repeat (rewrite <- app_assoc; cbn [app]). reflexivity. }
  split.
  { apply Forall_app. split.
    - apply overview_forall; intros; left; reflexivity.
    - constructor; [left; reflexivity |].
      apply Forall_app. split.
      + apply (groups_forall df col plot_type _ focus _ _) with (2 := HF).
        intros o other g. unfold comparison_slides.
        constructor; [right; reflexivity |].
        constructor; [left; reflexivity |].
        constructor; [left; reflexivity | constructor].
      + apply Forall_app. split.
        * destruct (extra_slides_needed df min_slides);
            repeat constructor.
        * apply Forall_app. split.
          -- destruct (summary_requested user_prompt); repeat constructor.
          -- apply (pads_forall _ _ _) with (2 := HP).
             intros; left; reflexivity. }
  rewrite !filter_app. cbn [filter].
  rewrite filter_app. cbn [filter]. rewrite !filter_app.
  rewrite (filter_none _ is_chart_slide (overview_slides _))
    by (apply overview_forall; reflexivity).
  rewrite (filter_none _ is_chart_slide pads)
    by (apply (pads_forall _ _ _) with (2 := HP); reflexivity).
  replace (is_chart_slide (title_only (cover_title_of w)))
    with false by reflexivity.
  replace (is_chart_slide (title_only "Thank You")) with false by reflexivity.
  replace (is_chart_slide
             (new_slide "Introduction to Analysis" (Some gi) None))
    with false by reflexivity.
  replace (is_chart_slide (new_slide "Conclusion of Analysis" (Some gc) None))
    with false by reflexivity.
  replace (filter is_chart_slide
             (if extra_slides_needed df min_slides
              then [new_slide "Index of Slides" (Some gx) None] else []))
    with (@nil Slide)
    by (destruct (extra_slides_needed df min_slides); reflexivity).
  replace (filter is_chart_slide
             (if summary_requested user_prompt
              then [new_slide "Summary of Findings" (Some gs) None] else []))
    with (@nil Slide)
    by (destruct (summary_requested user_prompt); reflexivity).
  cbn [app]. rewrite !app_nil_r.
  now apply group_charts.
Qed.

(** X13: the size of the deck when every chart of the run can be drawn.
    It has as many slides as the
    greater of [min_slides] and the count [len(slide_titles) + 1] of line
    221, plus its overview pages, minus one when the summary directive is
    given.  So the deck never falls short of [min_slides], and when
    padding was needed it exceeds it by the overview pages, less one with
    a summary. *)
Theorem deck_size :
  df_empty df = false ->
  In col (df_columns df) ->
  charts_drawn df col plot_type = true ->
  exists st1 st3 : State,
    plan_and_fill w df col plot_type min_slides user_prompt empty_state
    = Ok (tt, st1)
    /\ build_deck w df col plot_type min_slides user_prompt empty_state
       = Ok (tt, st3)
    /\ (Z.of_nat (List.length (prs st3))
        = Z.max (Z.of_nat (List.length (slide_titles st1)) + 1) min_slides
          + Z.of_nat (List.length (filter is_overview_slide (prs st3)))
          - (if summary_listed user_prompt then 1 else 0))%Z
    /\ List.length (filter is_overview_slide (prs st3))
       = ((List.length (listed_titles df col min_slides user_prompt) + 5)
          / 6)%nat.
Proof.
  intros Hne Hcol Hdrawn.
  destruct (getitem_found df col Hcol) as [focus Hfocus].
  destruct (build_deck_runs w df col plot_type min_slides user_prompt
              focus Hfocus Hdrawn)
    as [st1 [st2 [st3 [Hrun1 [_ [_ [Hrun Hshape]]]]]]].
  exists st1, st3.
  split; [exact Hrun1 |].
  split; [exact Hrun |].
  pose proof (non_overview_count _ _ _ _ _ _ _ _ _ Hshape) as Hnon.
  pose proof (overview_slides_of_run _ _ _ _ _ _ _ _ _ Hshape) as Hov.
  pose proof (filter_length is_overview_slide (prs st3)) as Hsplit.
  fold non_overview in Hsplit.
  change (filter (fun x => negb (is_overview_slide x)) (prs st3))
    with (filter non_overview (prs st3)) in Hsplit.
  rewrite Hov in *.
  rewrite length_overview_slides, length_numbered in *.
  split; [| reflexivity].
  destruct (summary_tests_equal user_prompt) as [_ Hagree].
  assert (Hcur :
            current_slides (slide_titles st1)
            = (Z.of_nat (4 + List.length
                               (listed_titles df col min_slides user_prompt))
               + (if summary_listed user_prompt then 1 else 0))%Z).
  { destruct Hshape. cbn [slide_titles]. unfold current_slides.
    rewrite length_checked_titles, Hagree.
    destruct (summary_listed user_prompt); lia. }
  pose proof (length_listed_titles df col min_slides user_prompt) as Hl.
  rewrite Hagree in Hnon. unfold current_slides in *.
  destruct (extra_slides_needed df min_slides),
    (summary_listed user_prompt); lia.
Qed.

(** X14: the deck of a run whose charts can all be drawn has no overview
    slide exactly when nothing is listed: no other column, no index slide
    and no summary directive. *)
Theorem no_overview_iff :
  df_empty df = false ->
  In col (df_columns df) ->
  charts_drawn df col plot_type = true ->
  exists st : State,
    build_deck w df col plot_type min_slides user_prompt empty_state
    = Ok (tt, st)
    /\ (filter is_overview_slide (prs st) = []
        <-> (other_cols df col = []
             /\ (min_slides <= 2 * Z.of_nat (List.length (df_columns df)))%Z
             /\ PyStr.contains "summary" (PyStr.lower user_prompt) = false)).
Proof.
  intros Hne Hcol Hdrawn.
  destruct (getitem_found df col Hcol) as [focus Hfocus].
  destruct (build_deck_runs w df col plot_type min_slides user_prompt
              focus Hfocus Hdrawn)
    as [st1 [st2 [st3 [_ [_ [_ [Hrun Hshape]]]]]]].
  exists st3. split; [exact Hrun |].
  rewrite (overview_slides_of_run _ _ _ _ _ _ _ _ _ Hshape).
  destruct (summary_tests_equal user_prompt) as [Hlisted _].
  rewrite <- Hlisted.
  pose proof (length_overview_slides
                (numbered (listed_titles df col min_slides user_prompt)))
    as Hpages.
  rewrite length_numbered, length_listed_titles in Hpages.
  unfold extra_slides_needed, num_cols in Hpages.
  split.
  - intros Hnil. rewrite Hnil in Hpages. cbn [List.length] in Hpages.
    symmetry in Hpages.
    apply Nat.div_small_iff in Hpages; [| discriminate].
    destruct (other_cols df col) as [| o rest];
      [| cbn [List.length] in Hpages; lia].
    destruct (Z.ltb_spec (2 * Z.of_nat (List.length (df_columns df)))
                         min_slides) as [_ | Hle];
      [cbn [List.length] in Hpages; lia |].
    destruct (summary_listed user_prompt);
      [cbn [List.length] in Hpages; lia |].
    auto.
  - intros [Hnone [Hle Hno]].
    rewrite Hnone, Hno in Hpages.
    destruct (Z.ltb_spec (2 * Z.of_nat (List.length (df_columns df)))
                         min_slides) as [Hlt | _]; [lia |].
    apply length_zero_iff_nil. rewrite Hpages. reflexivity.
Qed.

(** X15: without the summary directive, in a run whose charts can all
    be drawn, the count of line 221 is exact: [len(slide_titles) + 1],
    with the padding rounds added, is the number of slides of the
    finished deck that are not overview slides. *)
Theorem tracked_count_exact :
  df_empty df = false ->
  In col (df_columns df) ->
  charts_drawn df col plot_type = true ->
  PyStr.contains "summary" (PyStr.lower user_prompt) = false ->
  exists st1 st3 : State,
    plan_and_fill w df col plot_type min_slides user_prompt empty_state
    = Ok (tt, st1)
    /\ build_deck w df col plot_type min_slides user_prompt empty_state
       = Ok (tt, st3)
    /\ (Z.of_nat (List.length (slide_titles st1)) + 1
        + Z.of_nat
            (Z.to_nat
               (min_slides
                - (Z.of_nat (List.length (slide_titles st1)) + 1)))
        = Z.of_nat (List.length (filter non_overview (prs st3))))%Z
    /\ (Z.of_nat (List.length (slide_titles st3)) + 1
        = Z.of_nat (List.length (filter non_overview (prs st3))))%Z.
Proof.
  intros Hne Hcol Hdrawn Hno.
  destruct (getitem_found df col Hcol) as [focus Hfocus].
  destruct (build_deck_runs w df col plot_type min_slides user_prompt
              focus Hfocus Hdrawn)
    as [st1 [st2 [st3 [Hrun1 [_ [_ [Hrun Hshape]]]]]]].
  exists st1, st3.
  split; [exact Hrun1 |].
  split; [exact Hrun |].
  pose proof (non_overview_count _ _ _ _ _ _ _ _ _ Hshape) as Hnon.
  destruct (summary_tests_equal user_prompt) as [Hlisted Hagree].
  rewrite Hno in Hlisted. rewrite Hlisted in Hagree.
  rewrite Hagree in Hnon. rewrite Hnon.
  destruct Hshape as [ct gi gx gs gc groups pads t1 t2 t3 HF HP filled padded].
  cbn [prs slide_titles]. subst padded.
  unfold current_slides.
  rewrite length_app, length_map, length_seq.
  unfold padding_rounds, current_slides.
  rewrite length_checked_titles, length_listed_titles, Hagree, Hlisted.
  destruct (extra_slides_needed df min_slides); split; lia.
Qed.

End DeckFrame.

Lemma deck_frame_witness :
  df_empty Sample.df_abc = false
  /\ In "A" (df_columns Sample.df_abc)
  /\ charts_drawn Sample.df_abc "A" "Hexbin" = true
  /\ exists (st : State) (middle : list Slide) (concl_points : list string),
      build_deck Sample.world Sample.df_abc "A" "Hexbin" 3
                 Sample.default_text empty_state
      = Ok (tt, st)
      /\ prs st
         = title_only (cover_title_of Sample.world)
           :: (middle
               ++ [ new_slide "Conclusion of Analysis" (Some concl_points)
                              None;
                    title_only "Thank You" ])%list
      /\ List.length (filter is_chart_slide (prs st)) = 2%nat.
Proof.
  split; [reflexivity |].
  split; [simpl; auto |].
  split; [reflexivity |].
  destruct (deck_frame Sample.world Sample.df_abc "A" "Hexbin" 3
              Sample.default_text)
    as [focus [st [middle [gc [_ [Hrun [Hprs [_ Hcharts]]]]]]]].
  - reflexivity.
  - simpl. auto.
  - reflexivity.
  - exists st, middle, gc.
    split; [exact Hrun |].
    split; [exact Hprs |].
    apply Forall2_length in Hcharts. rewrite <- Hcharts. reflexivity.
Defined.

Lemma deck_size_witness :
  df_empty Sample.df_ab = false
  /\ In "A" (df_columns Sample.df_ab)
  /\ charts_drawn Sample.df_ab "A" "Scatter" = true
  /\ exists st1 st3 : State,
      plan_and_fill Sample.world Sample.df_ab "A" "Scatter" 20
                    "summary please" empty_state
      = Ok (tt, st1)
      /\ build_deck Sample.world Sample.df_ab "A" "Scatter" 20
                    "summary please" empty_state
         = Ok (tt, st3)
      /\ (Z.of_nat (List.length (prs st3))
          = Z.max (Z.of_nat (List.length (slide_titles st1)) + 1) 20
            + Z.of_nat (List.length (filter is_overview_slide (prs st3)))
            - 1)%Z.
Proof.
  split; [reflexivity |].
  split; [simpl; auto |].
  split; [reflexivity |].
  destruct (deck_size Sample.world Sample.df_ab "A" "Scatter" 20
              "summary please")
    as [st1 [st3 [Hrun1 [Hrun [Hsize _]]]]].
  - reflexivity.
  - simpl. auto.
  - reflexivity.
  - exists st1, st3.
    split; [exact Hrun1 |].
    split; [exact Hrun |].
    exact Hsize.
Defined.

Lemma no_overview_iff_witness :
  df_empty Sample.df_a = false
  /\ In "A" (df_columns Sample.df_a)
  /\ charts_drawn Sample.df_a "A" "Scatter" = true
  /\ exists st : State,
      build_deck Sample.world Sample.df_a "A" "Scatter" 2
                 Sample.default_text empty_state
      = Ok (tt, st)
      /\ filter is_overview_slide (prs st) = [].
Proof.
  split; [reflexivity |].
  split; [simpl; auto |].
  split; [reflexivity |].
  destruct (no_overview_iff Sample.world Sample.df_a "A" "Scatter" 2
              Sample.default_text)
    as [st [Hrun Hiff]].
  - reflexivity.
  - simpl. auto.
  - reflexivity.
  - exists st. split; [exact Hrun |].
    apply Hiff. repeat split.
    simpl. lia.
Defined.

Lemma tracked_count_exact_witness :
  df_empty Sample.df_abc = false
  /\ In "C" (df_columns Sample.df_abc)
  /\ charts_drawn Sample.df_abc "C" "Scatter" = true
  /\ PyStr.contains "summary" (PyStr.lower Sample.default_text) = false
  /\ exists st3 : State,
      build_deck Sample.world Sample.df_abc "C" "Scatter" 15
                 Sample.default_text empty_state
      = Ok (tt, st3)
      /\ (Z.of_nat (List.length (slide_titles st3)) + 1
          = Z.of_nat (List.length (filter non_overview (prs st3))))%Z.
Proof.
  split; [reflexivity |].
  split; [simpl; auto |].
  split; [reflexivity |].
  split; [reflexivity |].
  destruct (tracked_count_exact Sample.world Sample.df_abc "C" "Scatter" 15
              Sample.default_text)
    as [st1 [st3 [_ [Hrun [_ Hexact]]]]].
  - reflexivity.
  - simpl. auto.
  - reflexivity.
  - reflexivity.
  - exists st3. split; [exact Hrun | exact Hexact].
Defined.

(** ** What every slide of a deck satisfies *)

Section SlideInvariant.

Local Open Scope list_scope.

Variable w : World.
Variable df : DataFrame.
Variables col plot_type : string.
Variable min_slides : Z.
Variable user_prompt : string.

Variable P : Slide -> Prop.

Hypothesis P_title_only : forall t : string, P (title_only t).
Hypothesis P_overview :
  forall (ttl : string) (chunk : list string),
    ttl = "Overview of Upcoming Slides"
    \/ ttl = "Overview of Upcoming Slides Continued" ->
    (1 <= List.length chunk <= 6)%nat ->
    P (new_slide ttl (Some chunk) None).
Hypothesis P_chart :
  forall (other_col : string) (chart : Drawing),
    P (new_slide (plot_title col other_col) None (Some chart)).
Hypothesis P_insights :
  forall (other_col : string) (focus other : Column),
    P (new_slide (insights_title col other_col)
                 (Some (content_points df col other_col focus other)) None).
Hypothesis P_generated :
  forall (ttl : string) (points : list string),
    is_generated_title ttl = true ->
    returned_by (bullets_from_llama w) points ->
    P (new_slide ttl (Some points) None).
Hypothesis P_index :
  forall (text : string) (t t' : Tape) (points : list string),
    split_into_bullets w text 5 6 t = Ok (points, t') ->
    P (new_slide "Index of Slides" (Some points) None).

Lemma keeps_bind :
  forall (A B : Type) (c : M A) (k : A -> M B),
    Keeps P c ->
    (forall a, returned_by c a -> Keeps P (k a)) ->
    Keeps P (bind c k).
Proof.
  intros A B c k Hc Hk st b st' Hpre Hrun.
  unfold bind in Hrun.
  destruct (c st) as [[a st1] |] eqn:Hcst; [| discriminate].
  apply (Hk a (ex_intro _ st (ex_intro _ st1 Hcst)) st1 b st');
    [| exact Hrun].
  exact (Hc st a st1 Hpre Hcst).
Qed.

Lemma keeps_ret : forall (A : Type) (a : A), Keeps P (ret a).
Proof.
  intros A a st a' st' Hpre Hrun. inversion Hrun; subst. exact Hpre.
Qed.

Lemma keeps_push : forall s : Slide, P s -> Keeps P (push_slide s).
Proof.
  intros s Hs st a st' Hpre Hrun.
  inversion Hrun; subst. cbn [prs].
  apply Forall_app. split; [exact Hpre | repeat constructor; exact Hs].
Qed.

Lemma keeps_extend : forall l : list string, Keeps P (extend_titles l).
Proof.
  intros l st a st' Hpre Hrun. inversion Hrun; subst. exact Hpre.
Qed.

Lemma keeps_get_titles : Keeps P get_titles.
Proof.
  intros st a st' Hpre Hrun. inversion Hrun; subst. exact Hpre.
Qed.

Lemma keeps_on_tape :
  forall (A : Type) (f : Tape -> Result (A * Tape)), Keeps P (on_tape f).
Proof.
  intros A f st a st' Hpre Hrun. unfold on_tape in Hrun.
  destruct (f (tape st)) as [[a0 t'] |]; [| discriminate].
  inversion Hrun; subst. exact Hpre.
Qed.

Lemma keeps_raise_from :
  forall (A : Type) (r : Result A), Keeps P (raise_from r).
Proof.
  intros A r st a st' Hpre Hrun. unfold raise_from in Hrun.
  destruct r; [| discriminate]. inversion Hrun; subst. exact Hpre.
Qed.

Lemma keeps_for_each :
  forall (A : Type) (body : A -> M unit) (l : list A),
    (forall x, In x l -> Keeps P (body x)) ->
    Keeps P (for_each l body).
Proof.
  intros A body l. induction l as [| x l IH]; intros Hbody; cbn [for_each].
  - apply keeps_ret.
  - apply keeps_bind.
    + apply Hbody. now left.
    + intros _ _. apply IH. intros y Hy. apply Hbody. now right.
Qed.

Lemma keeps_bullets_from_llama : Keeps P (bullets_from_llama w).
Proof.
  unfold bullets_from_llama. apply keeps_bind.
  - unfold generate_with_llama. apply keeps_on_tape.
  - intros text _. apply keeps_on_tape.
Qed.

Lemma keeps_generated_slide :
  forall ttl : string,
    is_generated_title ttl = true ->
    Keeps P (points <- bullets_from_llama w ;;
             add_slide ttl (Some points) None).
Proof.
  intros ttl Httl. apply keeps_bind.
  - apply keeps_bullets_from_llama.
  - intros points Hpoints. apply keeps_push. now apply P_generated.
Qed.

Lemma keeps_cover : Keeps P (cover w).
Proof.
  unfold cover. apply keeps_bind.
  - unfold generate_with_llama. apply keeps_on_tape.
  - intros reply _. apply keeps_bind.
    + apply keeps_push, P_title_only.
    + intros _ _. apply keeps_extend.
Qed.

Lemma keeps_collect_titles :
  Keeps P (collect_titles df col min_slides user_prompt).
Proof.
  unfold collect_titles.
  repeat (apply keeps_bind; [| intros _ _]);
    try apply keeps_extend;
    match goal with
    | |- Keeps P (if ?b then _ else _) =>
        destruct b; [apply keeps_extend | apply keeps_ret]
    end.
Qed.

Lemma chunk_size :
  forall (content : list string) (i : nat),
    In i (range_by (List.length content) 6) ->
    (1 <= List.length (firstn 6 (skipn i content)) <= 6)%nat.
Proof.
  intros content i Hin. unfold range_by in Hin.
  apply in_map_iff in Hin. destruct Hin as [k [<- Hk]].
  apply in_seq in Hk.
  rewrite length_firstn, length_skipn.
  pose proof (Nat.div_mod_eq (List.length content + 6 - 1) 6) as Hd.
  pose proof (Nat.mod_upper_bound (List.length content + 6 - 1) 6).
  lia.
Qed.

Lemma keeps_overview : Keeps P overview.
Proof.
  unfold overview. apply keeps_bind; [apply keeps_get_titles |].
  intros titles _. apply keeps_for_each.
  intros i Hi. apply keeps_push. apply P_overview.
  - destruct (i =? 0)%nat; auto.
  - now apply chunk_size.
Qed.

Lemma detail_title_generated :
  forall col' other_col : string,
    is_generated_title (detail_title col' other_col) = true.
Proof.
  intros col' other_col. unfold is_generated_title, detail_title. cbn.
  destruct (col' ++ String " " (String "v" (String "s" (String " " other_col))))%string;
    reflexivity.
Qed.

Lemma additional_title_generated :
  forall i : nat, is_generated_title (additional_title i) = true.
Proof.
  intros i. unfold is_generated_title, additional_title. cbn.
  destruct (PyStr.of_nat (i + 1)); reflexivity.
Qed.

Lemma keeps_comparison :
  forall other_col : string,
    Keeps P (comparison w df col plot_type other_col).
Proof.
  intros other_col. unfold comparison.
  apply keeps_bind; [apply keeps_raise_from |]. intros focus _.
  apply keeps_bind; [apply keeps_raise_from |]. intros other _.
  apply keeps_bind; [apply keeps_raise_from |]. intros _ _.
  apply keeps_bind; [apply keeps_push, P_chart |]. intros _ _.
  apply keeps_bind; [apply keeps_push, P_insights |]. intros _ _.
  apply keeps_generated_slide. apply detail_title_generated.
Qed.

Lemma keeps_index : Keeps P (index w df min_slides).
Proof.
  unfold index. destruct (extra_slides_needed df min_slides);
    [| apply keeps_ret].
  apply keeps_bind; [apply keeps_get_titles |]. intros titles _.
  apply keeps_bind; [apply keeps_on_tape |].
  intros points [st [st' Hpoints]].
  apply keeps_push.
  unfold on_tape in Hpoints.
  destruct (split_into_bullets w _ 5 6 (tape st)) as [[g t'] |] eqn:Hs;
    [| discriminate].
  inversion Hpoints; subst. exact (P_index _ _ _ _ Hs).
Qed.

Lemma keeps_summary : Keeps P (summary w user_prompt).
Proof.
  unfold summary. destruct (summary_requested user_prompt);
    [| apply keeps_ret].
  apply keeps_bind; [apply keeps_bullets_from_llama |].
  intros points Hpoints.
  apply keeps_bind.
  - apply keeps_push. now apply P_generated.
  - intros _ _. apply keeps_extend.
Qed.

Lemma keeps_padding : Keeps P (padding w min_slides).
Proof.
  unfold padding. apply keeps_bind; [apply keeps_get_titles |].
  intros titles _.
  destruct (current_slides titles <? min_slides)%Z; [| apply keeps_ret].
  apply keeps_for_each. intros i _.
  apply keeps_bind; [apply keeps_bullets_from_llama |].
  intros points Hpoints.
  apply keeps_bind.
  - apply keeps_push.
    apply P_generated; [apply additional_title_generated | exact Hpoints].
  - intros _ _. apply keeps_extend.
Qed.

Lemma keeps_closing : Keeps P (closing w).
Proof.
  unfold closing.
  apply keeps_bind; [apply keeps_bullets_from_llama |].
  intros points Hpoints.
  apply keeps_bind.
  - apply keeps_push. now apply P_generated.
  - intros _ _. apply keeps_push, P_title_only.
Qed.

Lemma keeps_build_deck :
  Keeps P (build_deck w df col plot_type min_slides user_prompt).
Proof.
  unfold build_deck.
  apply keeps_bind.
  - unfold plan_and_fill.
    apply keeps_bind; [apply keeps_cover | intros _ _].
    apply keeps_bind; [apply keeps_collect_titles | intros _ _].
    apply keeps_bind; [apply keeps_overview | intros _ _].
    apply keeps_bind;
      [unfold introduction; apply keeps_generated_slide; reflexivity
      | intros _ _].
    apply keeps_bind;
      [apply keeps_for_each; intros o _; apply keeps_comparison
      | intros _ _].
    apply keeps_bind; [apply keeps_index | intros _ _].
    apply keeps_summary.
  - intros _ _.
    apply keeps_bind; [apply keeps_padding | intros _ _].
    apply keeps_closing.
Qed.

Lemma every_slide_satisfies :
  forall st : State,
    build_deck w df col plot_type min_slides user_prompt empty_state
    = Ok (tt, st) ->
    Forall P (prs st).
Proof.
  intros st Hrun.
  apply (keeps_build_deck empty_state tt st); [constructor | exact Hrun].
Qed.

End SlideInvariant.

Section WellFormedDeck.

Local Open Scope list_scope.

Lemma split_into_bullets_length :
  forall (w : World) (text : string) (t t' : Tape) (points : list string),
    split_into_bullets w text 5 6 t = Ok (points, t') ->
    List.length points = 5%nat \/ List.length points = 6%nat.
Proof.
  intros w text t t' points Hrun.
  destruct (Z_lt_le_dec (Z.of_nat (List.length (usable_lines text))) 5)
    as [Hfew | Hmany].
  - rewrite (split_into_bullets_few w text 5 6 t Hfew) in Hrun.
    inversion Hrun; subst. left. reflexivity.
  - rewrite (split_into_bullets_default w text t Hmany) in Hrun.
    set (r := (random_raw w (draws t)
               mod (Z.min 6 (Z.of_nat (List.length (usable_lines text)))
                    - 5 + 1))%Z) in Hrun.
    assert (Hr : (0 <= r
                  < Z.min 6 (Z.of_nat (List.length (usable_lines text)))
                    - 5 + 1)%Z)
      by (apply Z.mod_pos_bound; lia).
    unfold PyStr.take in Hrun.
    destruct (Z.ltb_spec (5 + r) 0) as [H | _]; [lia |].
    assert (Hpoints : points = firstn (Z.to_nat (5 + r)) (usable_lines text))
      by congruence.
    assert (Hn : (Z.to_nat (5 + r) <= List.length (usable_lines text))%nat)
      by lia.
    rewrite Hpoints, (firstn_length_le _ Hn). lia.
Qed.

Lemma bullets_from_llama_length :
  forall (w : World) (points : list string),
    returned_by (bullets_from_llama w) points ->
    List.length points = 5%nat \/ List.length points = 6%nat.
Proof.
  intros w points [st [st' Hrun]].
  unfold bullets_from_llama, bind, generate_with_llama, on_tape in Hrun.
  cbn [tape] in Hrun.
  match type of Hrun with
  | context [split_into_bullets w ?text 5 6 ?t] =>
      destruct (split_into_bullets w text 5 6 t) as [[g t'] |] eqn:Hs;
        [| discriminate]
  end.
  inversion Hrun; subst.
  exact (split_into_bullets_length _ _ _ _ _ Hs).
Qed.

Lemma bulleted_slide_well_formed :
  forall (ttl : string) (points : list string),
    (1 <= List.length points <= 6)%nat ->
    well_formed_slide (new_slide ttl (Some points) None).
Proof.
  intros ttl [| p ps] Hlen; [simpl in Hlen; lia |].
  unfold well_formed_slide, new_slide. cbn [body layout]. auto.
Qed.

(** X16: when every chart of the run can be drawn the deck is built, and
    every slide of it is of one of three kinds: a title slide without
    body, a chart slide with its picture, or a content slide to which
    [add_slide] was passed a list of one to six bullets.  No content
    slide is passed an empty list and none more than six bullets,
    whatever the language model answers. *)
Theorem every_slide_well_formed :
  forall (w : World) (df : DataFrame) (col plot_type : string)
         (min_slides : Z) (user_prompt : string),
    df_empty df = false ->
    In col (df_columns df) ->
    charts_drawn df col plot_type = true ->
    exists st : State,
      build_deck w df col plot_type min_slides user_prompt empty_state
      = Ok (tt, st)
      /\ Forall well_formed_slide (prs st).
Proof.
  intros w df col plot_type min_slides user_prompt Hne Hcol Hdrawn.
  destruct (getitem_found df col Hcol) as [focus Hfocus].
  destruct (build_deck_runs w df col plot_type min_slides user_prompt
              focus Hfocus Hdrawn)
    as [st1 [st2 [st3 [_ [_ [_ [Hrun _]]]]]]].
  exists st3. split; [exact Hrun |].
  apply (every_slide_satisfies w df col plot_type min_slides user_prompt
           well_formed_slide); [| | | | | | exact Hrun].
  - intros t. reflexivity.
  - intros ttl chunk _ Hlen. now apply bulleted_slide_well_formed.
  - intros o chart. reflexivity.
  - intros o f other. apply bulleted_slide_well_formed.
    unfold content_points, content_templates.
    rewrite length_map. cbn [List.length]. lia.
  - intros ttl points _ Hpoints. apply bulleted_slide_well_formed.
    destruct (bullets_from_llama_length w points Hpoints); lia.
  - intros text t t' points Hs. apply bulleted_slide_well_formed.
    destruct (split_into_bullets_length w text t t' points Hs); lia.
Qed.

Lemma every_slide_well_formed_witness :
  df_empty Sample.df_abc = false
  /\ In "C" (df_columns Sample.df_abc)
  /\ charts_drawn Sample.df_abc "C" "Box" = true
  /\ exists st : State,
      build_deck Sample.world Sample.df_abc "C" "Box" 30
                 "Summary and more" empty_state
      = Ok (tt, st)
      /\ Forall well_formed_slide (prs st).
Proof.
  split; [reflexivity |].
  split; [simpl; auto |].
  split; [reflexivity |].
  apply (every_slide_well_formed Sample.world Sample.df_abc "C" "Box" 30
           "Summary and more").
  - reflexivity.
  - simpl. auto.
  - reflexivity.
Defined.

Lemma bullets_from_llama_offline :
  forall (w : World) (points : list string),
    (forall n : nat, ollama_generate w n = None) ->
    returned_by (bullets_from_llama w) points ->
    points = fallback_lines.
Proof.
  intros w points Hoff [st [st' Hrun]].
  unfold bullets_from_llama, bind, generate_with_llama, on_tape in Hrun.
  rewrite Hoff in Hrun. cbn [tape] in Hrun.
  rewrite split_into_bullets_default in Hrun
    by (rewrite usable_lines_fallback; simpl; lia).
  rewrite usable_lines_fallback in Hrun.
  cbn [List.length fallback_lines] in Hrun.
  change (Z.min 6 (Z.of_nat 5) - 5 + 1)%Z with 1%Z in Hrun.
  rewrite Z.mod_1_r in Hrun.
  inversion Hrun; subst. reflexivity.
Qed.

(** X17: when every call to the language model raises and every chart
    can be drawn, the deck is built all the same.  Its cover is titled
    "Analysis failed due to error.", and
    every content slide that the model was to fill - the introduction, the
    detailed insights, the summary, the additional analyses and the
    conclusion - shows the same five fallback lines. *)
Theorem deck_when_model_is_down :
  forall (w : World) (df : DataFrame) (col plot_type : string)
         (min_slides : Z) (user_prompt : string),
    (forall n : nat, ollama_generate w n = None) ->
    df_empty df = false ->
    In col (df_columns df) ->
    charts_drawn df col plot_type = true ->
    exists (st : State) (rest : list Slide),
      build_deck w df col plot_type min_slides user_prompt empty_state
      = Ok (tt, st)
      /\ prs st = title_only "Analysis failed due to error." :: rest
      /\ Forall (generated_shows fallback_lines) (prs st).
Proof.
  intros w df col plot_type min_slides user_prompt Hoff Hne Hcol Hdrawn.
  destruct (getitem_found df col Hcol) as [focus Hfocus].
  destruct (build_deck_runs w df col plot_type min_slides user_prompt
              focus Hfocus Hdrawn)
    as [st1 [st2 [st3 [_ [_ [_ [Hrun _]]]]]]].
  destruct (build_deck_cover w df col plot_type min_slides user_prompt
              focus st3 Hfocus Hdrawn Hrun) as [rest Hhead].
  exists st3, rest. split; [exact Hrun |].
  split.
  { rewrite Hhead. unfold cover_title_of. rewrite Hoff. reflexivity. }
  apply (every_slide_satisfies w df col plot_type min_slides user_prompt
           (generated_shows fallback_lines)); [| | | | | | exact Hrun].
  - intros t Hl. discriminate.
  - intros ttl chunk [-> | ->] _ _ Hg; discriminate.
  - intros o chart Hl. discriminate.
  - intros o f other _ Hg. unfold insights_title in Hg.
    cbn in Hg. discriminate.
  - intros ttl points _ Hpoints _ _.
    rewrite (bullets_from_llama_offline w points Hoff Hpoints).
    reflexivity.
  - intros text t t' points _ _ Hg. discriminate.
Qed.

Lemma deck_when_model_is_down_witness :
  (forall n : nat,
      ollama_generate
        {| ollama_generate := fun _ => None; random_raw := fun _ => 3%Z;
           save_error := None |} n
      = None)
  /\ df_empty Sample.df_ab = false
  /\ In "A" (df_columns Sample.df_ab)
  /\ charts_drawn Sample.df_ab "A" "Bar" = true
  /\ exists (st : State) (rest : list Slide),
      build_deck
        {| ollama_generate := fun _ => None; random_raw := fun _ => 3%Z;
           save_error := None |}
        Sample.df_ab "A" "Bar" 3 Sample.default_text empty_state
      = Ok (tt, st)
      /\ prs st = title_only "Analysis failed due to error." :: rest.
Proof.
  split; [reflexivity |].
  split; [reflexivity |].
  split; [simpl; auto |].
  split; [reflexivity |].
  destruct (deck_when_model_is_down
              {| ollama_generate := fun _ => None;
                 random_raw := fun _ => 3%Z;
                 save_error := None |}
              Sample.df_ab "A" "Bar" 3 Sample.default_text)
    as [st [rest [Hrun [Hhead _]]]].
  - reflexivity.
  - reflexivity.
  - simpl. auto.
  - reflexivity.
  - exists st, rest. split; [exact Hrun | exact Hhead].
Defined.

End WellFormedDeck.

(** ** How often the language model is called *)

Section ModelCalls.

Local Open Scope list_scope.

Variable w : World.

Lemma costs_bind :
  forall (A B : Type) (c : M A) (k : A -> M B) (n m : nat),
    Costs c n ->
    (forall a, Costs (k a) m) ->
    Costs (bind c k) (n + m).
Proof.
  intros A B c k n m Hc Hk st b st' Hrun.
  unfold bind in Hrun.
  destruct (c st) as [[a st1] |] eqn:Hcst; [| discriminate].
  rewrite (Hk a st1 b st' Hrun), (Hc st a st1 Hcst). lia.
Qed.

Lemma costs_as :
  forall (A : Type) (c : M A) (n m : nat),
    Costs c n -> n = m -> Costs c m.
Proof.
  intros A c n m Hc <-. exact Hc.
Qed.

Lemma costs_ret : forall (A : Type) (a : A), Costs (ret a) 0.
Proof.
  intros A a st a' st' Hrun. inversion Hrun; subst. lia.
Qed.

Lemma costs_push : forall s : Slide, Costs (push_slide s) 0.
Proof.
  intros s st a st' Hrun. inversion Hrun; subst. cbn [tape]. lia.
Qed.

Lemma costs_extend : forall l : list string, Costs (extend_titles l) 0.
Proof.
  intros l st a st' Hrun. inversion Hrun; subst. cbn [tape]. lia.
Qed.

Lemma costs_get_titles : Costs get_titles 0.
Proof.
  intros st a st' Hrun. inversion Hrun; subst. lia.
Qed.

Lemma costs_raise_from :
  forall (A : Type) (r : Result A), Costs (raise_from r) 0.
Proof.
  intros A r st a st' Hrun. unfold raise_from in Hrun.
  destruct r; [| discriminate]. inversion Hrun; subst. lia.
Qed.

Lemma costs_generate : Costs (generate_with_llama w) 1.
Proof.
  intros st a st' Hrun. unfold generate_with_llama, on_tape in Hrun.
  inversion Hrun; subst. cbn [tape llm_calls]. lia.
Qed.

Lemma costs_sanitize :
  forall (text : string) (min_points max_points : Z),
    Costs (on_tape (split_into_bullets w text min_points max_points)) 0.
Proof.
  intros text a b st g st' Hrun.
  unfold on_tape, split_into_bullets, randint in Hrun.
  repeat match type of Hrun with
         | context [if ?c then _ else _] => destruct c
         end;
    try discriminate;
    injection Hrun as _ <-; cbn [tape llm_calls]; lia.
Qed.

Lemma costs_for_each :
  forall (A : Type) (body : A -> M unit) (l : list A) (n : nat),
    (forall x, Costs (body x) n) ->
    Costs (for_each l body) (List.length l * n).
Proof.
  intros A body l n Hbody.
  induction l as [| x l IH]; cbn [for_each List.length].
  - apply costs_ret.
  - apply (costs_as _ _ (n + List.length l * n)); [| lia].
    apply costs_bind; [apply Hbody | intros _; exact IH].
Qed.

Lemma costs_bullets : Costs (bullets_from_llama w) 1.
Proof.
  unfold bullets_from_llama.
  apply (costs_as _ _ (1 + 0)); [| reflexivity].
  apply costs_bind; [apply costs_generate |].
  intros text. apply costs_sanitize.
Qed.

Lemma costs_generated_slide :
  forall ttl : string,
    Costs (points <- bullets_from_llama w ;;
           add_slide ttl (Some points) None) 1.
Proof.
  intros ttl. apply (costs_as _ _ (1 + 0)); [| reflexivity].
  apply costs_bind; [apply costs_bullets |].
  intros points. apply costs_push.
Qed.

Lemma costs_generated_and_tracked :
  forall ttl : string,
    Costs (points <- bullets_from_llama w ;;
           add_slide ttl (Some points) None ;;;
           extend_titles [ttl]) 1.
Proof.
  intros ttl. apply (costs_as _ _ (1 + (0 + 0))); [| reflexivity].
  apply costs_bind; [apply costs_bullets |]. intros points.
  apply costs_bind; [apply costs_push |]. intros _.
  apply costs_extend.
Qed.

Lemma costs_cover : Costs (cover w) 1.
Proof.
  unfold cover. apply (costs_as _ _ (1 + (0 + 0))); [| reflexivity].
  apply costs_bind; [apply costs_generate |]. intros reply.
  apply costs_bind; [apply costs_push |]. intros _.
  apply costs_extend.
Qed.

Lemma costs_collect_titles :
  forall (df : DataFrame) (col : string) (min_slides : Z)
         (user_prompt : string),
    Costs (collect_titles df col min_slides user_prompt) 0.
Proof.
  intros df col min_slides user_prompt st a st' Hrun.
  destruct (collect_titles_adds df col min_slides user_prompt st)
    as [ss [ts [t' [Hgo _]]]].
  unfold collect_titles, bind, extend_titles, ret in Hrun.
  destruct (extra_slides_needed df min_slides),
    (summary_listed user_prompt);
    inversion Hrun; subst; cbn [tape]; lia.
Qed.

Lemma costs_overview : Costs overview 0.
Proof.
  unfold overview. apply (costs_as _ _ (0 + 0)); [| reflexivity].
  apply costs_bind; [apply costs_get_titles |]. intros titles.
  eapply costs_as.
  - apply costs_for_each. intros i. apply costs_push.
  - lia.
Qed.

Lemma costs_comparison :
  forall (df : DataFrame) (col plot_type other_col : string),
    Costs (comparison w df col plot_type other_col) 1.
Proof.
  intros df col plot_type other_col. unfold comparison.
  apply (costs_as _ _ (0 + (0 + (0 + (0 + (0 + 1)))))); [| reflexivity].
  apply costs_bind; [apply costs_raise_from |]. intros focus.
  apply costs_bind; [apply costs_raise_from |]. intros other.
  apply costs_bind; [apply costs_raise_from |]. intros _.
  apply costs_bind; [apply costs_push |]. intros _.
  apply costs_bind; [apply costs_push |]. intros _.
  apply costs_generated_slide.
Qed.

Lemma costs_index :
  forall (df : DataFrame) (min_slides : Z),
    Costs (index w df min_slides) 0.
Proof.
  intros df min_slides. unfold index.
  destruct (extra_slides_needed df min_slides); [| apply costs_ret].
  apply (costs_as _ _ (0 + (0 + 0))); [| reflexivity].
  apply costs_bind; [apply costs_get_titles |]. intros titles.
  apply costs_bind; [apply costs_sanitize |]. intros points.
  apply costs_push.
Qed.

Lemma costs_summary :
  forall user_prompt : string,
    Costs (summary w user_prompt)
          (if summary_requested user_prompt then 1 else 0).
Proof.
  intros user_prompt. unfold summary.
  destruct (summary_requested user_prompt); [| apply costs_ret].
  apply costs_generated_and_tracked.
Qed.

Lemma costs_plan_and_fill :
  forall (df : DataFrame) (col plot_type : string) (min_slides : Z)
         (user_prompt : string),
    Costs (plan_and_fill w df col plot_type min_slides user_prompt)
          (2 + List.length (other_cols df col)
           + (if summary_requested user_prompt then 1 else 0)).
Proof.
  intros df col plot_type min_slides user_prompt. unfold plan_and_fill.
  apply (costs_as _ _
           (1 + (0 + (0 + (1 + (List.length (other_cols df col) * 1
                                + (0 + (if summary_requested user_prompt
                                        then 1 else 0))))))));
    [| lia].
  apply costs_bind; [apply costs_cover |]. intros _.
  apply costs_bind; [apply costs_collect_titles |]. intros _.
  apply costs_bind; [apply costs_overview |]. intros _.
  apply costs_bind;
    [unfold introduction; apply costs_generated_slide |]. intros _.
  apply costs_bind;
    [apply costs_for_each; intros o; apply costs_comparison |]. intros _.
  apply costs_bind; [apply costs_index |]. intros _.
  apply costs_summary.
Qed.

Lemma calls_of_padding :
  forall (min_slides : Z) (st st' : State),
    padding w min_slides st = Ok (tt, st') ->
    llm_calls (tape st')
    = (llm_calls (tape st)
       + Z.to_nat (min_slides - current_slides (slide_titles st)))%nat.
Proof.
  intros min_slides st st' Hrun.
  unfold padding, bind, get_titles in Hrun.
  destruct (Z.ltb_spec (current_slides (slide_titles st)) min_slides)
    as [Hlt | Hge].
  - rewrite (costs_for_each _ _ _ 1
               (fun i => costs_generated_and_tracked (additional_title i))
               st tt st' Hrun).
    rewrite length_seq. lia.
  - inversion Hrun; subst. lia.
Qed.

Lemma costs_closing : Costs (closing w) 1.
Proof.
  unfold closing. apply (costs_as _ _ (1 + (0 + 0))); [| reflexivity].
  apply costs_bind; [apply costs_bullets |]. intros points.
  apply costs_bind; [apply costs_push |]. intros _.
  apply costs_push.
Qed.

(** X18: the number of calls to the language model in a run whose charts
    can all be drawn: one for the cover title and one for every slide it
    fills - the introduction, one detail slide per other column, the
    summary when asked for, every padding slide, and the conclusion. *)
Theorem model_calls_of_run :
  forall (df : DataFrame) (col plot_type : string) (min_slides : Z)
         (user_prompt : string),
    df_empty df = false ->
    In col (df_columns df) ->
    charts_drawn df col plot_type = true ->
    exists st1 st3 : State,
      plan_and_fill w df col plot_type min_slides user_prompt empty_state
      = Ok (tt, st1)
      /\ build_deck w df col plot_type min_slides user_prompt empty_state
         = Ok (tt, st3)
      /\ llm_calls (tape st3)
         = (3 + List.length (other_cols df col)
            + (if PyStr.contains "summary" (PyStr.lower user_prompt)
               then 1 else 0)
            + Z.to_nat
                (min_slides
                 - (Z.of_nat (List.length (slide_titles st1)) + 1)))%nat
      /\ List.length
           (filter (fun s => is_generated_title (title s)
                             && (layout s =? 1)%nat) (prs st3))
         = (llm_calls (tape st3) - 1)%nat.
Proof.
  intros df col plot_type min_slides user_prompt Hne Hcol Hdrawn.
  destruct (getitem_found df col Hcol) as [focus Hfocus].
  destruct (build_deck_runs w df col plot_type min_slides user_prompt
              focus Hfocus Hdrawn)
    as [st1 [st2 [st3 [Hrun1 [Hrun2 [Hrun3 [Hrun Hshape]]]]]]].
  exists st1, st3.
  split; [exact Hrun1 |].
  split; [exact Hrun |].
  pose proof (costs_plan_and_fill df col plot_type min_slides user_prompt
                empty_state tt st1 Hrun1) as H1.
  pose proof (calls_of_padding min_slides st1 st2 Hrun2) as H2.
  pose proof (costs_closing st2 tt st3 Hrun3) as H3.
  destruct (summary_tests_equal user_prompt) as [Hlisted Hagree].
  rewrite Hagree, Hlisted in H1.
  cbn [empty_state tape fresh_tape llm_calls] in H1.
  assert (Hcalls :
            llm_calls (tape st3)
            = (3 + List.length (other_cols df col)
               + (if PyStr.contains "summary" (PyStr.lower user_prompt)
                  then 1 else 0)
               + Z.to_nat (min_slides - current_slides (slide_titles st1)))%nat)
    by lia.
  split; [exact Hcalls |].
  rewrite Hcalls. clear H1 H2 H3 Hcalls Hrun1 Hrun2 Hrun3 Hrun.
  rewrite <- Hlisted, <- Hagree.
  destruct Hshape as [ct gi gx gs gc groups pads t1 t2 t3 HF HP filled padded].
  cbn [prs slide_titles]. subst filled.
  fold (padding_rounds df col min_slides user_prompt ct).
  pose proof (Forall2_length HP) as Hpads. rewrite length_seq in Hpads.
  set (p := fun s : Slide =>
              is_generated_title (title s) && (layout s =? 1)%nat).
  rewrite !filter_app. cbn [filter].
  rewrite filter_app. cbn [filter]. rewrite !filter_app.
  rewrite (filter_none _ p (overview_slides _))
    by (apply overview_forall; reflexivity).
  rewrite (filter_all _ p pads).
  2:{ apply (pads_forall _ _ _) with (2 := HP). intros i g. subst p.
      cbn [title layout new_slide].
      now rewrite additional_title_generated. }
  replace (p (title_only ct)) with false
    by (subst p; cbn [title layout title_only]; now rewrite andb_false_r).
  replace (p (title_only "Thank You")) with false by reflexivity.
  replace (p (new_slide "Introduction to Analysis" (Some gi) None))
    with true by reflexivity.
  replace (p (new_slide "Conclusion of Analysis" (Some gc) None))
    with true by reflexivity.
  replace (filter p (if extra_slides_needed df min_slides
                     then [new_slide "Index of Slides" (Some gx) None]
                     else []))
    with (@nil Slide)
    by (destruct (extra_slides_needed df min_slides); reflexivity).
  assert (Hgroups :
            List.length (filter p (List.concat groups))
            = List.length (other_cols df col)).
  { clear Hpads HP. induction HF as [| o ss names groups' [other [g [_ ->]]] _ IH].
    - reflexivity.
    - cbn [List.concat]. rewrite filter_app, length_app, IH.
      unfold comparison_slides. cbn [filter].
      replace (p (new_slide (plot_title col o) None _)) with false
        by (subst p; cbn [title layout new_slide]; now rewrite andb_false_r).
      replace (p (new_slide (insights_title col o) _ None)) with false
        by reflexivity.
      replace (p (new_slide (detail_title col o) (Some g) None)) with true
        by (subst p; cbn [title layout new_slide];
            now rewrite detail_title_generated).
      reflexivity. }
  cbn [app List.length]. rewrite !length_app. cbn [List.length].
  rewrite Hgroups, <- Hpads.
  destruct (summary_requested user_prompt); cbn [filter List.length];
    [replace (p (new_slide "Summary of Findings" (Some gs) None))
       with true by reflexivity |];
    cbn [List.length]; lia.
Qed.

End ModelCalls.

Lemma model_calls_of_run_witness :
  df_empty Sample.df_abc = false
  /\ In "A" (df_columns Sample.df_abc)
  /\ charts_drawn Sample.df_abc "A" "Scatter" = true
  /\ exists st3 : State,
      build_deck Sample.world Sample.df_abc "A" "Scatter" 14
                 "with summary" empty_state
      = Ok (tt, st3)
      /\ llm_calls (tape st3) = 7%nat.
Proof.
  split; [reflexivity |].
  split; [simpl; auto |].
  split; [reflexivity |].
  destruct (model_calls_of_run Sample.world Sample.df_abc "A" "Scatter" 14
              "with summary")
    as [st1 [st3 [Hrun1 [Hrun [Hcalls _]]]]].
  - reflexivity.
  - simpl. auto.
  - reflexivity.
  - exists st3. split; [exact Hrun |].
    rewrite Hcalls.
    assert (Hst1 : slide_titles st1
                   = slide_titles
                       (snd (match plan_and_fill Sample.world Sample.df_abc
                                     "A" "Scatter" 14 "with summary"
                                     empty_state with
                             | Ok r => r
                             | Raise _ => (tt, empty_state)
                             end)))
      by (rewrite Hrun1; reflexivity).
    rewrite Hst1. vm_compute. reflexivity.
Defined.


(** ** The cover title and the sanitizer's bounds *)

Section CoverAndBounds.

Local Open Scope list_scope.

Lemma lstrip_empty :
  forall s : string, PyStr.lstrip s = EmptyString -> all_space s = true.
Proof.
  induction s as [| c r IH]; simpl; intros H.
  - reflexivity.
  - destruct (PyStr.is_space c); [auto | discriminate].
Qed.

Lemma rstrip_empty :
  forall s : string,
    starts_with_space s = false ->
    PyStr.rstrip s = EmptyString -> s = EmptyString.
Proof.
  intros [| c r] Hhead H; [reflexivity |].
  rewrite rstrip_cons in H. simpl in Hhead.
  destruct (PyStr.rstrip r); [rewrite Hhead in H |]; discriminate.
Qed.

Lemma strip_empty_iff :
  forall s : string, PyStr.strip s = EmptyString <-> all_space s = true.
Proof.
  intros s. unfold PyStr.strip. split.
  - intros H. apply lstrip_empty.
    apply rstrip_empty; [apply lstrip_head | exact H].
  - intros H. now rewrite (lstrip_all_space s H).
Qed.

Lemma split_head :
  forall (sep : ascii) (s : string),
    starts_with_space s = false ->
    starts_with_space (hd "" (PyStr.split sep s)) = false.
Proof.
  intros sep [| c r] Hhead; [reflexivity |].
  simpl in *. destruct (Ascii.eqb c sep); [reflexivity |].
  destruct (PyStr.split sep r); simpl; exact Hhead.
Qed.

Lemma split_head_empty :
  forall s : string,
    starts_with_space s = false ->
    hd "" (PyStr.split PyStr.newline s) = EmptyString ->
    s = EmptyString.
Proof.
  intros [| c r] Hhead H; [reflexivity |].
  simpl in *.
  destruct (Ascii.eqb_spec c PyStr.newline) as [-> | Hne].
  - vm_compute in Hhead. discriminate.
  - destruct (PyStr.split PyStr.newline r); discriminate.
Qed.

(** X19: the cover title is one line without a line break and without
    leading white space, and it is empty exactly when the model answers
    with white space only: an empty answer is not replaced by the fallback
    text, the cover then has no title. *)
Theorem cover_title_shape :
  forall w : World,
    mentions PyStr.newline (cover_title_of w) = false
    /\ starts_with_space (cover_title_of w) = false
    /\ (cover_title_of w = EmptyString
        <-> exists response : string,
            ollama_generate w 0 = Some response
            /\ all_space response = true).
Proof.
  intros w. unfold cover_title_of.
  set (reply := match ollama_generate w 0 with
                | Some response => PyStr.strip response
                | None => llama_fallback
                end).
  assert (Hhead : starts_with_space reply = false).
  { subst reply. destruct (ollama_generate w 0) as [response |].
    - unfold PyStr.strip. apply rstrip_head, lstrip_head.
    - reflexivity. }
  split; [| split].
  - pose proof (split_pieces_without_separator PyStr.newline reply) as HF.
    pose proof (split_not_nil PyStr.newline reply) as Hnil.
    destruct (PyStr.split PyStr.newline reply); [congruence |].
    inversion HF; subst. assumption.
  - now apply split_head.
  - split.
    + intros Hempty.
      pose proof (split_head_empty reply Hhead Hempty) as Hreply.
      subst reply. destruct (ollama_generate w 0) as [response |].
      * exists response. split; [reflexivity |].
        now apply strip_empty_iff.
      * discriminate.
    + intros [response [Hsome Hblank]].
      subst reply. rewrite Hsome.
      apply strip_empty_iff in Hblank. rewrite Hblank. reflexivity.
Qed.

(** X20: for bounds [0 <= min_points <= max_points] and a text with a
    usable line and [min_points] usable lines or more,
    [split_into_bullets] returns the first [n] usable lines with [n]
    between [min_points] and the smaller of [max_points] and the number
    of usable lines, after one random draw. *)
Theorem split_into_bullets_within_bounds :
  forall (w : World) (text : string) (min_points max_points : Z) (t : Tape),
    (0 <= min_points <= max_points)%Z ->
    usable_lines text <> [] ->
    (min_points <= Z.of_nat (List.length (usable_lines text)))%Z ->
    exists n : nat,
      split_into_bullets w text min_points max_points t
      = Ok (firstn n (usable_lines text),
            {| llm_calls := llm_calls t; draws := S (draws t) |})
      /\ List.length (firstn n (usable_lines text)) = n
      /\ (min_points <= Z.of_nat n
          <= Z.min max_points (Z.of_nat (List.length (usable_lines text))))%Z.
Proof.
  intros w text min_points max_points t Hbounds Hsome Hlen.
  unfold split_into_bullets, randint.
  destruct (usable_lines text) as [| l ls] eqn:Hl; [congruence |].
  cbn [orb].
  destruct (Z.ltb_spec (Z.of_nat (List.length (l :: ls))) min_points)
    as [H | _]; [lia |].
  set (width := (Z.min max_points (Z.of_nat (List.length (l :: ls)))
                 - min_points + 1)%Z).
  destruct (Z.ltb_spec 0 width) as [Hwide | H]; [| subst width; lia].
  set (r := (random_raw w (draws t) mod width)%Z).
  assert (Hr : (0 <= r < width)%Z) by (apply Z.mod_pos_bound; lia).
  exists (Z.to_nat (min_points + r)).
  unfold PyStr.take.
  destruct (Z.ltb_spec (min_points + r) 0) as [H | _]; [lia |].
  split; [reflexivity |].
  split.
  - apply firstn_length_le. subst width. lia.
  - subst width. lia.
Qed.

Lemma split_into_bullets_within_bounds_witness :
  (0 <= 2 <= 3)%Z
  /\ usable_lines Sample.seven_lines <> []
  /\ (2 <= Z.of_nat (List.length (usable_lines Sample.seven_lines)))%Z
  /\ exists n : nat,
      split_into_bullets Sample.world Sample.seven_lines 2 3 fresh_tape
      = Ok (firstn n (usable_lines Sample.seven_lines),
            {| llm_calls := 0; draws := 1 |})
      /\ (2 <= Z.of_nat n <= 3)%Z.
Proof.
  assert (H1 : (0 <= 2 <= 3)%Z) by lia.
  assert (H2 : usable_lines Sample.seven_lines <> [])
    by (vm_compute; discriminate).
  assert (H3 : (2 <= Z.of_nat (List.length
                                 (usable_lines Sample.seven_lines)))%Z)
    by (vm_compute; discriminate).
  split; [exact H1 |].
  split; [exact H2 |].
  split; [exact H3 |].
  destruct (split_into_bullets_within_bounds Sample.world Sample.seven_lines
              2 3 fresh_tape H1 H2 H3) as [n [Hrun [_ Hn]]].
  exists n. split; [exact Hrun |].
  assert (Hmin : Z.min 3 (Z.of_nat (List.length
                                      (usable_lines Sample.seven_lines)))
                 = 3%Z) by (vm_compute; reflexivity).
  rewrite Hmin in Hn. exact Hn.
Defined.

End CoverAndBounds.
